(** * Job portal backend: the recommendation pipeline and the workflow views

    A shallow embedding of [mynewapp/services/ai_service.py] and of the
    views of [mynewapp/views.py] that carry the portal's invariants, over a
    relational store modelled as tables of rows.

    Python values that arrive untyped (the request body, the model's reply)
    are values of [json]; an exception is a [Raise] in the [result] monad.
    What lives outside the repository (the JSON codec, [int()], [str.strip],
    the ORM's coercion of a primary key, the HTTP client and the process
    environment) is the [Platform] interface: the general theorems hold for
    every platform, the examples run on [python_platform]. *)

From Stdlib Require Import ZArith List String Ascii Bool Lia.
From Stdlib Require Import Floats.SpecFloat.
From Stdlib Require Import DecimalString.
From Stdlib Require Import Sorting.Sorted.
Import ListNotations.

Local Open Scope string_scope.
Local Open Scope Z_scope.

(** ** Exceptions and the error monad *)

Inductive exn : Type :=
| PermissionDenied (detail : string)
| NotAuthenticated
| Http404
| DoesNotExist
| MultipleObjectsReturned
| ValueError
| TypeError
| AttributeError
| IndexError
| KeyError
| OverflowError
| JSONDecodeError
| HTTPError (status_code : Z)
| Timeout
| ConnectionError.

Inductive result (A : Type) : Type :=
| Ok (a : A)
| Raise (e : exn).

Arguments Ok {A} a.
Arguments Raise {A} e.

Definition bind {A B : Type} (c : result A) (k : A -> result B) : result B :=
  match c with
  | Ok a => k a
  | Raise e => Raise e
  end.

Notation "x <- c ;; k" := (bind c (fun x => k))
  (at level 61, c at next level, right associativity).

(** ** Python values *)

#[local] Set Warnings "-register-all".

(** The values [json.loads] builds, [None] being [JNull].  A float is its
    binary64 datum: a zero, an infinity, a NaN, or sign, mantissa and
    exponent. *)
Inductive json : Type :=
| JNull
| JBool (b : bool)
| JInt (n : Z)
| JFloat (f : spec_float)
| JStr (s : string)
| JArr (items : list json)
| JObj (pairs : list (string * json)).

(** [bool(v)]: the test behind [if v], [not v] and [v or w]. *)
Definition py_truthy (v : json) : bool :=
  match v with
  | JNull => false
  | JBool b => b
  | JInt n => negb (n =? 0)
  | JFloat f => match f with S754_zero _ => false | _ => true end
  | JStr s => negb (String.eqb s "")
  | JArr items => match items with [] => false | _ => true end
  | JObj pairs => match pairs with [] => false | _ => true end
  end.

Definition py_or (v w : json) : json := if py_truthy v then v else w.

(** A dict built from a sequence of pairs keeps, for a key that occurs
    more than once, the last value. *)
Fixpoint dict_lookup (k : string) (pairs : list (string * json)) : option json :=
  match pairs with
  | [] => None
  | (k', v) :: rest =>
      match dict_lookup k rest with
      | Some w => Some w
      | None => if String.eqb k k' then Some v else None
      end
  end.

(** [d.get(k, default)]; only a dict has the method. *)
Definition py_get (d : json) (k : string) (default : json) : result json :=
  match d with
  | JObj pairs =>
      Ok (match dict_lookup k pairs with Some v => v | None => default end)
  | _ => Raise AttributeError
  end.

(** [v[0]]. *)
Definition py_item0 (v : json) : result json :=
  match v with
  | JArr [] => Raise IndexError
  | JArr (x :: _) => Ok x
  | JStr EmptyString => Raise IndexError
  | JStr (String c _) => Ok (JStr (String c EmptyString))
  | JObj _ => Raise KeyError
  | _ => Raise TypeError
  end.

(** ** Strings: [find], [rfind] and slices *)

(** [s.find(c)] for a one-character needle: the least index of [c], or -1. *)
Fixpoint str_find (c : ascii) (s : string) : Z :=
  match s with
  | EmptyString => -1
  | String a rest =>
      if Ascii.eqb a c then 0
      else let i := str_find c rest in
           if i =? -1 then -1 else i + 1
  end.

(** [s.rfind(c)]: the greatest index of [c], or -1. *)
Fixpoint str_rfind (c : ascii) (s : string) : Z :=
  match s with
  | EmptyString => -1
  | String a rest =>
      let i := str_rfind c rest in
      if i =? -1 then (if Ascii.eqb a c then 0 else -1) else i + 1
  end.

(** [s[lo:hi]] for [0 <= lo]; an upper bound past the end is clipped. *)
Definition str_slice (s : string) (lo hi : Z) : string :=
  substring (Z.to_nat lo) (Z.to_nat (hi - lo)) s.

Definition dquote : string := String "034"%char EmptyString.
Definition newline : string := String "010"%char EmptyString.
Definition quoted (s : string) : string := dquote ++ s ++ dquote.

(** ** The platform *)

Record http_response : Type := {
  status_code : Z;
  text : string
}.

Class Platform : Type := {
  (** [json.loads] on a [str]; [None] when it raises. *)
  json_loads : string -> option json;
  json_dumps : json -> string;
  (** the builtin [int(v)] *)
  py_int : json -> result Z;
  (** [s.strip()] *)
  str_strip : string -> string;
  (** the key the ORM looks for in [filter(pk=v)] and [get(pk=v)]; [None]
      is SQL's NULL, which no row's key equals *)
  pk_prep : json -> result (option Z);
  (** [requests.post(url, headers=, data=, timeout=)] *)
  requests_post :
    string -> list (string * string) -> string -> Z -> result http_response;
  OPENROUTER_API_URL : string;
  OPENROUTER_API_KEY : string;
  OPENROUTER_MODEL : string
}.

(** ** services/ai_service.py *)

Section AiService.
Context {P : Platform}.

Definition system_prompt : string :=
  "You are an assistant that selects the single best matching job for a job seeker. "
  ++ "ALWAYS respond with strict JSON using this schema without markdown or commentary: "
  ++ "{" ++ newline ++ "  " ++ quoted "best_job_id" ++ ": number," ++ newline
  ++ "  " ++ quoted "score" ++ ": number," ++ newline
  ++ "  " ++ quoted "reason" ++ ": string" ++ newline ++ "} "
  ++ "Choose best_job_id from the provided list of jobs by id. Score in 0..100.".

Definition instruction : string :=
  "Pick the single best matching job id based on skills/experience overlap and role relevance. "
  ++ "Return strict JSON, no extra text.".

Definition _build_messages (resume_text : string) (jobs : list json) : json :=
  let user_prompt :=
    JObj [("resume_text", JStr resume_text);
          ("jobs", JArr jobs);
          ("instruction", JStr instruction)] in
  JArr [JObj [("role", JStr "system"); ("content", JStr system_prompt)];
        JObj [("role", JStr "user"); ("content", JStr (json_dumps user_prompt))]].

(** [resp.raise_for_status()] *)
Definition raise_for_status (resp : http_response) : result unit :=
  if (400 <=? status_code resp) && (status_code resp <? 600)
  then Raise (HTTPError (status_code resp))
  else Ok tt.

(** [resp.json()] *)
Definition response_json (resp : http_response) : result json :=
  match json_loads (text resp) with
  | Some v => Ok v
  | None => Raise JSONDecodeError
  end.

Definition headers : list (string * string) :=
  [("Authorization", "Bearer " ++ OPENROUTER_API_KEY);
   ("Content-Type", "application/json")].

(** The binary64 nearest to 0.2, the value of the literal. *)
Definition temperature : spec_float :=
  S754_finite false 7205759403792794 (-55).

Definition payload_of (messages : json) : json :=
  JObj [("model", JStr OPENROUTER_MODEL);
        ("messages", messages);
        ("temperature", JFloat temperature)].

Definition call_openrouter (messages : json) (timeout : Z) : result json :=
  resp <- requests_post OPENROUTER_API_URL headers
                        (json_dumps (payload_of messages)) timeout ;;
  _ <- raise_for_status resp ;;
  data <- response_json resp ;;
  choices <- py_get data "choices" (JArr [JObj []]) ;;
  choice <- py_item0 choices ;;
  message <- py_get choice "message" (JObj []) ;;
  content <- py_get message "content" (JStr "") ;;
  Ok (py_or content (JStr "")).

(** The [{...}] region the second attempt parses, when there is one. *)
Definition json_region (raw : string) : option string :=
  let start := str_find "{" raw in
  let end_ := str_rfind "}" raw in
  if negb (start =? -1) && negb (end_ =? -1) && (end_ >? start)
  then Some (str_slice raw start (end_ + 1))
  else None.

(** Python's [None] is [JNull]: a reply that parses to [null] and a reply
    that does not parse give the same return value.  On a reply that is not
    a [str], [json.loads] raises inside the [try] and [raw.find] outside. *)
Definition parse_best_job_json (raw : json) : result json :=
  match raw with
  | JStr s =>
      match json_loads s with
      | Some v => Ok v
      | None =>
          match json_region s with
          | Some snippet =>
              match json_loads snippet with
              | Some v => Ok v
              | None => Ok JNull
              end
          | None => Ok JNull
          end
      end
  | _ => Raise AttributeError
  end.

Record recommendation : Type := {
  best_job_id : json;
  score : json;
  reason : json;
  raw : json
}.

Definition recommend_best_job (resume_text : string) (jobs : list json)
  : result recommendation :=
  let messages := _build_messages resume_text jobs in
  raw <- call_openrouter messages 30 ;;
  parsed0 <- parse_best_job_json raw ;;
  let parsed := py_or parsed0 (JObj []) in
  best_job_id <- py_get parsed "best_job_id" JNull ;;
  score <- py_get parsed "score" JNull ;;
  reason <- py_get parsed "reason" JNull ;;
  Ok {| best_job_id := best_job_id; score := score; reason := reason; raw := raw |}.

End AiService.

(** ** models.py: the tables *)

(** A [DateField] holds a day number, a [TimeField] a second of the day, a
    [DateTimeField] an instant; only their order and equality matter. *)
Definition pydate : Type := Z.
Definition pytime : Type := Z.
Definition datetime : Type := Z.

Module User.
Record t : Type := {
  id : Z;
  email : string;
  password : string;
  first_name : string;
  last_name : string;
  phone : option string;
  accept_terms : bool;
  newsletter : bool;
  gender : option string;
  dob : option pydate;
  role : string;
  is_active : bool;
  is_staff : bool;
  is_superuser : bool;
  date_joined : datetime;
  last_login : option datetime
}.
End User.

Module Employer.
Record t : Type := {
  id : Z;
  user : Z;
  company_name : string;
  company_website : string;
  created_at : datetime
}.
End Employer.

Module JobSeeker.
Record t : Type := {
  id : Z;
  user : Z;
  resume_url : string;
  resume_text : string;
  created_at : datetime
}.
End JobSeeker.

Module Job.
Record t : Type := {
  id : Z;
  employer : Z;
  title : string;
  description : string;
  requirement : string;
  salary : option Z;
  location : string;
  created_at : datetime;
  is_active : bool
}.
End Job.

Module Application.
Inductive Status : Type := PENDING | REVIEW | ACCEPTED | REJECTED.

Record t : Type := {
  id : Z;
  job : Z;
  seeker : Z;
  status : Status;
  match_score : option spec_float;
  created_at : datetime
}.
End Application.

Module Interview.
Record t : Type := {
  id : Z;
  application : Z;
  title : string;
  date : pydate;
  time : pytime;
  created_at : datetime
}.
End Interview.

Module Appointment.
Record t : Type := {
  id : Z;
  application : Z;
  title : string;
  time : pytime;
  date : pydate;
  content : string;
  created_at : datetime
}.
End Appointment.

Module Payment.
Inductive Method : Type := MOMO | OM.

Record t : Type := {
  id : Z;
  user : Z;
  time : pytime;
  date : pydate;
  amount : Z;
  payment_method : Method;
  created_at : datetime
}.
End Payment.

(** The store: one list of rows per table, in insertion order.  A foreign
    key is the primary key of the row it refers to. *)
Record db : Type := {
  users : list User.t;
  employers : list Employer.t;
  seekers : list JobSeeker.t;
  jobs : list Job.t;
  applications : list Application.t;
  interviews : list Interview.t;
  appointments : list Appointment.t;
  payments : list Payment.t
}.

(** The key an [AutoField] gives the next row: above every key in use. *)
Definition next_id {A : Type} (pk : A -> Z) (rows : list A) : Z :=
  fold_right (fun r m => Z.max (pk r) m) 0 rows + 1.

(** [request.user]: [None] is the anonymous user. *)
Definition request_user : Type := option User.t.

Definition is_authenticated (u : request_user) : bool :=
  match u with Some _ => true | None => false end.

(** [getattr(user, 'role', None)]; the anonymous user has no [role]. *)
Definition role_of (u : request_user) : option string :=
  match u with Some x => Some (User.role x) | None => None end.

(** [user.seeker_profile]: the row of the reverse one-to-one relation,
    when [hasattr(user, 'seeker_profile')] holds. *)
Definition seeker_profile (d : db) (u : request_user) : option JobSeeker.t :=
  match u with
  | Some x => find (fun s => JobSeeker.user s =? User.id x) (seekers d)
  | None => None
  end.

Definition employer_profile (d : db) (u : request_user) : option Employer.t :=
  match u with
  | Some x => find (fun e => Employer.user e =? User.id x) (employers d)
  | None => None
  end.

(** ** views.py: the recommendation endpoint *)

Record request : Type := {
  user : request_user;
  data : json
}.

Inductive body : Type :=
| NoContent
| Detail (detail : string)
| Recommendation (score reason : json) (job : Job.t).

Record Response : Type := {
  payload : body;
  status : Z
}.

Definition HTTP_200_OK : Z := 200.
Definition HTTP_204_NO_CONTENT : Z := 204.
Definition HTTP_404_NOT_FOUND : Z := 404.

(** [order_by('-created_at')]: latest first; rows created at the same
    instant keep their table order. *)
Fixpoint insert_by_created_at (j : Job.t) (sorted : list Job.t) : list Job.t :=
  match sorted with
  | [] => [j]
  | h :: rest =>
      if Job.created_at h <=? Job.created_at j then j :: h :: rest
      else h :: insert_by_created_at j rest
  end.

Definition order_by_created_at_desc (rows : list Job.t) : list Job.t :=
  fold_right insert_by_created_at [] rows.

(** [Job.objects.filter(is_active=True).order_by('-created_at')[: max(5, limit)]] *)
Definition active_jobs (d : db) (limit : Z) : list Job.t :=
  firstn (Z.to_nat (Z.max 5 limit))
         (order_by_created_at_desc (filter Job.is_active (jobs d))).

Definition job_payload (j : Job.t) : json :=
  JObj [("id", JInt (Job.id j));
        ("title", JStr (Job.title j));
        ("description", JStr (Job.description j));
        ("requirement", JStr (Job.requirement j));
        ("location", JStr (Job.location j))].

(** [Job.objects.filter(pk=pk, is_active=True).first()] *)
Definition active_job_by_pk (d : db) (pk : option Z) : option Job.t :=
  match pk with
  | Some n => find (fun j => (Job.id j =? n) && Job.is_active j) (jobs d)
  | None => None
  end.

Section Recommendation.
Context {P : Platform}.

(** [v.strip()]: a method of [str] only. *)
Definition py_strip (v : json) : result string :=
  match v with
  | JStr s => Ok (str_strip s)
  | _ => Raise AttributeError
  end.

(** Lines 254-258: the resume text and the limit of the request. *)
Definition request_inputs (req : request) (d : db) : result (string * Z) :=
  given <- py_get (data req) "resume_text" JNull ;;
  resume_text <- py_strip (py_or given (JStr "")) ;;
  wanted <- py_get (data req) "limit" JNull ;;
  limit <- py_int (py_or wanted (JInt 25)) ;;
  let resume_text :=
    if negb (py_truthy (JStr resume_text)) && is_authenticated (user req) then
      match seeker_profile d (user req) with
      | Some profile => JobSeeker.resume_text profile
      | None => resume_text
      end
    else resume_text in
  Ok (resume_text, limit).

(** [AIJobRecommendationView.post] *)
Definition post (req : request) (d : db) : result Response :=
  inputs <- request_inputs req d ;;
  let '(resume_text, limit) := inputs in
  let jobs_qs := active_jobs d limit in
  let jobs_payload := map job_payload jobs_qs in
  match jobs_payload with
  | [] =>
      Ok {| payload := Detail "No active jobs available.";
            status := HTTP_404_NOT_FOUND |}
  | _ :: _ =>
      res <- recommend_best_job resume_text jobs_payload ;;
      let best_id := best_job_id res in
      best_job <- (if py_truthy best_id
                   then pk <- pk_prep best_id ;; Ok (active_job_by_pk d pk)
                   else Ok None) ;;
      best_job <- match best_job with
                  | Some j => Ok j
                  | None => match jobs_qs with
                            | first :: _ => Ok first
                            | [] => Raise IndexError
                            end
                  end ;;
      Ok {| payload := Recommendation (score res) (reason res) best_job;
            status := HTTP_200_OK |}
  end.

End Recommendation.

(** ** views.py: the views that write to the store *)

(** A view runs against the store and leaves it as its writes made it,
    also when it ends in an exception. *)
Definition action (A : Type) : Type := db -> result A * db.

Definition ret {A : Type} (a : A) : action A := fun d => (Ok a, d).
Definition raise {A : Type} (e : exn) : action A := fun d => (Raise e, d).
Definition query {A : Type} (q : db -> A) : action A := fun d => (Ok (q d), d).
Definition write (w : db -> db) : action unit := fun d => (Ok tt, w d).
Definition lift {A : Type} (c : result A) : action A := fun d => (c, d).

Definition and_then {A B : Type} (c : action A) (k : A -> action B) : action B :=
  fun d =>
    match c d with
    | (Ok a, d') => k a d'
    | (Raise e, d') => (Raise e, d')
    end.

Notation "x <~ c ;; k" := (and_then c (fun x => k))
  (at level 61, c at next level, right associativity).

Definition set_seekers (rows : list JobSeeker.t) (d : db) : db :=
  {| users := users d; employers := employers d; seekers := rows;
     jobs := jobs d; applications := applications d;
     interviews := interviews d; appointments := appointments d;
     payments := payments d |}.

Definition set_applications (rows : list Application.t) (d : db) : db :=
  {| users := users d; employers := employers d; seekers := seekers d;
     jobs := jobs d; applications := rows;
     interviews := interviews d; appointments := appointments d;
     payments := payments d |}.

Definition set_interviews (rows : list Interview.t) (d : db) : db :=
  {| users := users d; employers := employers d; seekers := seekers d;
     jobs := jobs d; applications := applications d;
     interviews := rows; appointments := appointments d;
     payments := payments d |}.

Definition set_appointments (rows : list Appointment.t) (d : db) : db :=
  {| users := users d; employers := employers d; seekers := seekers d;
     jobs := jobs d; applications := applications d;
     interviews := interviews d; appointments := rows;
     payments := payments d |}.

Definition set_jobs (rows : list Job.t) (d : db) : db :=
  {| users := users d; employers := employers d; seekers := seekers d;
     jobs := rows; applications := applications d;
     interviews := interviews d; appointments := appointments d;
     payments := payments d |}.

Definition set_users (rows : list User.t) (d : db) : db :=
  {| users := rows; employers := employers d; seekers := seekers d;
     jobs := jobs d; applications := applications d;
     interviews := interviews d; appointments := appointments d;
     payments := payments d |}.

(** *** ApplicationListView *)

(** [serializer.validated_data] of an [ApplicationSerializer]: of the
    writable fields, [job] is required and [status] is optional. *)
Record application_data : Type := {
  vd_job : option Job.t;
  vd_status : option Application.Status
}.

(** [JobSeeker.objects.create(user=user)]; the anonymous user is no row
    of the user table. *)
Definition create_seeker (u : request_user) (now : datetime) : action JobSeeker.t :=
  match u with
  | Some account =>
      fun d =>
        let row := {| JobSeeker.id := next_id JobSeeker.id (seekers d);
                      JobSeeker.user := User.id account;
                      JobSeeker.resume_url := "";
                      JobSeeker.resume_text := "";
                      JobSeeker.created_at := now |} in
        (Ok row, set_seekers (seekers d ++ [row]) d)
  | None => raise ValueError
  end.

(** [Application.objects.filter(job=job, seeker=seeker).exists()] *)
Definition application_exists (job : Job.t) (seeker : JobSeeker.t) (d : db) : bool :=
  existsb (fun a => (Application.job a =? Job.id job)
                    && (Application.seeker a =? JobSeeker.id seeker))
          (applications d).

(** [serializer.save(job=job, seeker=seeker)]: the row gets the validated
    fields, and the model's defaults for the others. *)
Definition save_application (vd : application_data) (job : Job.t)
    (seeker : JobSeeker.t) (now : datetime) : action Application.t :=
  fun d =>
    let row := {| Application.id := next_id Application.id (applications d);
                  Application.job := Job.id job;
                  Application.seeker := JobSeeker.id seeker;
                  Application.status :=
                    match vd_status vd with
                    | Some s => s
                    | None => Application.PENDING
                    end;
                  Application.match_score := None;
                  Application.created_at := now |} in
    (Ok row, set_applications (applications d ++ [row]) d).

Definition is_role (u : request_user) (r : string) : bool :=
  match role_of u with
  | Some x => String.eqb x r
  | None => false
  end.

(** [ApplicationListView.perform_create] *)
Definition application_perform_create (u : request_user)
    (vd : application_data) (now : datetime) : action unit :=
  if negb (is_authenticated u) || negb (is_role u "seeker")
  then raise (PermissionDenied "Only job seekers can apply.")
  else
    profile <~ query (fun d => seeker_profile d u) ;;
    seeker <~ match profile with
              | None => create_seeker u now
              | Some s => ret s
              end ;;
    match vd_job vd with
    | None => raise (PermissionDenied "This job is not available.")
    | Some job =>
        if negb (Job.is_active job)
        then raise (PermissionDenied "This job is not available.")
        else
          exists_ <~ query (application_exists job seeker) ;;
          if (exists_ : bool)
          then raise (PermissionDenied "You have already applied to this job.")
          else
            _ <~ save_application vd job seeker now ;;
            ret tt
    end.

(** *** InterviewListCreateView *)

(** [serializer.validated_data] of an [InterviewSerializer], apart from
    [application], which [save] is given anew. *)
Record interview_data : Type := {
  vd_title : string;
  vd_date : pydate;
  vd_time : pytime
}.

(** [Application.objects.select_related('job__employer').get(pk=pk)]: the
    row with its job and the job's employer joined in. *)
Definition get_application (d : db) (pk : option Z)
  : result (Application.t * Job.t * Employer.t) :=
  match pk with
  | None => Raise DoesNotExist
  | Some n =>
      match find (fun a => Application.id a =? n) (applications d) with
      | None => Raise DoesNotExist
      | Some app =>
          match find (fun j => Job.id j =? Application.job app) (jobs d) with
          | None => Raise DoesNotExist
          | Some job =>
              match find (fun e => Employer.id e =? Job.employer job) (employers d) with
              | None => Raise DoesNotExist
              | Some emp => Ok (app, job, emp)
              end
          end
      end
  end.

(** [serializer.save(application=app)] *)
Definition save_interview (vd : interview_data) (app : Application.t)
    (now : datetime) : action Interview.t :=
  fun d =>
    let row := {| Interview.id := next_id Interview.id (interviews d);
                  Interview.application := Application.id app;
                  Interview.title := vd_title vd;
                  Interview.date := vd_date vd;
                  Interview.time := vd_time vd;
                  Interview.created_at := now |} in
    (Ok row, set_interviews (interviews d ++ [row]) d).

Definition for_application (app : Application.t) (a : Appointment.t) : bool :=
  Appointment.application a =? Application.id app.

(** The [defaults] written over a row that [update_or_create] found. *)
Definition update_appointment (title : string) (date : pydate) (time : pytime)
    (content : string) (a : Appointment.t) : Appointment.t :=
  {| Appointment.id := Appointment.id a;
     Appointment.application := Appointment.application a;
     Appointment.title := title;
     Appointment.time := time;
     Appointment.date := date;
     Appointment.content := content;
     Appointment.created_at := Appointment.created_at a |}.

(** [Appointment.objects.update_or_create(application=app, defaults=...)]:
    [get] the row of [app]; update it, create it when there is none, and
    raise when there are several. *)
Definition update_or_create_appointment (app : Application.t)
    (title : string) (date : pydate) (time : pytime) (content : string)
    (now : datetime) : action (Appointment.t * bool) :=
  fun d =>
    match filter (for_application app) (appointments d) with
    | [] =>
        let row := {| Appointment.id := next_id Appointment.id (appointments d);
                      Appointment.application := Application.id app;
                      Appointment.title := title;
                      Appointment.time := time;
                      Appointment.date := date;
                      Appointment.content := content;
                      Appointment.created_at := now |} in
        (Ok (row, true), set_appointments (appointments d ++ [row]) d)
    | [found] =>
        let row := update_appointment title date time content found in
        (Ok (row, false),
         set_appointments
           (map (fun a => if Appointment.id a =? Appointment.id found then row else a)
                (appointments d)) d)
    | _ :: _ :: _ => (Raise MultipleObjectsReturned, d)
    end.

Section Interviews.
Context {P : Platform}.

(** [InterviewListCreateView.perform_create]; [request_data] is
    [self.request.data]. *)
Definition interview_perform_create (u : request_user) (request_data : json)
    (vd : interview_data) (now : datetime) : action unit :=
  owner <~ query (fun d => employer_profile d u) ;;
  if negb (is_authenticated u) || negb (is_role u "provider")
     || match owner with Some _ => false | None => true end
  then raise (PermissionDenied "Only providers can schedule interviews.")
  else
    application_id <~ lift (py_get request_data "application" JNull) ;;
    pk <~ lift (pk_prep application_id) ;;
    found <~ query (fun d => get_application d pk) ;;
    match found with
    | Raise DoesNotExist => raise (PermissionDenied "Invalid application.")
    | Raise e => raise e
    | Ok (app, job, _) =>
        match owner with
        | None => raise AttributeError
        | Some profile =>
            if negb (Job.employer job =? Employer.id profile)
            then raise (PermissionDenied "Not allowed.")
            else
              interview <~ save_interview vd app now ;;
              _ <~ update_or_create_appointment app
                     (Interview.title interview)
                     (Interview.date interview)
                     (Interview.time interview)
                     ("Interview: " ++ Interview.title interview)
                     now ;;
              ret tt
        end
    end.

End Interviews.

(** *** The detail views *)

Inductive http_method : Type := GET | HEAD | OPTIONS | POST | PUT | PATCH | DELETE.

Definition is_get (m : http_method) : bool :=
  match m with GET => true | _ => false end.

(** [IsAuthenticatedOrReadOnly.has_permission] *)
Definition is_authenticated_or_read_only (m : http_method) (u : request_user) : bool :=
  match m with
  | GET | HEAD | OPTIONS => true
  | _ => is_authenticated u
  end.

(** [IsAdminUser.has_permission] *)
Definition is_admin_user (u : request_user) : bool :=
  match u with
  | Some account => User.is_staff account
  | None => false
  end.

(** [GenericAPIView.get_object]: the row of the view's queryset with the
    key of the URL, or a 404. *)
Definition generic_get_object {A : Type} (pk_of : A -> Z) (rows : list A) (pk : Z)
  : result A :=
  match find (fun r => pk_of r =? pk) rows with
  | Some r => Ok r
  | None => Raise Http404
  end.

(** [JobRetrieveUpdateDestroyView.get_object]; the [option] is Python's:
    a call that reaches the end of the body returns [None]. *)
Definition job_get_object (m : http_method) (pk : Z) (d : db)
  : result (option Job.t) :=
  obj <- generic_get_object Job.id (jobs d) pk ;;
  if is_get m then
    if Job.is_active obj then Ok (Some obj)
    else Ok None
  else Ok None.

(** [instance.delete()] on a job: the row goes, and with it (the foreign
    keys are [on_delete=CASCADE]) its applications and their interviews
    and appointments. *)
Definition delete_job (obj : Job.t) (d : db) : db :=
  let of_job a := Application.job a =? Job.id obj in
  let gone pk := existsb (fun a => Application.id a =? pk)
                         (filter of_job (applications d)) in
  {| users := users d; employers := employers d; seekers := seekers d;
     jobs := filter (fun j => negb (Job.id j =? Job.id obj)) (jobs d);
     applications := filter (fun a => negb (of_job a)) (applications d);
     interviews :=
       filter (fun i => negb (gone (Interview.application i))) (interviews d);
     appointments :=
       filter (fun a => negb (gone (Appointment.application a))) (appointments d);
     payments := payments d |}.

(** [permission_denied]: a request that carries no account is asked to
    authenticate, another one is refused. *)
Definition permission_denied {A : Type} (u : request_user) : action A :=
  match u with
  | None => raise NotAuthenticated
  | Some _ =>
      raise (PermissionDenied "You do not have permission to perform this action.")
  end.

(** [DELETE /jobs/<pk>/]: the permission check, then
    [DestroyModelMixin.destroy] as the view inherits it:
    [instance = self.get_object(); instance.delete()] and a 204. *)
Definition job_delete (u : request_user) (pk : Z) : action Response :=
  if is_authenticated_or_read_only DELETE u then
    instance <~ (fun d => (job_get_object DELETE pk d, d)) ;;
    match instance with
    | Some obj =>
        _ <~ write (delete_job obj) ;;
        ret {| payload := NoContent; status := HTTP_204_NO_CONTENT |}
    | None => raise AttributeError
    end
  else permission_denied u.

(** [instance.is_active = False; instance.save(update_fields=['is_active'])] *)
Definition deactivate (u : User.t) : User.t :=
  {| User.id := User.id u;
     User.email := User.email u;
     User.password := User.password u;
     User.first_name := User.first_name u;
     User.last_name := User.last_name u;
     User.phone := User.phone u;
     User.accept_terms := User.accept_terms u;
     User.newsletter := User.newsletter u;
     User.gender := User.gender u;
     User.dob := User.dob u;
     User.role := User.role u;
     User.is_active := false;
     User.is_staff := User.is_staff u;
     User.is_superuser := User.is_superuser u;
     User.date_joined := User.date_joined u;
     User.last_login := User.last_login u |}.

(** [AdminUserRetrieveUpdateDestroyView.destroy]: the [UPDATE] of the one
    column reaches the rows with the instance's key. *)
Definition admin_user_destroy (pk : Z) : action Response :=
  instance <~ (fun d => (generic_get_object User.id (users d) pk, d)) ;;
  _ <~ write (fun d =>
         set_users
           (map (fun u => if User.id u =? User.id instance then deactivate u else u)
                (users d)) d) ;;
  ret {| payload := NoContent; status := HTTP_204_NO_CONTENT |}.

(** [DELETE /system/users/<pk>/] *)
Definition admin_user_delete (u : request_user) (pk : Z) : action Response :=
  if is_admin_user u then admin_user_destroy pk else permission_denied u.

(** [POST /ai/recommend-job/]: the permission check of the class
    ([permission_classes = [IsAuthenticatedOrReadOnly]]), then
    [AIJobRecommendationView.post]. *)
Definition ai_recommend_job {P : Platform} (req : request) (d : db)
  : result Response :=
  if is_authenticated_or_read_only POST (user req) then post req d
  else fst (permission_denied (user req) d).

(** ** views.py and serializers.py: the other views

    Text comparisons that the database and Python do without regard to
    case, and the password hasher, are the [Text] and [Hasher] interfaces. *)

Class Text : Type := {
  (** the [icontains] lookup: the column contains the needle, whatever
      the case of the letters *)
  icontains : string -> string -> bool;
  (** the [iexact] lookup *)
  iexact : string -> string -> bool;
  (** [s.lower()] and [s.upper()] *)
  str_lower : string -> string;
  str_upper : string -> string
}.

Class Hasher : Type := {
  (** [user.check_password(raw)], on the stored hash *)
  check_password : string -> string -> bool
}.

(** [request.query_params] *)
Definition query_params : Type := list (string * string).

(** [query_params.get(k)]: the last value the URL gives to [k]. *)
Fixpoint query_get (k : string) (qp : query_params) : option string :=
  match qp with
  | [] => None
  | (k', v) :: rest =>
      match query_get k rest with
      | Some w => Some w
      | None => if String.eqb k k' then Some v else None
      end
  end.

(** [bool(v)] for [v] a string or [None]. *)
Definition given (v : option string) : bool :=
  match v with
  | Some s => negb (String.eqb s "")
  | None => false
  end.

(** [v or w] *)
Definition or_else (v w : option string) : option string :=
  if given v then v else w.

(** [x in [a, b]] *)
Definition one_of (v : option string) (choices : list string) : bool :=
  match v with
  | Some s => existsb (String.eqb s) choices
  | None => false
  end.

(** [order_by('-column')] *)
Fixpoint insert_desc {A : Type} (key : A -> Z) (x : A) (sorted : list A) : list A :=
  match sorted with
  | [] => [x]
  | h :: rest =>
      if key h <=? key x then x :: h :: rest
      else h :: insert_desc key x rest
  end.

Definition order_by_desc {A : Type} (key : A -> Z) (rows : list A) : list A :=
  fold_right (insert_desc key) [] rows.

(** The rows a foreign key refers to. *)
Definition job_of (d : db) (a : Application.t) : option Job.t :=
  find (fun j => Job.id j =? Application.job a) (jobs d).

Definition employer_of (d : db) (j : Job.t) : option Employer.t :=
  find (fun e => Employer.id e =? Job.employer j) (employers d).

Definition seeker_of (d : db) (a : Application.t) : option JobSeeker.t :=
  find (fun s => JobSeeker.id s =? Application.seeker a) (seekers d).

Definition user_of (d : db) (s : JobSeeker.t) : option User.t :=
  find (fun u => User.id u =? JobSeeker.user s) (users d).

Definition application_of (d : db) (i : Interview.t) : option Application.t :=
  find (fun a => Application.id a =? Interview.application i) (applications d).

Definition is_some {A : Type} (o : option A) : bool :=
  match o with Some _ => true | None => false end.

(** [Application.objects.select_related('job__employer', 'seeker__user')]:
    the applications, each joined with its job, the job's employer, its
    seeker and the seeker's user. *)
Definition applications_joined (d : db) : list Application.t :=
  filter (fun a =>
            match job_of d a, seeker_of d a with
            | Some j, Some s => is_some (employer_of d j) && is_some (user_of d s)
            | _, _ => false
            end)
         (applications d).

(** [Interview.objects.select_related('application__job__employer')] *)
Definition interviews_joined (d : db) : list Interview.t :=
  filter (fun i =>
            match application_of d i with
            | Some a =>
                match job_of d a with
                | Some j => is_some (employer_of d j)
                | None => false
                end
            | None => false
            end)
         (interviews d).

Definition not_allowed : exn := PermissionDenied "Not allowed.".

(** *** SeekerProfileView *)

(** [SeekerProfileView.get_object] *)
Definition seeker_profile_get_object (u : request_user) (now : datetime)
  : action JobSeeker.t :=
  if negb (is_authenticated u)
  then raise (PermissionDenied "Authentication required.")
  else
    profile <~ query (fun d => seeker_profile d u) ;;
    match profile with
    | None => create_seeker u now
    | Some s => ret s
    end.

(** *** ApplicationRetrieveUpdateView and InterviewRetrieveDestroyView *)

(** [ApplicationRetrieveUpdateView.get_object] *)
Definition application_get_object (u : request_user) (pk : Z) (d : db)
  : result Application.t :=
  obj <- generic_get_object Application.id (applications_joined d) pk ;;
  if negb (is_authenticated u) || negb (is_role u "provider")
     || negb (is_some (employer_profile d u))
  then Raise not_allowed
  else
    match job_of d obj, employer_profile d u with
    | Some job, Some profile =>
        if negb (Job.employer job =? Employer.id profile)
        then Raise not_allowed
        else Ok obj
    | _, _ => Raise AttributeError
    end.

(** [InterviewRetrieveDestroyView.get_object] *)
Definition interview_get_object (u : request_user) (pk : Z) (d : db)
  : result Interview.t :=
  obj <- generic_get_object Interview.id (interviews_joined d) pk ;;
  if negb (is_authenticated u) || negb (is_role u "provider")
     || negb (is_some (employer_profile d u))
  then Raise not_allowed
  else
    match application_of d obj, employer_profile d u with
    | Some app, Some profile =>
        match job_of d app with
        | Some job =>
            if negb (Job.employer job =? Employer.id profile)
            then Raise not_allowed
            else Ok obj
        | None => Raise AttributeError
        end
    | _, _ => Raise AttributeError
    end.

(** *** JobListCreateView *)

(** [serializer.validated_data] of a [JobSerializer]: [title] and
    [description] are required; [id], [created_at] and [employer] are
    read-only and never among the data. *)
Record job_data : Type := {
  jd_title : string;
  jd_description : string;
  jd_requirement : option string;
  jd_salary : option Z;
  jd_location : option string;
  jd_is_active : option bool
}.

(** [serializer.save(employer=profile)] *)
Definition save_job (vd : job_data) (profile : Employer.t) (now : datetime)
  : action Job.t :=
  fun d =>
    let row := {| Job.id := next_id Job.id (jobs d);
                  Job.employer := Employer.id profile;
                  Job.title := jd_title vd;
                  Job.description := jd_description vd;
                  Job.requirement :=
                    match jd_requirement vd with Some r => r | None => "" end;
                  Job.salary := jd_salary vd;
                  Job.location :=
                    match jd_location vd with Some l => l | None => "" end;
                  Job.created_at := now;
                  Job.is_active :=
                    match jd_is_active vd with Some b => b | None => true end |} in
    (Ok row, set_jobs (jobs d ++ [row]) d).

Definition providers_only : exn := PermissionDenied "Only providers can post jobs.".

(** [JobListCreateView.perform_create] *)
Definition job_perform_create (u : request_user) (vd : job_data) (now : datetime)
  : action unit :=
  owner <~ query (fun d => employer_profile d u) ;;
  if negb (is_authenticated u) || negb (is_role u "provider") || negb (is_some owner)
  then raise providers_only
  else
    match owner with
    | Some profile => _ <~ save_job vd profile now ;; ret tt
    | None => raise AttributeError
    end.

Section Lists.
Context {T : Text}.

(** [JobListCreateView.get_queryset] *)
Definition job_get_queryset (u : request_user) (qp : query_params) (d : db)
  : list Job.t :=
  let qs := order_by_created_at_desc (filter Job.is_active (jobs d)) in
  let q := query_get "q" qp in
  let location := query_get "location" qp in
  let mine := query_get "mine" qp in
  let qs :=
    match q with
    | Some needle =>
        if given q
        then filter (fun j => icontains (Job.title j) needle
                              || icontains (Job.description j) needle
                              || icontains (Job.requirement j) needle) qs
        else qs
    | None => qs
    end in
  let qs :=
    match location with
    | Some needle =>
        if given location
        then filter (fun j => icontains (Job.location j) needle) qs
        else qs
    | None => qs
    end in
  if given mine && is_authenticated u then
    match employer_profile d u with
    | Some profile => filter (fun j => Job.employer j =? Employer.id profile) qs
    | None => qs
    end
  else qs.

(** The database value of a status. *)
Definition status_value (s : Application.Status) : string :=
  match s with
  | Application.PENDING => "PENDING"
  | Application.REVIEW => "REVIEW"
  | Application.ACCEPTED => "ACCEPTED"
  | Application.REJECTED => "REJECTED"
  end.

Definition of_employer (d : db) (profile : Employer.t) (a : Application.t) : bool :=
  match job_of d a with
  | Some j => Job.employer j =? Employer.id profile
  | None => false
  end.

(** [ApplicationListView.get_queryset] *)
Definition application_get_queryset (u : request_user) (qp : query_params) (d : db)
  : list Application.t :=
  let qs := order_by_desc Application.created_at (applications_joined d) in
  let status_filter := query_get "status" qp in
  let mine := or_else (query_get "mine" qp) (query_get "my" qp) in
  let qs :=
    match status_filter with
    | Some wanted =>
        if given status_filter
        then filter (fun a => String.eqb (status_value (Application.status a)) wanted) qs
        else qs
    | None => qs
    end in
  if given mine && is_authenticated u then
    match employer_profile d u, seeker_profile d u with
    | Some profile, _ => filter (of_employer d profile) qs
    | None, Some profile =>
        filter (fun a => Application.seeker a =? JobSeeker.id profile) qs
    | None, None => qs
    end
  else qs.

(** The value of a flag filter, for the two strings that name one. *)
Definition flag_filter (v : option string) (column : User.t -> bool)
    (qs : list User.t) : list User.t :=
  if one_of v ["true"; "false"]
  then filter (fun u => Bool.eqb (column u) (one_of v ["true"])) qs
  else qs.

(** [AdminUserListCreateView.get_queryset] *)
Definition admin_user_get_queryset (qp : query_params) (d : db) : list User.t :=
  let qs := order_by_desc User.date_joined (users d) in
  let q := query_get "q" qp in
  let role := query_get "role" qp in
  let qs :=
    match q with
    | Some needle =>
        if given q
        then filter (fun u => icontains (User.email u) needle
                              || icontains (User.first_name u) needle
                              || icontains (User.last_name u) needle) qs
        else qs
    | None => qs
    end in
  let qs :=
    match role with
    | Some wanted =>
        if one_of role ["seeker"; "provider"]
        then filter (fun u => String.eqb (User.role u) wanted) qs
        else qs
    | None => qs
    end in
  let qs := flag_filter (query_get "is_active" qp) User.is_active qs in
  let qs := flag_filter (query_get "is_staff" qp) User.is_staff qs in
  flag_filter (query_get "is_superuser" qp) User.is_superuser qs.

End Lists.

(** *** AppointmentListView and the list of InterviewListCreateView *)

(** [order_by] on several columns: [x] is put before the first row it is
    to precede. *)
Fixpoint insert_before {A : Type} (precedes : A -> A -> bool) (x : A)
    (sorted : list A) : list A :=
  match sorted with
  | [] => [x]
  | h :: rest =>
      if precedes x h then x :: h :: rest
      else h :: insert_before precedes x rest
  end.

Definition order_by {A : Type} (precedes : A -> A -> bool) (rows : list A) : list A :=
  fold_right (insert_before precedes) [] rows.

(** The order [('-date', '-time', '-created_at')]. *)
Definition appointment_precedes (a b : Appointment.t) : bool :=
  (Appointment.date b <? Appointment.date a)
  || ((Appointment.date b =? Appointment.date a)
      && ((Appointment.time b <? Appointment.time a)
          || ((Appointment.time b =? Appointment.time a)
              && (Appointment.created_at b <=? Appointment.created_at a)))).

Definition appointment_application (d : db) (a : Appointment.t) : option Application.t :=
  find (fun x => Application.id x =? Appointment.application a) (applications d).

(** [Appointment.objects.select_related('application__job__employer',
    'application__seeker__user')] *)
Definition appointments_joined (d : db) : list Appointment.t :=
  filter (fun a =>
            match appointment_application d a with
            | Some app =>
                match job_of d app, seeker_of d app with
                | Some j, Some s => is_some (employer_of d j) && is_some (user_of d s)
                | _, _ => false
                end
            | None => false
            end)
         (appointments d).

(** [AppointmentListView.get_queryset] *)
Definition appointment_get_queryset (u : request_user) (qp : query_params) (d : db)
  : list Appointment.t :=
  let qs := order_by appointment_precedes (appointments_joined d) in
  let mine := or_else (query_get "mine" qp) (query_get "my" qp) in
  if given mine && is_authenticated u then
    match seeker_profile d u, employer_profile d u with
    | Some profile, _ =>
        filter (fun a =>
                  match appointment_application d a with
                  | Some app => Application.seeker app =? JobSeeker.id profile
                  | None => false
                  end) qs
    | None, Some profile =>
        filter (fun a =>
                  match appointment_application d a with
                  | Some app => of_employer d profile app
                  | None => false
                  end) qs
    | None, None => qs
    end
  else qs.

(** [InterviewListCreateView.get_queryset] *)
Definition interview_get_queryset (u : request_user) (qp : query_params) (d : db)
  : list Interview.t :=
  let qs := order_by_desc Interview.created_at (interviews_joined d) in
  let mine := or_else (query_get "mine" qp) (query_get "my" qp) in
  if given mine && is_authenticated u then
    match employer_profile d u, seeker_profile d u with
    | Some profile, _ =>
        filter (fun i =>
                  match application_of d i with
                  | Some app => of_employer d profile app
                  | None => false
                  end) qs
    | None, Some profile =>
        filter (fun i =>
                  match application_of d i with
                  | Some app => Application.seeker app =? JobSeeker.id profile
                  | None => false
                  end) qs
    | None, None => qs
    end
  else qs.

(** ** serializers.py *)

(** The outcome of a validation method: the value it returns, or the
    [ValidationError] it raises. *)
Inductive validation (A : Type) : Type :=
| Valid (a : A)
| Invalid (detail : string).

Arguments Valid {A} a.
Arguments Invalid {A} detail.

Definition invalid_role : string := "Invalid role. Must be 'seeker' or 'provider'.".
Definition invalid_gender : string :=
  "Invalid gender. Must be 'MALE', 'FEMALE', or 'OTHER'.".

Section Serializers.
Context {P : Platform} {T : Text} {H : Hasher}.

(** [UserSerializer.validate_role] *)
Definition validate_role (value : string) : validation string :=
  if negb (given (Some value)) then Valid "seeker"
  else
    let value := str_lower value in
    if negb (one_of (Some value) ["seeker"; "provider"]) then Invalid invalid_role
    else Valid value.

(** [UserSerializer.validate_gender]; the [option] is Python's. *)
Definition validate_gender (value : string) : validation (option string) :=
  if negb (given (Some value)) then Valid None
  else
    let norm := str_upper value in
    if negb (one_of (Some norm) ["MALE"; "FEMALE"; "OTHER"]) then Invalid invalid_gender
    else Valid (Some norm).

(** [UserSerializer.validate_email] *)
Definition validate_email (value : string) (d : db) : validation string :=
  if existsb (fun u => String.eqb (User.email u) value) (users d)
  then Invalid "A user with this email already exists."
  else Valid value.

(** [AdminUserUpdateSerializer.validate_role] *)
Definition admin_validate_role (value : option string) : validation (option string) :=
  match value with
  | None => Valid None
  | Some text =>
      let v := str_lower text in
      if negb (one_of (Some v) ["seeker"; "provider"]) then Invalid invalid_role
      else Valid (Some v)
  end.

(** The [attrs] of an [AdminUserUpdateSerializer]: of each writable field,
    the value when the request gives the field; a field that may be null
    has Python's [None] for a value. *)
Record admin_attrs : Type := {
  at_first_name : option string;
  at_last_name : option string;
  at_role : option string;
  at_is_active : option bool;
  at_is_staff : option bool;
  at_is_superuser : option bool;
  at_phone : option (option string);
  at_gender : option (option string);
  at_dob : option (option pydate)
}.

(** [attrs['gender'] = g] *)
Definition set_gender (g : string) (attrs : admin_attrs) : admin_attrs :=
  {| at_first_name := at_first_name attrs;
     at_last_name := at_last_name attrs;
     at_role := at_role attrs;
     at_is_active := at_is_active attrs;
     at_is_staff := at_is_staff attrs;
     at_is_superuser := at_is_superuser attrs;
     at_phone := at_phone attrs;
     at_gender := Some (Some g);
     at_dob := at_dob attrs |}.

(** [request.user.is_superuser] *)
Definition is_superuser (u : request_user) : bool :=
  match u with
  | Some account => User.is_superuser account
  | None => false
  end.

(** [AdminUserUpdateSerializer.validate]; [u] is the user of the request
    in the serializer's context. *)
Definition admin_validate (u : request_user) (attrs : admin_attrs)
  : validation admin_attrs :=
  if (is_some (at_is_staff attrs) || is_some (at_is_superuser attrs))
     && negb (is_superuser u)
  then Invalid "Only superusers can modify staff/superuser flags."
  else
    match at_gender attrs with
    | Some (Some gender) =>
        if given (Some gender) then
          let g := str_upper gender in
          if negb (one_of (Some g) ["MALE"; "FEMALE"; "OTHER"])
          then Invalid "Must be 'MALE', 'FEMALE', or 'OTHER'."
          else Valid (set_gender g attrs)
        else Valid attrs
    | _ => Valid attrs
    end.

(** [queryset.first()] of a queryset without an order: the row of the
    least key. *)
Fixpoint first_by_pk {A : Type} (pk : A -> Z) (rows : list A) : option A :=
  match rows with
  | [] => None
  | r :: rest =>
      match first_by_pk pk rest with
      | Some best => if pk best <? pk r then Some best else Some r
      | None => Some r
      end
  end.

(** The [data] of a [LoginSerializer]: its two fields are required. *)
Record credentials : Type := {
  cr_email : string;
  cr_password : string
}.

(** [LoginSerializer.validate]; on success [data['user']] is the user. *)
Definition login_validate (data : credentials) (d : db) : validation User.t :=
  let email := str_strip (cr_email data) in
  let password := cr_password data in
  if given (Some email) && given (Some password) then
    let user := first_by_pk User.id
                  (filter (fun u => iexact (User.email u) email) (users d)) in
    match user with
    | Some account =>
        if check_password (User.password account) password then
          if negb (User.is_active account)
          then Invalid "User account is disabled."
          else Valid account
        else Invalid "Unable to log in with provided credentials."
    | None => Invalid "Unable to log in with provided credentials."
    end
  else Invalid "Must include 'email' and 'password'.".

End Serializers.

(** ** A platform to run the code on

    CPython's side of the interface, on the texts the examples use: JSON
    whose numbers are integers and whose strings have no [\u] escape, and
    strings of characters below code point 256.  Outside of that [loads]
    gives [None] where [json.loads] has an answer, and [dumps] writes a
    float in full where Python writes the shortest form that reads back. *)

Module Python.

Definition is_json_space (c : ascii) : bool :=
  match nat_of_ascii c with
  | 32%nat | 9%nat | 10%nat | 13%nat => true
  | _ => false
  end.

Fixpoint skip_space (s : string) : string :=
  match s with
  | String c rest => if is_json_space c then skip_space rest else s
  | EmptyString => s
  end.

Definition digit_of (c : ascii) : option Z :=
  let n := Z.of_nat (nat_of_ascii c) in
  if (48 <=? n) && (n <=? 57) then Some (n - 48) else None.

(** The digits at the head of [s], read onto [acc], and what follows. *)
Fixpoint read_digits (acc : Z) (s : string) : Z * string :=
  match s with
  | String c rest =>
      match digit_of c with
      | Some k => read_digits (10 * acc + k) rest
      | None => (acc, s)
      end
  | EmptyString => (acc, s)
  end.

Definition starts_fraction_or_exponent (s : string) : bool :=
  match s with
  | String c _ =>
      match nat_of_ascii c with
      | 46%nat | 69%nat | 101%nat => true
      | _ => false
      end
  | EmptyString => false
  end.

(** An optional minus sign, then [0] or a digit string that does not
    start with [0]; not followed by a fraction or an exponent. *)
Definition read_integer (s : string) : option (Z * string) :=
  let '(negative, s1) :=
    match s with
    | String "-" rest => (true, rest)
    | _ => (false, s)
    end in
  match s1 with
  | String c rest =>
      match digit_of c with
      | Some 0 =>
          if starts_fraction_or_exponent rest then None else Some (0, rest)
      | Some k =>
          let '(n, rest') := read_digits k rest in
          if starts_fraction_or_exponent rest' then None
          else Some (if negative then - n else n, rest')
      | None => None
      end
  | EmptyString => None
  end.

(** The rest of a string literal after its opening quote. *)
Fixpoint read_string (s : string) : option (string * string) :=
  match s with
  | EmptyString => None
  | String c rest =>
      match nat_of_ascii c with
      | 34%nat => Some (EmptyString, rest)
      | 92%nat =>
          match rest with
          | String e rest' =>
              let unescaped :=
                match nat_of_ascii e with
                | 34%nat => Some "034"%char
                | 92%nat => Some "092"%char
                | 47%nat => Some "047"%char
                | 98%nat => Some "008"%char
                | 102%nat => Some "012"%char
                | 110%nat => Some "010"%char
                | 114%nat => Some "013"%char
                | 116%nat => Some "009"%char
                | _ => None
                end in
              match unescaped, read_string rest' with
              | Some x, Some (body, after) => Some (String x body, after)
              | _, _ => None
              end
          | EmptyString => None
          end
      | n =>
          if (n <? 32)%nat then None
          else match read_string rest with
               | Some (body, after) => Some (String c body, after)
               | None => None
               end
      end
  end.

Definition strip_prefix (lit s : string) : option string :=
  if prefix lit s
  then Some (substring (String.length lit) (String.length s - String.length lit) s)
  else None.

(** One JSON value at the head of [s]; [fuel] bounds the nesting. *)
Fixpoint read_value (fuel : nat) (s : string) : option (json * string) :=
  match fuel with
  | O => None
  | S fuel' =>
      match s with
      | String "{" rest =>
          match skip_space rest with
          | String "}" after => Some (JObj [], after)
          | inner =>
              match read_pairs fuel' inner with
              | Some (pairs, after) => Some (JObj pairs, after)
              | None => None
              end
          end
      | String "[" rest =>
          match skip_space rest with
          | String "]" after => Some (JArr [], after)
          | inner =>
              match read_items fuel' inner with
              | Some (items, after) => Some (JArr items, after)
              | None => None
              end
          end
      | String "034" rest =>
          match read_string rest with
          | Some (str, after) => Some (JStr str, after)
          | None => None
          end
      | _ =>
          match strip_prefix "null" s, strip_prefix "true" s, strip_prefix "false" s with
          | Some after, _, _ => Some (JNull, after)
          | _, Some after, _ => Some (JBool true, after)
          | _, _, Some after => Some (JBool false, after)
          | _, _, _ =>
              match read_integer s with
              | Some (n, after) => Some (JInt n, after)
              | None => None
              end
          end
      end
  end

(** The items of an array after its bracket, up to the closing one. *)
with read_items (fuel : nat) (s : string) : option (list json * string) :=
  match fuel with
  | O => None
  | S fuel' =>
      match read_value fuel' s with
      | Some (v, after) =>
          match skip_space after with
          | String "," more =>
              match read_items fuel' (skip_space more) with
              | Some (vs, rest) => Some (v :: vs, rest)
              | None => None
              end
          | String "]" rest => Some ([v], rest)
          | _ => None
          end
      | None => None
      end
  end

(** The pairs of an object after its brace, up to the closing one. *)
with read_pairs (fuel : nat) (s : string) : option (list (string * json) * string) :=
  match fuel with
  | O => None
  | S fuel' =>
      match s with
      | String "034" rest =>
          match read_string rest with
          | Some (key, after_key) =>
              match skip_space after_key with
              | String ":" after_colon =>
                  match read_value fuel' (skip_space after_colon) with
                  | Some (v, after) =>
                      match skip_space after with
                      | String "," more =>
                          match read_pairs fuel' (skip_space more) with
                          | Some (kvs, rest) => Some ((key, v) :: kvs, rest)
                          | None => None
                          end
                      | String "}" rest => Some ([(key, v)], rest)
                      | _ => None
                      end
                  | None => None
                  end
              | _ => None
              end
          | None => None
          end
      | _ => None
      end
  end.

(** [json.loads]: one value, with white space around it and nothing else. *)
Definition loads (s : string) : option json :=
  match read_value (S (String.length s)) (skip_space s) with
  | Some (v, after) =>
      match skip_space after with
      | EmptyString => Some v
      | _ => None
      end
  | None => None
  end.

(** *** [json.dumps] *)

Definition decimal (n : Z) : string := NilZero.string_of_int (Z.to_int n).

Definition hex_digit (n : nat) : ascii :=
  ascii_of_nat (if (n <? 10)%nat then 48 + n else 87 + n).

(** [ensure_ascii]: what is not between the space and the tilde, and the
    quote and the backslash, is written as an escape. *)
Definition escape_char (c : ascii) : string :=
  let n := nat_of_ascii c in
  match n with
  | 34%nat => String "092" dquote
  | 92%nat => String "092" (String "092" EmptyString)
  | 10%nat => String "092" "n"
  | 13%nat => String "092" "r"
  | 9%nat => String "092" "t"
  | 8%nat => String "092" "b"
  | 12%nat => String "092" "f"
  | _ =>
      if ((32 <=? n) && (n <=? 126))%nat then String c EmptyString
      else String "092" ("u00" ++ String (hex_digit (n / 16))
                                    (String (hex_digit (n mod 16)) EmptyString))
  end.

Fixpoint escape (s : string) : string :=
  match s with
  | EmptyString => EmptyString
  | String c rest => escape_char c ++ escape rest
  end.

(** The digits of [n], at least [width] of them. *)
Definition padded (width : nat) (n : Z) : string :=
  let digits := decimal n in
  concat "" (repeat "0" (width - String.length digits)) ++ digits.

Fixpoint drop_trailing_zeros (fuel : nat) (n : Z) (k : nat) : Z * nat :=
  match fuel, k with
  | S fuel', S k' => if n mod 10 =? 0 then drop_trailing_zeros fuel' (n / 10) k'
                     else (n, k)
  | _, _ => (n, k)
  end.

(** A float in full: its sign, its whole part and every decimal of it. *)
Definition float_text (f : spec_float) : string :=
  match f with
  | S754_nan => "NaN"
  | S754_infinity negative => if negative then "-Infinity" else "Infinity"
  | S754_zero negative => if negative then "-0.0" else "0.0"
  | S754_finite negative m e =>
      let sign := if negative then "-" else "" in
      if 0 <=? e then sign ++ decimal (Z.pos m * 2 ^ e) ++ ".0"
      else
        let k := Z.to_nat (- e) in
        let scaled := Z.pos m * 5 ^ (- e) in
        let whole := scaled / 10 ^ (- e) in
        let '(frac, width) := drop_trailing_zeros k (scaled mod 10 ^ (- e)) k in
        sign ++ decimal whole ++ "."
             ++ (if frac =? 0 then "0" else padded width frac)
  end.

Fixpoint dumps (v : json) : string :=
  match v with
  | JNull => "null"
  | JBool b => if b then "true" else "false"
  | JInt n => decimal n
  | JFloat f => float_text f
  | JStr s => quoted (escape s)
  | JArr items => "[" ++ concat ", " (map dumps items) ++ "]"
  | JObj pairs =>
      "{" ++ concat ", "
               (map (fun kv => quoted (escape (fst kv)) ++ ": " ++ dumps (snd kv)) pairs)
          ++ "}"
  end.

(** *** [int()] and [str.strip] *)

(** The characters [str.strip] removes. *)
Definition is_space (c : ascii) : bool :=
  let n := nat_of_ascii c in
  ((9 <=? n) && (n <=? 13) || (28 <=? n) && (n <=? 32)
   || (n =? 133) || (n =? 160))%nat.

Fixpoint lstrip (s : string) : string :=
  match s with
  | String c rest => if is_space c then lstrip rest else s
  | EmptyString => s
  end.

Fixpoint rstrip (s : string) : string :=
  match s with
  | String c rest =>
      match rstrip rest with
      | EmptyString => if is_space c then EmptyString else String c EmptyString
      | kept => String c kept
      end
  | EmptyString => s
  end.

Definition strip (s : string) : string := rstrip (lstrip s).

(** Digits, with single underscores allowed between them. *)
Fixpoint read_grouped (acc : Z) (after_digit : bool) (s : string) : option Z :=
  match s with
  | EmptyString => if after_digit then Some acc else None
  | String c rest =>
      match digit_of c with
      | Some k => read_grouped (10 * acc + k) true rest
      | None =>
          if Ascii.eqb c "_" && after_digit then read_grouped acc false rest
          else None
      end
  end.

(** [int(s)] for a [str]. *)
Definition int_of_str (s : string) : option Z :=
  match strip s with
  | String "-" rest =>
      match read_grouped 0 false rest with Some n => Some (- n) | None => None end
  | String "+" rest => read_grouped 0 false rest
  | body => read_grouped 0 false body
  end.

(** [int(x)] for a float: towards zero. *)
Definition int_of_float (f : spec_float) : result Z :=
  match f with
  | S754_nan => Raise ValueError
  | S754_infinity _ => Raise OverflowError
  | S754_zero _ => Ok 0
  | S754_finite negative m e =>
      let magnitude := if 0 <=? e then Z.pos m * 2 ^ e else Z.pos m / 2 ^ (- e) in
      Ok (if negative then - magnitude else magnitude)
  end.

Definition int (v : json) : result Z :=
  match v with
  | JInt n => Ok n
  | JBool b => Ok (if b then 1 else 0)
  | JFloat f => int_of_float f
  | JStr s => match int_of_str s with Some n => Ok n | None => Raise ValueError end
  | JNull | JArr _ | JObj _ => Raise TypeError
  end.

(** [IntegerField.get_prep_value] on the value of a [pk] lookup. *)
Definition get_prep_value (v : json) : result (option Z) :=
  match v with
  | JNull => Ok None
  | _ => n <- int v ;; Ok (Some n)
  end.

End Python.

(** CPython and Django over a given HTTP client and environment. *)
Definition python_platform
    (post : string -> list (string * string) -> string -> Z -> result http_response)
    (url key model : string) : Platform :=
  {| json_loads := Python.loads;
     json_dumps := Python.dumps;
     py_int := Python.int;
     str_strip := Python.strip;
     pk_prep := Python.get_prep_value;
     requests_post := post;
     OPENROUTER_API_URL := url;
     OPENROUTER_API_KEY := key;
     OPENROUTER_MODEL := model |}.

(** An HTTP client that gets, for every request, a 200 whose body carries
    [content] as the message of the first choice. *)
Definition answers (content : json)
  : string -> list (string * string) -> string -> Z -> result http_response :=
  fun _ _ _ _ =>
    Ok {| status_code := 200;
          text := Python.dumps
                    (JObj [("choices",
                            JArr [JObj [("message",
                                         JObj [("role", JStr "assistant");
                                               ("content", content)])]])]) |}.

(** An HTTP client whose every request fails with [e]. *)
Definition fails (e : exn)
  : string -> list (string * string) -> string -> Z -> result http_response :=
  fun _ _ _ _ => Raise e.

(** An HTTP client that gets, for every request, the status [code]. *)
Definition refuses (code : Z)
  : string -> list (string * string) -> string -> Z -> result http_response :=
  fun _ _ _ _ => Ok {| status_code := code; text := "" |}.

Definition cpython (post : string -> list (string * string) -> string -> Z
                           -> result http_response) : Platform :=
  python_platform post "https://openrouter.ai/api/v1/chat/completions"
                  "test-key" "anthropic/claude-3-haiku".

(** Letters without accents, as Python and the database fold them. *)
Definition lower_char (c : ascii) : ascii :=
  let n := nat_of_ascii c in
  if ((65 <=? n) && (n <=? 90))%nat then ascii_of_nat (n + 32) else c.

Definition upper_char (c : ascii) : ascii :=
  let n := nat_of_ascii c in
  if ((97 <=? n) && (n <=? 122))%nat then ascii_of_nat (n - 32) else c.

Fixpoint map_chars (f : ascii -> ascii) (s : string) : string :=
  match s with
  | EmptyString => EmptyString
  | String c rest => String (f c) (map_chars f rest)
  end.

Fixpoint is_infix (needle hay : string) : bool :=
  prefix needle hay
  || match hay with
     | String _ rest => is_infix needle rest
     | EmptyString => false
     end.

Definition ascii_text : Text :=
  {| icontains := fun column needle =>
       is_infix (map_chars lower_char needle) (map_chars lower_char column);
     iexact := fun column value =>
       String.eqb (map_chars lower_char column) (map_chars lower_char value);
     str_lower := map_chars lower_char;
     str_upper := map_chars upper_char |}.

(** A hasher for the examples: the hash of a password is the password
    between brackets. *)
Definition bracket_hasher : Hasher :=
  {| check_password := fun hash raw => String.eqb hash ("[" ++ raw ++ "]") |}.

(** ** The vocabulary of the statements *)

Fixpoint contains (c : ascii) (s : string) : bool :=
  match s with
  | EmptyString => false
  | String a rest => Ascii.eqb a c || contains c rest
  end.

Definition len (s : string) : Z := Z.of_nat (String.length s).

Section Vocabulary.
Context {P : Platform}.

(** The one HTTP exchange of a recommendation. *)
Definition model_call (resume_text : string) (jobs_payload : list json)
  : result http_response :=
  requests_post OPENROUTER_API_URL headers
    (json_dumps (payload_of (_build_messages resume_text jobs_payload))) 30.

(** Neither the reply nor its brace region is JSON. *)
Definition unparsable (reply : string) : Prop :=
  json_loads reply = None
  /\ match json_region reply with
     | Some snippet => json_loads snippet = None
     | None => True
     end.

End Vocabulary.

Definition is_object (v : json) : bool :=
  match v with JObj _ => true | _ => false end.

(** The widest [LIMIT] a query can carry to the database: the largest
    signed 64-bit integer.  Above it the query of the pool fails. *)
Definition max_query_limit : Z := 9223372036854775807.

Definition no_active_jobs : Response :=
  {| payload := Detail "No active jobs available."; status := HTTP_404_NOT_FOUND |}.

Definition recommended (score reason : json) (job : Job.t) : Response :=
  {| payload := Recommendation score reason job; status := HTTP_200_OK |}.

(** The steps of [post] that follow the recommendation, for a pool whose
    first job is [first]. *)
Definition resolve {P : Platform} (d : db) (first : Job.t) (res : recommendation)
  : result Response :=
  best_job <- (if py_truthy (best_job_id res)
               then pk <- pk_prep (best_job_id res) ;; Ok (active_job_by_pk d pk)
               else Ok None) ;;
  Ok (recommended (score res) (reason res)
        (match best_job with Some j => j | None => first end)).

(** The rows of [rows] that pair the job [job_pk] with the seeker
    [seeker_pk]. *)
Definition pairing (job_pk seeker_pk : Z) (a : Application.t) : bool :=
  (Application.job a =? job_pk) && (Application.seeker a =? seeker_pk).

Definition applications_of (d : db) (job_pk seeker_pk : Z) : list Application.t :=
  filter (pairing job_pk seeker_pk) (applications d).

(** The key of the caller's seeker profile: of the one it has, or of the
    one its first application creates. *)
Definition applicant (d : db) (u : request_user) : Z :=
  match seeker_profile d u with
  | Some s => JobSeeker.id s
  | None => next_id JobSeeker.id (seekers d)
  end.

(** The appointments of the store that belong to [app]. *)
Definition appointments_for (d : db) (app : Application.t) : list Appointment.t :=
  filter (for_application app) (appointments d).

(** What [OneToOneField] and the primary key make the store keep: no two
    appointments of one key, and one appointment at most for [app]. *)
Definition one_appointment (d : db) (app : Application.t) : Prop :=
  NoDup (map Appointment.id (appointments d))
  /\ (List.length (appointments_for d app) <= 1)%nat.

(** The appointment copies the interview. *)
Definition mirrors (a : Appointment.t) (i : Interview.t) : Prop :=
  Appointment.application a = Interview.application i
  /\ Appointment.title a = Interview.title i
  /\ Appointment.date a = Interview.date i
  /\ Appointment.time a = Interview.time i
  /\ Appointment.content a = "Interview: " ++ Interview.title i.

(** The interview has the fields of the request. *)
Definition records (i : Interview.t) (app : Application.t) (vd : interview_data)
  : Prop :=
  Interview.application i = Application.id app
  /\ Interview.title i = vd_title vd
  /\ Interview.date i = vd_date vd
  /\ Interview.time i = vd_time vd.

(** The two rows agree on every column but [is_active]. *)
Definition same_but_is_active (old new : User.t) : Prop :=
  User.id new = User.id old
  /\ User.email new = User.email old
  /\ User.password new = User.password old
  /\ User.first_name new = User.first_name old
  /\ User.last_name new = User.last_name old
  /\ User.phone new = User.phone old
  /\ User.accept_terms new = User.accept_terms old
  /\ User.newsletter new = User.newsletter old
  /\ User.gender new = User.gender old
  /\ User.dob new = User.dob old
  /\ User.role new = User.role old
  /\ User.is_staff new = User.is_staff old
  /\ User.is_superuser new = User.is_superuser old
  /\ User.date_joined new = User.date_joined old
  /\ User.last_login new = User.last_login old.

(** What the delete of the user [pk] makes of a row. *)
Definition soft_delete (pk : Z) (u : User.t) : User.t :=
  if User.id u =? pk then deactivate u else u.

(** The tables other than the users'. *)
Definition same_relations (d d' : db) : Prop :=
  employers d' = employers d
  /\ seekers d' = seekers d
  /\ jobs d' = jobs d
  /\ applications d' = applications d
  /\ interviews d' = interviews d
  /\ appointments d' = appointments d
  /\ payments d' = payments d.

Definition already_applied : exn :=
  PermissionDenied "You have already applied to this job.".

Definition no_content : Response :=
  {| payload := NoContent; status := HTTP_204_NO_CONTENT |}.

(** ** Example data *)

Definition a_job (pk : Z) (title : string) (created : datetime) (active : bool)
  : Job.t :=
  {| Job.id := pk; Job.employer := 1; Job.title := title;
     Job.description := "Build and run services"; Job.requirement := "Python";
     Job.salary := None; Job.location := "Douala";
     Job.created_at := created; Job.is_active := active |}.

Definition empty_db : db :=
  {| users := []; employers := []; seekers := []; jobs := [];
     applications := []; interviews := []; appointments := []; payments := [] |}.

Definition backend_eng : Job.t := a_job 1 "Backend Eng" 20 true.
Definition data_analyst : Job.t := a_job 2 "Data Analyst" 10 true.

(** The pool of the two jobs, [backend_eng] the latest. *)
Definition two_jobs : db := set_jobs [data_analyst; backend_eng] empty_db.

(** Six active jobs, the job of key [k] created at instant [k]. *)
Definition six_jobs : db :=
  set_jobs (map (fun k => a_job k "Engineer" k true) [1; 2; 3; 4; 5; 6]) empty_db.

Definition a_user (pk : Z) (email role : string) (staff active : bool) : User.t :=
  {| User.id := pk; User.email := email; User.password := "pbkdf2";
     User.first_name := "Ada"; User.last_name := "Ngo";
     User.phone := None; User.accept_terms := true;
     User.newsletter := false; User.gender := None;
     User.dob := None; User.role := role;
     User.is_active := active; User.is_staff := staff;
     User.is_superuser := false; User.date_joined := 1;
     User.last_login := None |}.

Definition a_seeker : User.t := a_user 7 "seeker@portal.cm" "seeker" false true.
Definition a_provider : User.t := a_user 8 "hr@portal.cm" "provider" false true.
Definition an_admin : User.t := a_user 9 "root@portal.cm" "provider" true true.

(** A provider with a job, and a seeker with an application for it. *)
Definition an_employer : Employer.t :=
  {| Employer.id := 1; Employer.user := 8; Employer.company_name := "Gabana";
     Employer.company_website := ""; Employer.created_at := 2 |}.

Definition an_application : Application.t :=
  {| Application.id := 5; Application.job := 1; Application.seeker := 3;
     Application.status := Application.PENDING;
     Application.match_score := None; Application.created_at := 25 |}.

Definition hiring : db :=
  {| users := [a_seeker; a_provider; an_admin];
     employers := [an_employer];
     seekers := [{| JobSeeker.id := 3; JobSeeker.user := 7;
                    JobSeeker.resume_url := ""; JobSeeker.resume_text := "SQL";
                    JobSeeker.created_at := 3 |}];
     jobs := [data_analyst; backend_eng];
     applications := [an_application];
     interviews := [];
     appointments := [];
     payments := [] |}.

Definition intro_call : interview_data :=
  {| vd_title := "Intro call"; vd_date := 100; vd_time := 36000 |}.

Definition tech_round : interview_data :=
  {| vd_title := "Tech round"; vd_date := 107; vd_time := 50400 |}.

Definition anonymous (body : list (string * json)) : request :=
  {| user := None; data := JObj body |}.

(** A request of the account [account], with the JSON object [body]. *)
Definition signed_in (account : User.t) (body : list (string * json)) : request :=
  {| user := Some account; data := JObj body |}.

(** [hiring] with the six jobs of [six_jobs]. *)
Definition six_openings : db := set_jobs (jobs six_jobs) hiring.


Definition reply_with_prose : string :=
  "Sure! {" ++ quoted "best_job_id" ++ ": 2, " ++ quoted "score" ++ ": 91, "
  ++ quoted "reason" ++ ": " ++ quoted "skills match" ++ "}".

Definition reply_naming (pk : Z) : string :=
  "{" ++ quoted "best_job_id" ++ ": " ++ Python.decimal pk ++ ", "
  ++ quoted "score" ++ ": 80, " ++ quoted "reason" ++ ": " ++ quoted "fit" ++ "}".

(** The order of the pool: [a] comes before [b] when it is not older. *)
Definition not_older (a b : Job.t) : Prop := Job.created_at b <= Job.created_at a.

(** The seeker profiles of the user of key [uid]. *)
Definition profiles_of (d : db) (uid : Z) : list JobSeeker.t :=
  filter (fun s => JobSeeker.user s =? uid) (seekers d).

(** Every table but the seekers' and the applications' is as it was. *)
Definition same_besides_applying (d d' : db) : Prop :=
  users d' = users d
  /\ employers d' = employers d
  /\ jobs d' = jobs d
  /\ interviews d' = interviews d
  /\ appointments d' = appointments d
  /\ payments d' = payments d.

Definition seekers_only : exn := PermissionDenied "Only job seekers can apply.".

(** Every table but the interviews' and the appointments' is as it was. *)
Definition same_besides_interviewing (d d' : db) : Prop :=
  users d' = users d
  /\ employers d' = employers d
  /\ seekers d' = seekers d
  /\ jobs d' = jobs d
  /\ applications d' = applications d
  /\ payments d' = payments d.

(** A second provider, with an employer profile and no job. *)
Definition a_rival : User.t := a_user 10 "jobs@rival.cm" "provider" false true.

Definition an_interview : Interview.t :=
  {| Interview.id := 1; Interview.application := 5; Interview.title := "Intro call";
     Interview.date := 100; Interview.time := 36000; Interview.created_at := 40 |}.

(** [hiring] with the rival and with an interview for the application. *)
Definition market : db :=
  {| users := users hiring ++ [a_rival];
     employers := employers hiring
                  ++ [{| Employer.id := 2; Employer.user := 10;
                         Employer.company_name := "Rival";
                         Employer.company_website := "";
                         Employer.created_at := 4 |}];
     seekers := seekers hiring;
     jobs := jobs hiring;
     applications := applications hiring;
     interviews := [an_interview];
     appointments := [];
     payments := [] |}.

(** A seeker whose password is [secret], and the store with that user. *)
Definition a_member : User.t :=
  {| User.id := 11; User.email := "Member@Portal.cm"; User.password := "[secret]";
     User.first_name := "Mia"; User.last_name := "Ewane";
     User.phone := None; User.accept_terms := true;
     User.newsletter := false; User.gender := None;
     User.dob := None; User.role := "seeker";
     User.is_active := true; User.is_staff := false;
     User.is_superuser := false; User.date_joined := 6;
     User.last_login := None |}.

Definition members : db := set_users [an_admin; a_member] empty_db.

Definition an_appointment : Appointment.t :=
  {| Appointment.id := 1; Appointment.application := 5;
     Appointment.title := "Intro call"; Appointment.time := 36000;
     Appointment.date := 100; Appointment.content := "Interview: Intro call";
     Appointment.created_at := 40 |}.

(** [market] with the appointment of its interview. *)
Definition booked : db := set_appointments [an_appointment] market.

(** * Properties *)

(** ** Strings *)

Lemma str_find_absent (c : ascii) (s : string) :
  contains c s = false -> str_find c s = -1.
Proof.
  induction s as [|a rest IH]; simpl; [reflexivity|].
  intros H. apply orb_false_iff in H as [Ha Hr].
  rewrite Ha, (IH Hr). reflexivity.
Qed.

Lemma str_rfind_absent (c : ascii) (s : string) :
  contains c s = false -> str_rfind c s = -1.
Proof.
  induction s as [|a rest IH]; simpl; [reflexivity|].
  intros H. apply orb_false_iff in H as [Ha Hr].
  rewrite (IH Hr), Ha. reflexivity.
Qed.

(** [find] stops at the first occurrence. *)
Lemma str_find_first (c : ascii) (pre rest : string) :
  contains c pre = false ->
  str_find c (pre ++ String c rest) = len pre.
Proof.
  unfold len. induction pre as [|a pre IH]; simpl; intros H.
  - rewrite Ascii.eqb_refl. reflexivity.
  - apply orb_false_iff in H as [Ha Hr].
    rewrite Ha, (IH Hr).
    destruct (Z.of_nat (String.length pre) =? -1) eqn:E; lia.
Qed.

(** [rfind] reaches the last occurrence. *)
Lemma str_rfind_last (c : ascii) (pre post : string) :
  contains c post = false ->
  str_rfind c (pre ++ String c post) = len pre.
Proof.
  unfold len. intros H. induction pre as [|a pre IH]; simpl.
  - rewrite (str_rfind_absent _ _ H), Ascii.eqb_refl. reflexivity.
  - rewrite IH.
    destruct (Z.of_nat (String.length pre) =? -1) eqn:E; lia.
Qed.

Lemma substring_skip (pre s : string) (m : nat) :
  substring (String.length pre) m (pre ++ s) = substring 0 m s.
Proof. induction pre as [|a pre IH]; simpl; [reflexivity | exact IH]. Qed.

Lemma substring_take (x post : string) :
  substring 0 (String.length x) (x ++ post) = x.
Proof.
  induction x as [|a x IH]; simpl.
  - destruct post; reflexivity.
  - rewrite IH. reflexivity.
Qed.

Lemma str_slice_middle (pre x post : string) :
  str_slice (pre ++ x ++ post) (len pre) (len pre + len x) = x.
Proof.
  unfold str_slice, len.
  replace (Z.of_nat (String.length pre) + Z.of_nat (String.length x)
           - Z.of_nat (String.length pre)) with (Z.of_nat (String.length x)) by lia.
  rewrite !Nat2Z.id, substring_skip. apply substring_take.
Qed.

Lemma length_append (s t : string) :
  String.length (s ++ t) = (String.length s + String.length t)%nat.
Proof. induction s as [|a s IH]; simpl; [reflexivity | now rewrite IH]. Qed.

Lemma append_assoc (s t u : string) : (s ++ t) ++ u = s ++ t ++ u.
Proof. induction s as [|a s IH]; simpl; [reflexivity | now rewrite IH]. Qed.

(** The region between the first opening and the last closing brace. *)
Lemma json_region_braces (pre mid post : string) :
  contains "{" pre = false ->
  contains "}" post = false ->
  json_region (pre ++ "{" ++ mid ++ "}" ++ post) = Some ("{" ++ mid ++ "}").
Proof.
  intros Hpre Hpost. unfold json_region.
  assert (Hfind : str_find "{" (pre ++ "{" ++ mid ++ "}" ++ post) = len pre)
    by (apply (str_find_first "{" pre); exact Hpre).
  assert (Hrfind : str_rfind "}" (pre ++ "{" ++ mid ++ "}" ++ post)
                   = len pre + 1 + len mid).
  { replace (pre ++ "{" ++ mid ++ "}" ++ post)
      with ((pre ++ "{" ++ mid) ++ String "}" post)
      by (rewrite !append_assoc; reflexivity).
    rewrite (str_rfind_last "}" _ post Hpost).
    unfold len. rewrite !length_append. simpl. lia. }
  rewrite Hfind, Hrfind.
  assert (Ha : 0 <= len pre) by (unfold len; lia).
  assert (Hb : 0 <= len mid) by (unfold len; lia).
  assert (T1 : negb (len pre =? -1) = true)
    by (apply negb_true_iff, Z.eqb_neq; lia).
  assert (T2 : negb (len pre + 1 + len mid =? -1) = true)
    by (apply negb_true_iff, Z.eqb_neq; lia).
  assert (T3 : (len pre + 1 + len mid >? len pre) = true)
    by (apply Z.gtb_lt; lia).
  rewrite T1, T2, T3. cbn [andb]. f_equal.
  replace (pre ++ "{" ++ mid ++ "}" ++ post)
    with (pre ++ ("{" ++ mid ++ "}") ++ post)
    by (rewrite !append_assoc; reflexivity).
  replace (len pre + 1 + len mid + 1) with (len pre + len ("{" ++ mid ++ "}")).
  - apply str_slice_middle.
  - unfold len. simpl. rewrite length_append. simpl. lia.
Qed.

Lemma json_region_no_brace (raw : string) :
  contains "{" raw = false \/ contains "}" raw = false ->
  json_region raw = None.
Proof.
  unfold json_region. intros [H | H].
  - rewrite (str_find_absent _ _ H). reflexivity.
  - rewrite (str_rfind_absent _ _ H). simpl.
    now rewrite andb_false_r.
Qed.

(** ** The parse of the model's reply *)

Section Parsing.
Context {P : Platform}.

Lemma parse_whole (reply : string) (v : json) :
  json_loads reply = Some v -> parse_best_job_json (JStr reply) = Ok v.
Proof. intros H. unfold parse_best_job_json. now rewrite H. Qed.

Lemma parse_region (reply snippet : string) :
  json_loads reply = None ->
  json_region reply = Some snippet ->
  parse_best_job_json (JStr reply)
  = Ok (match json_loads snippet with Some v => v | None => JNull end).
Proof.
  intros Hwhole Hregion. unfold parse_best_job_json.
  rewrite Hwhole, Hregion. now destruct (json_loads snippet).
Qed.

Lemma parse_unparsable (reply : string) :
  unparsable reply -> parse_best_job_json (JStr reply) = Ok JNull.
Proof.
  intros [Hwhole Hregion]. unfold parse_best_job_json. rewrite Hwhole.
  destruct (json_region reply) as [snippet|]; [|reflexivity].
  now rewrite Hregion.
Qed.

Lemma parse_total (reply : string) :
  exists v, parse_best_job_json (JStr reply) = Ok v.
Proof.
  unfold parse_best_job_json.
  destruct (json_loads reply); [eauto|].
  destruct (json_region reply) as [snippet|]; [|eauto].
  destruct (json_loads snippet); eauto.
Qed.

(** What [recommend_best_job] makes of a reply it got. *)
Lemma recommend_of_reply (resume_text : string) (jobs : list json) (reply : json) :
  call_openrouter (_build_messages resume_text jobs) 30 = Ok reply ->
  recommend_best_job resume_text jobs
  = (parsed0 <- parse_best_job_json reply ;;
     let parsed := py_or parsed0 (JObj []) in
     best_job_id <- py_get parsed "best_job_id" JNull ;;
     score <- py_get parsed "score" JNull ;;
     reason <- py_get parsed "reason" JNull ;;
     Ok {| best_job_id := best_job_id; score := score; reason := reason;
           raw := reply |}).
Proof. intros H. unfold recommend_best_job. now rewrite H. Qed.

Lemma recommend_empty (resume_text : string) (jobs : list json) (reply v : json) :
  call_openrouter (_build_messages resume_text jobs) 30 = Ok reply ->
  parse_best_job_json reply = Ok v ->
  py_truthy v = false ->
  recommend_best_job resume_text jobs
  = Ok {| best_job_id := JNull; score := JNull; reason := JNull; raw := reply |}.
Proof.
  intros Hcall Hparse Hfalsy.
  rewrite (recommend_of_reply _ _ _ Hcall), Hparse. simpl.
  unfold py_or. now rewrite Hfalsy.
Qed.

Lemma recommend_object (resume_text : string) (jobs : list json) (reply : json)
    (pairs : list (string * json)) :
  call_openrouter (_build_messages resume_text jobs) 30 = Ok reply ->
  parse_best_job_json reply = Ok (JObj pairs) ->
  recommend_best_job resume_text jobs
  = Ok {| best_job_id :=
            match dict_lookup "best_job_id" pairs with Some v => v | None => JNull end;
          score := match dict_lookup "score" pairs with Some v => v | None => JNull end;
          reason := match dict_lookup "reason" pairs with Some v => v | None => JNull end;
          raw := reply |}.
Proof.
  intros Hcall Hparse.
  rewrite (recommend_of_reply _ _ _ Hcall), Hparse. simpl.
  destruct pairs as [|kv pairs]; reflexivity.
Qed.

(** A reply that parses to a JSON value other than an object, and one
    Python takes for true, ends [recommend_best_job] in an exception. *)
Lemma recommend_not_object (resume_text : string) (jobs : list json) (reply v : json) :
  call_openrouter (_build_messages resume_text jobs) 30 = Ok reply ->
  parse_best_job_json reply = Ok v ->
  py_truthy v = true ->
  is_object v = false ->
  recommend_best_job resume_text jobs = Raise AttributeError.
Proof.
  intros Hcall Hparse Htruthy Hobj.
  rewrite (recommend_of_reply _ _ _ Hcall), Hparse. simpl.
  unfold py_or. rewrite Htruthy.
  destruct v; try reflexivity; discriminate.
Qed.

End Parsing.

(** The reply of the scenario, as the platform reads it. *)
Lemma reply_with_prose_read :
  Python.loads reply_with_prose = None
  /\ json_region reply_with_prose
     = Some ("{" ++ quoted "best_job_id" ++ ": 2, " ++ quoted "score" ++ ": 91, "
             ++ quoted "reason" ++ ": " ++ quoted "skills match" ++ "}").
Proof. split; vm_compute; reflexivity. Qed.

(** C5. [parse_best_job_json] returns what the whole reply parses to when
    it parses; when it does not, and the reply has an opening brace with a
    closing brace after it, it returns what the text from the first opening
    brace to the last closing brace parses to; the reply of the scenario,
    JSON after a word of prose, gives [best_job_id = 2] and [score = 91];
    and when neither attempt parses, [recommend_best_job] returns
    [best_job_id = None], [score = None] and [reason = None]. *)
Theorem parse_best_job_json_two_attempts :
  (forall (P : Platform) (reply : string) (v : json),
      json_loads reply = Some v ->
      parse_best_job_json (JStr reply) = Ok v)
  /\ (forall (P : Platform) (pre mid post : string),
        contains "{" pre = false ->
        contains "}" post = false ->
        json_loads (pre ++ "{" ++ mid ++ "}" ++ post) = None ->
        parse_best_job_json (JStr (pre ++ "{" ++ mid ++ "}" ++ post))
        = Ok (match json_loads ("{" ++ mid ++ "}") with
              | Some v => v
              | None => JNull
              end))
  /\ (forall (resume_text : string) (jobs : list json),
        @recommend_best_job (cpython (answers (JStr reply_with_prose)))
                            resume_text jobs
        = Ok {| best_job_id := JInt 2; score := JInt 91;
                reason := JStr "skills match"; raw := JStr reply_with_prose |})
  /\ (forall (P : Platform) (resume_text : string) (jobs : list json)
             (reply : string),
        call_openrouter (_build_messages resume_text jobs) 30 = Ok (JStr reply) ->
        unparsable reply ->
        recommend_best_job resume_text jobs
        = Ok {| best_job_id := JNull; score := JNull; reason := JNull;
                raw := JStr reply |}).
Proof.
  split; [|split; [|split]].
  - intros P reply v. apply parse_whole.
  - intros P pre mid post Hpre Hpost Hwhole.
    apply parse_region; [exact Hwhole|].
    now apply json_region_braces.
  - intros resume_text jobs.
    set (X := cpython (answers (JStr reply_with_prose))).
    assert (Hcall : @call_openrouter X (@_build_messages X resume_text jobs) 30
                    = Ok (JStr reply_with_prose)) by (vm_compute; reflexivity).
    rewrite (recommend_of_reply _ _ _ Hcall).
    vm_compute. reflexivity.
  - intros P resume_text jobs reply Hcall Hun.
    apply (recommend_empty _ _ _ JNull Hcall); [|reflexivity].
    now apply parse_unparsable.
Qed.

Lemma parse_best_job_json_two_attempts_witness :
  let X := cpython (answers (JStr "I cannot help with that.")) in
  let fields := quoted "best_job_id" ++ ": 2, " ++ quoted "score" ++ ": 91" in
  @parse_best_job_json X (JStr " 7 ") = Ok (JInt 7)
  /\ @parse_best_job_json X (JStr ("Sure! " ++ "{" ++ fields ++ "}" ++ " Bye."))
     = Ok (JObj [("best_job_id", JInt 2); ("score", JInt 91)])
  /\ @recommend_best_job X "" []
     = Ok {| best_job_id := JNull; score := JNull; reason := JNull;
             raw := JStr "I cannot help with that." |}.
Proof.
  intros X fields.
  destruct parse_best_job_json_two_attempts as (Hwhole & Hregion & _ & Hnone).
  split; [apply (Hwhole X); reflexivity|].
  split.
  - rewrite (Hregion X "Sure! " fields " Bye."); reflexivity.
  - apply (Hnone X "" [] "I cannot help with that.").
    + vm_compute. reflexivity.
    + split; vm_compute; [reflexivity | exact I].
Defined.

(** ** The pool of active jobs *)

Lemma insert_by_created_at_In (x j : Job.t) (sorted : list Job.t) :
  In x (insert_by_created_at j sorted) <-> x = j \/ In x sorted.
Proof.
  induction sorted as [|h rest IH]; simpl.
  - intuition.
  - destruct (Job.created_at h <=? Job.created_at j); simpl.
    + intuition.
    + rewrite IH. intuition.
Qed.

Lemma order_by_created_at_desc_In (x : Job.t) (rows : list Job.t) :
  In x (order_by_created_at_desc rows) <-> In x rows.
Proof.
  unfold order_by_created_at_desc.
  induction rows as [|r rows IH]; simpl; [reflexivity|].
  rewrite insert_by_created_at_In, IH. intuition.
Qed.

Lemma order_by_created_at_desc_nil (rows : list Job.t) :
  order_by_created_at_desc rows = [] <-> rows = [].
Proof.
  split; intros H.
  - destruct rows as [|r rows]; [reflexivity|].
    assert (Hin : In r (order_by_created_at_desc (r :: rows)))
      by (apply order_by_created_at_desc_In; now left).
    rewrite H in Hin. destruct Hin.
  - now subst.
Qed.

Lemma firstn_In_list {A : Type} (n : nat) (x : A) (l : list A) :
  In x (firstn n l) -> In x l.
Proof.
  intros H. rewrite <- (firstn_skipn n l). apply in_or_app. now left.
Qed.

(** A job of the pool is an active job of the store. *)
Lemma active_jobs_In (d : db) (limit : Z) (j : Job.t) :
  In j (active_jobs d limit) -> In j (jobs d) /\ Job.is_active j = true.
Proof.
  unfold active_jobs. intros H.
  apply firstn_In_list, order_by_created_at_desc_In, filter_In in H. exact H.
Qed.

(** The pool is empty exactly when the store has no active job: the slice
    keeps five rows at least. *)
Lemma active_jobs_nil (d : db) (limit : Z) :
  active_jobs d limit = [] <-> filter Job.is_active (jobs d) = [].
Proof.
  unfold active_jobs.
  rewrite <- (order_by_created_at_desc_nil (filter Job.is_active (jobs d))).
  destruct (Z.to_nat (Z.max 5 limit)) as [|n] eqn:E; [lia|].
  destruct (order_by_created_at_desc (filter Job.is_active (jobs d))); simpl.
  - tauto.
  - split; discriminate.
Qed.


(** A table whose keys are all different has one row of a key. *)
Lemma unique_key {A : Type} (pk : A -> Z) (rows : list A) (a b : A) :
  NoDup (map pk rows) -> In a rows -> In b rows -> pk a = pk b -> a = b.
Proof.
  induction rows as [|r rows IH]; simpl; [tauto|].
  intros Hkeys Ha Hb Hkey. inversion Hkeys as [|k ks Hout Hrest]; subst.
  destruct Ha as [<- | Ha], Hb as [<- | Hb].
  - reflexivity.
  - exfalso. apply Hout. rewrite Hkey. now apply in_map.
  - exfalso. apply Hout. rewrite <- Hkey. now apply in_map.
  - now apply IH.
Qed.

(** The lookup finds a job whenever an active job has the key. *)
Lemma active_job_by_pk_complete (d : db) (j : Job.t) :
  In j (jobs d) -> Job.is_active j = true ->
  exists found, active_job_by_pk d (Some (Job.id j)) = Some found.
Proof.
  intros Hin Hact. simpl.
  destruct (find (fun x => (Job.id x =? Job.id j) && Job.is_active x) (jobs d))
    as [found|] eqn:Hfind; [now exists found|].
  apply (find_none _ _ Hfind) in Hin. cbv beta in Hin.
  rewrite Z.eqb_refl, Hact in Hin. discriminate.
Qed.

Lemma active_job_by_pk_sound (d : db) (pk : option Z) (j : Job.t) :
  active_job_by_pk d pk = Some j ->
  In j (jobs d) /\ Job.is_active j = true /\ pk = Some (Job.id j).
Proof.
  destruct pk as [n|]; simpl; [|discriminate].
  intros H. apply find_some in H as [Hin Hb].
  apply andb_true_iff in Hb as [Hid Hact].
  apply Z.eqb_eq in Hid. subst. auto.
Qed.

(** ** The recommendation endpoint *)

Section Endpoint.
Context {P : Platform}.

Lemma post_empty_pool (req : request) (d : db) (resume_text : string) (limit : Z) :
  request_inputs req d = Ok (resume_text, limit) ->
  active_jobs d limit = [] ->
  post req d = Ok no_active_jobs.
Proof. intros Hin Hpool. unfold post. rewrite Hin. simpl. now rewrite Hpool. Qed.

Lemma post_pool (req : request) (d : db) (resume_text : string) (limit : Z)
    (first : Job.t) (rest : list Job.t) :
  request_inputs req d = Ok (resume_text, limit) ->
  active_jobs d limit = first :: rest ->
  post req d
  = (res <- recommend_best_job resume_text (map job_payload (first :: rest)) ;;
     resolve d first res).
Proof.
  intros Hin Hpool. unfold post. rewrite Hin. simpl bind. cbv beta iota.
  rewrite Hpool. cbn [map].
  destruct (recommend_best_job resume_text
              (job_payload first :: map job_payload rest)) as [res|e];
    [|reflexivity].
  unfold resolve. simpl bind.
  destruct (py_truthy (best_job_id res)); simpl bind.
  - destruct (pk_prep (best_job_id res)) as [pk|e]; [|reflexivity]. simpl bind.
    now destruct (active_job_by_pk d pk).
  - reflexivity.
Qed.


(** The routed endpoint runs [post] for a caller with an account and
    refuses the others. *)
Lemma ai_recommend_job_authenticated (req : request) (d : db) :
  is_authenticated (user req) = true -> ai_recommend_job req d = post req d.
Proof. intros H. unfold ai_recommend_job. cbn. now rewrite H. Qed.


End Endpoint.

(** C2. With a pool that is not empty, a reply of the model that is not
    JSON, neither as a whole nor between its first opening and last closing
    brace, makes the endpoint answer 200 with the first job of the pool,
    the latest, and with [score] and [reason] null. *)
Theorem post_unparsable_reply_falls_back
    (P : Platform) (req : request) (d : db) (resume_text : string) (limit : Z)
    (first : Job.t) (rest : list Job.t) (reply : string) :
  request_inputs req d = Ok (resume_text, limit) ->
  active_jobs d limit = first :: rest ->
  call_openrouter (_build_messages resume_text (map job_payload (first :: rest))) 30
  = Ok (JStr reply) ->
  unparsable reply ->
  post req d = Ok (recommended JNull JNull first).
Proof.
  intros Hin Hpool Hcall Hun.
  rewrite (post_pool _ _ _ _ _ _ Hin Hpool).
  rewrite (recommend_empty _ _ _ JNull Hcall (parse_unparsable _ Hun) eq_refl).
  reflexivity.
Qed.

Lemma post_unparsable_reply_falls_back_witness :
  @post (cpython (answers (JStr "I cannot help with that.")))
        (anonymous [("resume_text", JStr "Python developer")]) two_jobs
  = Ok (recommended JNull JNull backend_eng).
Proof.
  apply (post_unparsable_reply_falls_back
           (cpython (answers (JStr "I cannot help with that.")))
           (anonymous [("resume_text", JStr "Python developer")]) two_jobs
           "Python developer" 25 backend_eng [data_analyst]
           "I cannot help with that.").
  - reflexivity.
  - reflexivity.
  - vm_compute. reflexivity.
  - split; vm_compute; [reflexivity | exact I].
Defined.

(** C7. When the one HTTP exchange with the model fails, by an exception
    of the client (a timeout, an endpoint out of reach) or by a status of
    the 4xx and 5xx classes, [recommend_best_job] raises that failure and so
    does the endpoint: there is no response, and no job is chosen in the
    model's place. *)
Theorem post_propagates_transport_failure
    (P : Platform) (req : request) (d : db) (resume_text : string) (limit : Z)
    (e : exn) :
  request_inputs req d = Ok (resume_text, limit) ->
  active_jobs d limit <> [] ->
  (model_call resume_text (map job_payload (active_jobs d limit)) = Raise e
   \/ exists resp,
        model_call resume_text (map job_payload (active_jobs d limit)) = Ok resp
        /\ 400 <= status_code resp < 600
        /\ e = HTTPError (status_code resp)) ->
  recommend_best_job resume_text (map job_payload (active_jobs d limit)) = Raise e
  /\ post req d = Raise e.
Proof.
  intros Hin Hpool Hfail.
  assert (Hrec : recommend_best_job resume_text
                   (map job_payload (active_jobs d limit)) = Raise e).
  { unfold recommend_best_job, call_openrouter. unfold model_call in Hfail.
    destruct Hfail as [Hraise | (resp & Hresp & Hcode & ->)].
    - now rewrite Hraise.
    - rewrite Hresp. simpl. unfold raise_for_status.
      replace (400 <=? status_code resp) with true by (symmetry; apply Z.leb_le; lia).
      replace (status_code resp <? 600) with true by (symmetry; apply Z.ltb_lt; lia).
      reflexivity. }
  split; [exact Hrec|].
  destruct (active_jobs d limit) as [|first rest] eqn:E; [now destruct Hpool|].
  rewrite (post_pool _ _ _ _ _ _ Hin E), Hrec. reflexivity.
Qed.

Lemma post_propagates_transport_failure_witness :
  @post (cpython (fails Timeout)) (anonymous []) two_jobs = Raise Timeout
  /\ @post (cpython (refuses 503)) (anonymous []) two_jobs = Raise (HTTPError 503).
Proof.
  split.
  - apply (post_propagates_transport_failure
             (cpython (fails Timeout)) (anonymous []) two_jobs "" 25 Timeout).
    + reflexivity.
    + vm_compute. discriminate.
    + left. reflexivity.
  - apply (post_propagates_transport_failure
             (cpython (refuses 503)) (anonymous []) two_jobs "" 25 (HTTPError 503)).
    + reflexivity.
    + vm_compute. discriminate.
    + right. exists {| status_code := 503; text := "" |}.
      split; [reflexivity | split; [simpl; lia | reflexivity]].
Defined.

(** The scenario of the specification: the reply with a word of prose
    names job 2 of the pool, and the endpoint answers with that job. *)
Example post_follows_parsed_reply :
  @post (cpython (answers (JStr reply_with_prose)))
        (anonymous [("resume_text", JStr "SQL and statistics")]) two_jobs
  = Ok (recommended (JInt 91) (JStr "skills match") data_analyst).
Proof. vm_compute. reflexivity. Qed.




(** C1 does not hold as the specification has it: with six active jobs and
    a limit of five the pool leaves out the oldest job, and when the model
    names that one the endpoint answers a seeker with it. *)
Lemma post_recommends_outside_pool :
  let req := signed_in a_seeker [("limit", JInt 5)] in
  let job1 := a_job 1 "Engineer" 1 true in
  active_jobs six_openings 5 = map (fun k => a_job k "Engineer" k true) [6; 5; 4; 3; 2]
  /\ @ai_recommend_job (cpython (answers (JStr (reply_naming 1)))) req six_openings
     = Ok (recommended (JInt 80) (JStr "fit") job1)
  /\ ~ In job1 (active_jobs six_openings 5).
Proof.
  intros req job1. split; [vm_compute; reflexivity|].
  split; [vm_compute; reflexivity|].
  intros H. vm_compute in H.
  repeat (destruct H as [H | H]; [discriminate H|]). exact H.
Qed.

(** C1, amended. For an authenticated caller and a pool that is not
    empty, a recommendation whose [best_job_id] is false for Python (absent,
    null, zero) or is a value the ORM takes for a key makes the endpoint
    answer 200 with an active job of the store.  When an active job of the
    store has the key the model names, in the pool or not, the answer is the
    job of that key; when none has, or no key is named, it is the first job
    of the pool, as for a reply that did not parse. *)
Theorem post_recommends_active_job
    (P : Platform) (req : request) (d : db) (resume_text : string) (limit : Z)
    (first : Job.t) (rest : list Job.t) (res : recommendation) :
  is_authenticated (user req) = true ->
  request_inputs req d = Ok (resume_text, limit) ->
  limit <= max_query_limit ->
  active_jobs d limit = first :: rest ->
  recommend_best_job resume_text (map job_payload (first :: rest)) = Ok res ->
  (py_truthy (best_job_id res) = false
   \/ exists pk, pk_prep (best_job_id res) = Ok pk) ->
  exists job : Job.t,
    ai_recommend_job req d = Ok (recommended (score res) (reason res) job)
    /\ In job (jobs d)
    /\ Job.is_active job = true
    /\ (job = first
        \/ (py_truthy (best_job_id res) = true
            /\ pk_prep (best_job_id res) = Ok (Some (Job.id job))))
    /\ (forall j, In j (jobs d) -> Job.is_active j = true ->
                  py_truthy (best_job_id res) = true ->
                  pk_prep (best_job_id res) = Ok (Some (Job.id j)) ->
                  Job.id job = Job.id j
                  /\ (NoDup (map Job.id (jobs d)) -> job = j))
    /\ ((py_truthy (best_job_id res) = false
         \/ forall j, In j (jobs d) -> Job.is_active j = true ->
                      pk_prep (best_job_id res) <> Ok (Some (Job.id j))) ->
        job = first).
Proof.
  intros Hauth Hin _ Hpool Hrec Hid.
  rewrite (ai_recommend_job_authenticated req d Hauth).
  rewrite (post_pool _ _ _ _ _ _ Hin Hpool), Hrec. simpl bind. unfold resolve.
  assert (Hfirst : In first (jobs d) /\ Job.is_active first = true)
    by (apply (active_jobs_In d limit); rewrite Hpool; now left).
  destruct (py_truthy (best_job_id res)) eqn:Htruthy.
  - destruct Hid as [Hfalse | [pk Hpk]]; [discriminate|].
    rewrite Hpk. simpl bind.
    destruct (active_job_by_pk d pk) as [j|] eqn:Hfind.
    + destruct (active_job_by_pk_sound _ _ _ Hfind) as (Hj & Hact & ->).
      exists j. split; [reflexivity|]. split; [exact Hj|]. split; [exact Hact|].
      split; [right; split; reflexivity|]. split.
      * intros j' Hj' _ _ Hnamed. injection Hnamed as Hkey.
        split; [exact Hkey|].
        intros Hkeys. exact (unique_key Job.id (jobs d) j j' Hkeys Hj Hj' Hkey).
      * intros [Hfalse | Hnone]; [discriminate|].
        now destruct (Hnone j Hj Hact).
    + exists first. destruct Hfirst as [Hf Hfact].
      split; [reflexivity|]. split; [exact Hf|]. split; [exact Hfact|].
      split; [now left|]. split; [|reflexivity].
      intros j' Hj' Hact' _ Hnamed. exfalso.
      injection Hnamed as ->.
      destruct (active_job_by_pk_complete d j' Hj' Hact') as [found Hfound].
      rewrite Hfound in Hfind. discriminate.
  - exists first. destruct Hfirst as [Hf Hfact].
    split; [reflexivity|]. split; [exact Hf|]. split; [exact Hfact|].
    split; [now left|]. split; [|reflexivity].
    intros j' _ _ Hfalse. discriminate.
Qed.

Lemma post_recommends_active_job_witness :
  (exists job : Job.t,
      @ai_recommend_job (cpython (answers (JStr (reply_naming 9))))
            (signed_in a_seeker [("limit", JInt 5)]) six_openings
      = Ok (recommended (JInt 80) (JStr "fit") job)
      /\ job = a_job 6 "Engineer" 6 true)
  /\ (exists job : Job.t,
        @ai_recommend_job (cpython (answers (JStr (reply_naming 1))))
              (signed_in a_seeker [("limit", JInt 5)]) six_openings
        = Ok (recommended (JInt 80) (JStr "fit") job)
        /\ job = a_job 1 "Engineer" 1 true).
Proof.
  split.
  - destruct (post_recommends_active_job
                (cpython (answers (JStr (reply_naming 9))))
                (signed_in a_seeker [("limit", JInt 5)]) six_openings "SQL" 5
                (a_job 6 "Engineer" 6 true)
                (map (fun k => a_job k "Engineer" k true) [5; 4; 3; 2])
                {| best_job_id := JInt 9; score := JInt 80; reason := JStr "fit";
                   raw := JStr (reply_naming 9) |})
      as (job & Hrun & _ & _ & _ & _ & Hfallback).
    + reflexivity.
    + reflexivity.
    + unfold max_query_limit. lia.
    + vm_compute. reflexivity.
    + vm_compute. reflexivity.
    + right. exists (Some 9). reflexivity.
    + exists job. split; [exact Hrun|].
      apply Hfallback. right. intros j Hj _ Heq.
      vm_compute in Hj, Heq.
      repeat (destruct Hj as [<- | Hj]; [discriminate Heq|]). exact Hj.
  - destruct (post_recommends_active_job
                (cpython (answers (JStr (reply_naming 1))))
                (signed_in a_seeker [("limit", JInt 5)]) six_openings "SQL" 5
                (a_job 6 "Engineer" 6 true)
                (map (fun k => a_job k "Engineer" k true) [5; 4; 3; 2])
                {| best_job_id := JInt 1; score := JInt 80; reason := JStr "fit";
                   raw := JStr (reply_naming 1) |})
      as (job & Hrun & _ & _ & _ & Hnamed & _).
    + reflexivity.
    + reflexivity.
    + unfold max_query_limit. lia.
    + vm_compute. reflexivity.
    + vm_compute. reflexivity.
    + right. exists (Some 1). reflexivity.
    + exists job. split; [exact Hrun|].
      apply (Hnamed (a_job 1 "Engineer" 1 true)).
      * left. reflexivity.
      * reflexivity.
      * reflexivity.
      * reflexivity.
      * vm_compute. repeat constructor; simpl; intuition discriminate.
Defined.

(** C8: a reply that is JSON but no object.  [json.loads] gives a list or
    a number, [or {}] keeps it, and [parsed.get] raises. *)
Theorem recommend_best_job_raises_on_non_object :
  forall (resume_text : string) (jobs : list json),
    Python.loads "[1]" = Some (JArr [JInt 1])
    /\ @recommend_best_job (cpython (answers (JStr "[1]"))) resume_text jobs
       = Raise AttributeError
    /\ @recommend_best_job (cpython (answers (JStr "7"))) resume_text jobs
       = Raise AttributeError.
Proof.
  intros resume_text jobs. split; [reflexivity|]. split.
  - set (X := cpython (answers (JStr "[1]"))).
    apply (@recommend_not_object X resume_text jobs (JStr "[1]") (JArr [JInt 1]));
      vm_compute; reflexivity.
  - set (X := cpython (answers (JStr "7"))).
    apply (@recommend_not_object X resume_text jobs (JStr "7") (JInt 7));
      vm_compute; reflexivity.
Qed.

(** ** Applications *)

Lemma find_snoc {A : Type} (f : A -> bool) (l : list A) (x : A) :
  find f (l ++ [x])%list
  = match find f l with
    | Some y => Some y
    | None => if f x then Some x else None
    end.
Proof.
  induction l as [|a l IH]; simpl; [reflexivity|].
  destruct (f a); [reflexivity | exact IH].
Qed.

Lemma existsb_filter_nil {A : Type} (f : A -> bool) (l : list A) :
  existsb f l = false <-> filter f l = [].
Proof.
  induction l as [|a l IH]; simpl; [tauto|].
  destruct (f a); simpl; [split; discriminate | exact IH].
Qed.

Lemma application_exists_pairing (job : Job.t) (seeker : JobSeeker.t) (d : db) :
  application_exists job seeker d = false
  <-> applications_of d (Job.id job) (JobSeeker.id seeker) = [].
Proof. apply existsb_filter_nil. Qed.

(** What the view leaves behind: the applications as they were, or one more
    row for a pair that had none. *)
Lemma application_perform_create_cases (u : request_user) (vd : application_data)
    (now : datetime) (d : db) :
  (exists e d', application_perform_create u vd now d = (Raise e, d')
                /\ applications d' = applications d)
  \/ (exists job d' app,
        application_perform_create u vd now d = (Ok tt, d')
        /\ vd_job vd = Some job
        /\ Job.is_active job = true
        /\ applications d' = (applications d ++ [app])%list
        /\ Application.job app = Job.id job
        /\ Application.seeker app = applicant d u
        /\ Application.status app
           = match vd_status vd with Some s => s | None => Application.PENDING end
        /\ applications_of d (Job.id job) (applicant d u) = []
        /\ applicant d' u = applicant d u).
Proof.
  unfold application_perform_create.
  destruct (negb (is_authenticated u) || negb (is_role u "seeker")) eqn:Hguard.
  { left. eexists _, d. split; reflexivity. }
  apply orb_false_iff in Hguard as [Hauth Hrole].
  destruct u as [account|]; [|discriminate].
  unfold and_then, query. unfold applicant.
  destruct (seeker_profile d (Some account)) as [s|] eqn:Hprofile.
  - (* the caller has a profile *)
    unfold ret.
    destruct (vd_job vd) as [job|] eqn:Hjob;
      [|left; eexists _, d; split; reflexivity].
    destruct (Job.is_active job) eqn:Hact; cbn [negb];
      [|left; eexists _, d; split; reflexivity].
    destruct (application_exists job s d) eqn:Hex.
    + left. eexists _, d. split; reflexivity.
    + right. eexists job, _, _. split; [reflexivity|].
      repeat split; try reflexivity; try assumption.
      * now apply application_exists_pairing.
      * unfold seeker_profile in *. cbn. rewrite Hprofile. reflexivity.
  - (* a profile is created for it *)
    cbn [create_seeker].
    set (row := {| JobSeeker.id := next_id JobSeeker.id (seekers d);
                   JobSeeker.user := User.id account;
                   JobSeeker.resume_url := "";
                   JobSeeker.resume_text := "";
                   JobSeeker.created_at := now |}).
    set (d1 := set_seekers (seekers d ++ [row]) d).
    destruct (vd_job vd) as [job|] eqn:Hjob;
      [|left; eexists _, d1; split; reflexivity].
    destruct (Job.is_active job) eqn:Hact; cbn [negb];
      [|left; eexists _, d1; split; reflexivity].
    destruct (application_exists job row d1) eqn:Hex.
    + left. eexists _, d1. split; reflexivity.
    + right. eexists job, _, _. split; [reflexivity|].
      repeat split; try reflexivity; try assumption.
      * apply (application_exists_pairing job row d1) in Hex. exact Hex.
      * unfold seeker_profile in *. cbn. rewrite find_snoc, Hprofile. cbn.
        rewrite Z.eqb_refl. reflexivity.
Qed.

(** A caller that has a profile and an application for the job is refused,
    and the store stays as it is. *)
Lemma application_perform_create_again (account : User.t) (vd : application_data)
    (job : Job.t) (s : JobSeeker.t) (now : datetime) (d : db) :
  User.role account = "seeker" ->
  vd_job vd = Some job ->
  Job.is_active job = true ->
  seeker_profile d (Some account) = Some s ->
  applications_of d (Job.id job) (JobSeeker.id s) <> [] ->
  application_perform_create (Some account) vd now d = (Raise already_applied, d).
Proof.
  intros Hrole Hjob Hact Hprofile Hsome.
  unfold application_perform_create, is_role. cbn [role_of is_authenticated negb orb].
  rewrite Hrole, String.eqb_refl. cbn [negb].
  unfold and_then, query. rewrite Hprofile. unfold ret.
  rewrite Hjob, Hact. cbn [negb].
  destruct (application_exists job s d) eqn:Hex; [reflexivity|].
  apply application_exists_pairing in Hex. contradiction.
Qed.

(** What the creation does for every seeker.  A first application for an
    active job succeeds and adds one row for the pair, [PENDING] when the
    request names no status; any further application of that seeker for
    that job is refused with [PermissionDenied] and leaves the store as it
    is; and the view never gives a pair a second row. *)
Lemma application_perform_create_once :
  (forall (account : User.t) (vd : application_data) (job : Job.t)
          (now : datetime) (d : db),
      let u := Some account in
      User.role account = "seeker" ->
      vd_job vd = Some job ->
      Job.is_active job = true ->
      applications_of d (Job.id job) (applicant d u) = [] ->
      exists d1 app,
        application_perform_create u vd now d = (Ok tt, d1)
        /\ applications d1 = (applications d ++ [app])%list
        /\ Application.job app = Job.id job
        /\ Application.seeker app = applicant d u
        /\ Application.status app
           = match vd_status vd with Some s => s | None => Application.PENDING end
        /\ applications_of d1 (Job.id job) (applicant d u) = [app]
        /\ forall (vd' : application_data) (job' : Job.t) (now' : datetime),
             vd_job vd' = Some job' ->
             Job.id job' = Job.id job ->
             Job.is_active job' = true ->
             application_perform_create u vd' now' d1 = (Raise already_applied, d1))
  /\ (forall (u : request_user) (vd : application_data) (now : datetime)
             (d d' : db) (outcome : result unit),
        application_perform_create u vd now d = (outcome, d') ->
        (forall job_pk seeker_pk,
            (List.length (applications_of d job_pk seeker_pk) <= 1)%nat) ->
        forall job_pk seeker_pk,
          (List.length (applications_of d' job_pk seeker_pk) <= 1)%nat).
Proof.
  split.
  - intros account vd job now d u Hrole Hjob Hact Hfirst.
    destruct (application_perform_create_cases u vd now d)
      as [(e & d' & Hrun & Hsame)
         | (job0 & d' & app & Hrun & Hjob0 & _ & Happs & Hj & Hs & Hst & _ & Hkeep)].
    + (* no refusal applies *)
      exfalso. revert Hrun. unfold application_perform_create, is_role, u.
      cbn [role_of is_authenticated negb orb].
      rewrite Hrole, String.eqb_refl. cbn [negb].
      unfold and_then, query, applicant, u in *.
      destruct (seeker_profile d (Some account)) as [s|] eqn:Hprofile.
      * unfold ret. rewrite Hjob, Hact. cbn [negb].
        apply application_exists_pairing in Hfirst. rewrite Hfirst.
        discriminate.
      * cbn [create_seeker]. rewrite Hjob, Hact. cbn [negb].
        match goal with
        | |- context [application_exists job ?row ?d1] =>
            assert (Hex : application_exists job row d1 = false)
              by (apply application_exists_pairing; exact Hfirst);
            rewrite Hex
        end.
        discriminate.
    + rewrite Hjob in Hjob0. injection Hjob0 as <-.
      exists d', app. split; [exact Hrun|].
      assert (Hpair : pairing (Job.id job) (applicant d u) app = true)
        by (unfold pairing; rewrite Hj, Hs, !Z.eqb_refl; reflexivity).
      assert (Hone : applications_of d' (Job.id job) (applicant d u) = [app]).
      { unfold applications_of. rewrite Happs, filter_app.
        unfold applications_of in Hfirst. rewrite Hfirst. cbn.
        now rewrite Hpair. }
      repeat split; try assumption.
      intros vd' job' now' Hjob' Hid Hact'.
      assert (Hprofile : exists s, seeker_profile d' u = Some s
                                   /\ JobSeeker.id s = applicant d u).
      { unfold applicant in Hkeep.
        destruct (seeker_profile d' u) as [s|] eqn:E; [now exists s|].
        exfalso. revert Hrun E. unfold application_perform_create, is_role, u.
        cbn [role_of is_authenticated negb orb].
        rewrite Hrole, String.eqb_refl. cbn [negb].
        unfold and_then, query.
        destruct (seeker_profile d (Some account)) as [s|] eqn:Hp.
        - unfold ret. rewrite Hjob, Hact. cbn [negb].
          destruct (application_exists job s d); [discriminate|].
          intros [= <-]. unfold seeker_profile in *. cbn. now rewrite Hp.
        - cbn [create_seeker]. rewrite Hjob, Hact. cbn [negb].
          match goal with
          | |- context [application_exists job ?row ?d1] =>
              destruct (application_exists job row d1)
          end; [discriminate|].
          intros [= <-]. unfold seeker_profile in *. cbn.
          rewrite find_snoc, Hp. cbn. now rewrite Z.eqb_refl. }
      destruct Hprofile as (s & Hs' & Hsid).
      apply (application_perform_create_again account vd' job' s now' d');
        try assumption.
      rewrite Hid, Hsid, Hone. discriminate.
  - intros u vd now d d' outcome Hrun Hinv job_pk seeker_pk.
    destruct (application_perform_create_cases u vd now d)
      as [(e & d1 & Hrun1 & Hsame)
         | (job & d1 & app & Hrun1 & _ & _ & Happs & Hj & Hs & _ & Hnone & _)];
      rewrite Hrun in Hrun1; injection Hrun1 as -> ->.
    + unfold applications_of. rewrite Hsame. apply Hinv.
    + unfold applications_of. rewrite Happs, filter_app, length_app.
      cbn [filter].
      destruct (pairing job_pk seeker_pk app) eqn:Hpair.
      * unfold pairing in Hpair. apply andb_true_iff in Hpair as [H1 H2].
        apply Z.eqb_eq in H1, H2. rewrite Hj in H1. rewrite Hs in H2. subst.
        unfold applications_of in Hnone. rewrite Hnone. cbn. lia.
      * cbn. specialize (Hinv job_pk seeker_pk).
        unfold applications_of in Hinv. lia.
Qed.

Lemma application_perform_create_once_witness :
  let vd := {| vd_job := Some backend_eng; vd_status := None |} in
  exists d1 app,
    application_perform_create (Some a_seeker) vd 30 two_jobs = (Ok tt, d1)
    /\ applications d1 = [app]
    /\ Application.status app = Application.PENDING
    /\ application_perform_create (Some a_seeker) vd 31 d1
       = (Raise already_applied, d1).
Proof.
  intros vd.
  destruct application_perform_create_once as [Hfirst _].
  destruct (Hfirst a_seeker vd backend_eng 30 two_jobs)
    as (d1 & app & Hrun & Happs & _ & _ & Hstatus & _ & Hagain);
    try reflexivity.
  exists d1, app. split; [exact Hrun|]. split; [exact Happs|].
  split; [exact Hstatus|].
  apply (Hagain vd backend_eng 31); reflexivity.
Defined.

(** C3: the status of a first application.  [status] is a writable field
    of [ApplicationSerializer] and [perform_create] saves what the request
    gave, so a seeker who sends [ACCEPTED] with a first application has it
    created accepted, where the claim has it created pending.  The other
    way to a status, [ApplicationRetrieveUpdateView.get_object], refuses
    that same seeker for that same application: it is open to the employer
    who owns the job alone. *)
Theorem application_created_with_given_status :
  let vd := {| vd_job := Some data_analyst;
               vd_status := Some Application.ACCEPTED |} in
  exists d' app,
    application_perform_create (Some a_seeker) vd 30 hiring = (Ok tt, d')
    /\ applications d' = (applications hiring ++ [app])%list
    /\ Application.job app = Job.id data_analyst
    /\ Application.seeker app = applicant hiring (Some a_seeker)
    /\ Application.status app = Application.ACCEPTED
    /\ application_get_object (Some a_seeker) (Application.id app) d'
       = Raise not_allowed.
Proof.
  intros vd. eexists. eexists.
  split; [vm_compute; reflexivity|].
  split; [reflexivity|].
  repeat split.
Qed.

(** ** Interviews and their appointment *)

Lemma next_id_above {A : Type} (pk : A -> Z) (rows : list A) (r : A) :
  In r rows -> pk r < next_id pk rows.
Proof.
  unfold next_id. induction rows as [|a rows IH]; simpl; [tauto|].
  intros [-> | Hin]; [lia|]. specialize (IH Hin). lia.
Qed.

Lemma next_id_fresh {A : Type} (pk : A -> Z) (rows : list A) :
  ~ In (next_id pk rows) (map pk rows).
Proof.
  intros H. apply in_map_iff in H as (r & Heq & Hin).
  pose proof (next_id_above pk rows r Hin). lia.
Qed.

(** With keys that do not repeat, the update of [found] touches its row
    alone. *)
Lemma update_in_place (rows : list Appointment.t) (found row : Appointment.t) :
  NoDup (map Appointment.id rows) ->
  In found rows ->
  exists before after,
    rows = (before ++ found :: after)%list
    /\ map (fun a => if Appointment.id a =? Appointment.id found then row else a) rows
       = (before ++ row :: after)%list.
Proof.
  intros Hnodup Hin.
  destruct (in_split _ _ Hin) as (before & after & ->).
  exists before, after. split; [reflexivity|].
  rewrite map_app in Hnodup. cbn [map] in Hnodup.
  assert (Hout : forall a, In a before \/ In a after ->
                           (Appointment.id a =? Appointment.id found) = false).
  { intros a Ha. apply Z.eqb_neq. intros Heq.
    apply NoDup_remove_2 in Hnodup. apply Hnodup.
    rewrite <- Heq. apply in_or_app.
    destruct Ha as [Ha | Ha]; [left | right]; now apply in_map. }
  rewrite map_app. cbn [map]. rewrite Z.eqb_refl. f_equal; [|f_equal].
  - rewrite <- (map_id before) at 2. apply map_ext_in.
    intros a Ha. now rewrite Hout by auto.
  - rewrite <- (map_id after) at 2. apply map_ext_in.
    intros a Ha. now rewrite Hout by auto.
Qed.

Lemma filter_singleton_split {A : Type} (f : A -> bool) (before after : list A)
    (x : A) :
  (List.length (filter f (before ++ x :: after)) <= 1)%nat ->
  f x = true ->
  filter f before = [] /\ filter f after = [].
Proof.
  rewrite filter_app. cbn [filter]. intros Hlen Hx. rewrite Hx in Hlen.
  rewrite length_app in Hlen. cbn [List.length] in Hlen.
  destruct (filter f before); [|cbn in Hlen; lia].
  destruct (filter f after); [|cbn in Hlen; lia].
  split; reflexivity.
Qed.

(** [update_or_create] on a store that keeps one appointment at most for
    [app] leaves exactly one, with the given fields, and the appointments
    of the other applications as they were. *)
Lemma update_or_create_appointment_spec (app : Application.t) (title : string)
    (date : pydate) (time : pytime) (content : string) (now : datetime) (d : db) :
  one_appointment d app ->
  exists row created d',
    update_or_create_appointment app title date time content now d
    = (Ok (row, created), d')
    /\ appointments_for d' app = [row]
    /\ Appointment.application row = Application.id app
    /\ Appointment.title row = title
    /\ Appointment.date row = date
    /\ Appointment.time row = time
    /\ Appointment.content row = content
    /\ NoDup (map Appointment.id (appointments d'))
    /\ List.length (appointments d')
       = (List.length (appointments d)
          + (if created then 1 else 0))%nat
    /\ (created = true <-> appointments_for d app = [])
    /\ (forall found, appointments_for d app = [found] ->
                     Appointment.id row = Appointment.id found)
    /\ (forall other, Application.id other <> Application.id app ->
                     appointments_for d' other = appointments_for d other)
    /\ d' = set_appointments (appointments d') d.
Proof.
  intros [Hnodup Hone]. unfold update_or_create_appointment.
  unfold appointments_for in *.
  destruct (filter (for_application app) (appointments d))
    as [|found [|second more]] eqn:Hfilter.
  - (* no row yet: it is created *)
    eexists _, true, _. split; [reflexivity|]. cbn.
    rewrite filter_app, Hfilter. cbn. unfold for_application at 1. cbn.
    rewrite Z.eqb_refl. repeat split; try reflexivity.
    + rewrite map_app. cbn.
      apply NoDup_app; [exact Hnodup | repeat constructor; tauto|].
      intros x Hx [<- | []]. exact (next_id_fresh _ _ Hx).
    + rewrite length_app. reflexivity.
    + discriminate.
    + intros other Hother. rewrite filter_app. cbn.
      unfold for_application at 2. cbn.
      replace (Application.id app =? Application.id other) with false
        by (symmetry; apply Z.eqb_neq; congruence).
      apply app_nil_r.
  - (* one row: it is written over *)
    assert (Hfound : In found (appointments d) /\ for_application app found = true)
      by (apply filter_In; rewrite Hfilter; now left).
    destruct Hfound as [Hin Hfor].
    set (row := update_appointment title date time content found).
    destruct (update_in_place _ found row Hnodup Hin)
      as (before & after & Hrows & Hmap).
    eexists row, false, _. split; [reflexivity|]. cbn [appointments set_appointments].
    rewrite Hmap.
    assert (Hrow : for_application app row = true) by exact Hfor.
    assert (Hclean : filter (for_application app) before = []
                     /\ filter (for_application app) after = []).
    { apply (filter_singleton_split _ before after found); [|exact Hfor].
      rewrite <- Hrows, Hfilter. cbn. lia. }
    destruct Hclean as [Hb Ha].
    split; [rewrite filter_app; cbn; now rewrite Hb, Ha, Hrow|].
    split; [apply Z.eqb_eq; exact Hfor|].
    repeat split; try reflexivity.
    + replace (map Appointment.id (before ++ row :: after))
        with (map Appointment.id (appointments d)); [exact Hnodup|].
      rewrite Hrows, !map_app. reflexivity.
    + rewrite Hrows, !length_app. cbn. lia.
    + discriminate.
    + discriminate.
    + intros found' [= <-]. reflexivity.
    + intros other Hother. rewrite Hrows, !filter_app. cbn [filter].
      assert (Hno : for_application other found = false).
      { unfold for_application in *. apply Z.eqb_eq in Hfor.
        apply Z.eqb_neq. congruence. }
      replace (for_application other row) with (for_application other found)
        by reflexivity.
      now rewrite Hno.
  - cbn in Hone. lia.
Qed.

Section InterviewSync.
Context {P : Platform}.

(** One creation of an interview by the employer that owns the job. *)
Lemma interview_perform_create_step (account : User.t) (request_data v : json)
    (pk : option Z) (app : Application.t) (job : Job.t) (emp profile : Employer.t)
    (vd : interview_data) (now : datetime) (d : db) :
  User.role account = "provider" ->
  employer_profile d (Some account) = Some profile ->
  py_get request_data "application" JNull = Ok v ->
  pk_prep v = Ok pk ->
  get_application d pk = Ok (app, job, emp) ->
  Job.employer job = Employer.id profile ->
  one_appointment d app ->
  exists d' interview appt,
    interview_perform_create (Some account) request_data vd now d = (Ok tt, d')
    /\ interviews d' = (interviews d ++ [interview])%list
    /\ records interview app vd
    /\ appointments_for d' app = [appt]
    /\ mirrors appt interview
    /\ one_appointment d' app
    /\ (forall found, appointments_for d app = [found] ->
                     Appointment.id appt = Appointment.id found
                     /\ List.length (appointments d') = List.length (appointments d))
    /\ (forall other, Application.id other <> Application.id app ->
                     appointments_for d' other = appointments_for d other)
    /\ employers d' = employers d
    /\ jobs d' = jobs d
    /\ applications d' = applications d.
Proof.
  intros Hrole Hprofile Hget Hprep Happ Howner Hone.
  unfold interview_perform_create, and_then, query, lift, is_role.
  rewrite Hprofile. cbn [role_of is_authenticated negb orb].
  rewrite Hrole, String.eqb_refl. cbn [negb orb].
  rewrite Hget, Hprep, Happ, Howner, Z.eqb_refl. cbn [negb save_interview].
  set (interview := {| Interview.id := next_id Interview.id (interviews d);
                       Interview.application := Application.id app;
                       Interview.title := vd_title vd;
                       Interview.date := vd_date vd;
                       Interview.time := vd_time vd;
                       Interview.created_at := now |}).
  set (d1 := set_interviews (interviews d ++ [interview]) d).
  destruct (update_or_create_appointment_spec app
              (Interview.title interview) (Interview.date interview)
              (Interview.time interview)
              ("Interview: " ++ Interview.title interview) now d1 Hone)
    as (row & created & d' & Hrun & Hfor & Hrapp & Htitle & Hdate & Htime & Hcontent
        & Hnodup & Hlen & Hcreated & Hsame & Hothers & Hd').
  rewrite Hrun. exists d', interview, row.
  split; [reflexivity|].
  split; [rewrite Hd'; reflexivity|].
  split; [repeat split|].
  split; [exact Hfor|].
  split; [repeat split; assumption|].
  split; [split; [exact Hnodup | rewrite Hfor; cbn; lia]|].
  split.
  { intros found Hfound. split; [exact (Hsame found Hfound)|].
    destruct created; [|rewrite Hlen; cbn; lia].
    destruct Hcreated as [Hnil _]. specialize (Hnil eq_refl).
    change (appointments_for d1 app) with (appointments_for d app) in Hnil.
    rewrite Hfound in Hnil. discriminate. }
  split; [exact Hothers|].
  rewrite Hd'. repeat split.
Qed.

End InterviewSync.

(** C4. After the creation of an interview for an application, in a store
    that keeps the one-to-one relation, the application has exactly one
    appointment, with the title, the date and the time of that interview
    and the content ["Interview: "] followed by the title; the creation of
    a second interview for the application writes over that appointment,
    which then has the fields of the second interview, and adds none. *)
Theorem interview_creation_syncs_appointment
    (P : Platform) (account : User.t) (request_data v : json) (pk : option Z)
    (app : Application.t) (job : Job.t) (emp profile : Employer.t)
    (vd1 vd2 : interview_data) (now1 now2 : datetime) (d : db) :
  User.role account = "provider" ->
  employer_profile d (Some account) = Some profile ->
  py_get request_data "application" JNull = Ok v ->
  pk_prep v = Ok pk ->
  get_application d pk = Ok (app, job, emp) ->
  Job.employer job = Employer.id profile ->
  one_appointment d app ->
  exists d1 d2 i1 i2 a1 a2,
    interview_perform_create (Some account) request_data vd1 now1 d = (Ok tt, d1)
    /\ interviews d1 = (interviews d ++ [i1])%list
    /\ records i1 app vd1
    /\ appointments_for d1 app = [a1]
    /\ mirrors a1 i1
    /\ interview_perform_create (Some account) request_data vd2 now2 d1 = (Ok tt, d2)
    /\ interviews d2 = (interviews d ++ [i1; i2])%list
    /\ records i2 app vd2
    /\ appointments_for d2 app = [a2]
    /\ mirrors a2 i2
    /\ Appointment.id a2 = Appointment.id a1
    /\ List.length (appointments d2) = List.length (appointments d1).
Proof.
  intros Hrole Hprofile Hget Hprep Happ Howner Hone.
  destruct (interview_perform_create_step account request_data v pk app job emp
              profile vd1 now1 d Hrole Hprofile Hget Hprep Happ Howner Hone)
    as (d1 & i1 & a1 & Hrun1 & Hints1 & Hrec1 & Hfor1 & Hmir1 & Hone1 & _ & _
        & Hemp1 & Hjobs1 & Happs1).
  assert (Hprofile1 : employer_profile d1 (Some account) = Some profile)
    by (unfold employer_profile in *; now rewrite Hemp1).
  assert (Happ1 : get_application d1 pk = Ok (app, job, emp))
    by (unfold get_application in *; now rewrite Happs1, Hjobs1, Hemp1).
  destruct (interview_perform_create_step account request_data v pk app job emp
              profile vd2 now2 d1 Hrole Hprofile1 Hget Hprep Happ1 Howner Hone1)
    as (d2 & i2 & a2 & Hrun2 & Hints2 & Hrec2 & Hfor2 & Hmir2 & _ & Hover & _).
  destruct (Hover a1 Hfor1) as [Hid Hlen].
  exists d1, d2, i1, i2, a1, a2.
  repeat split; try assumption; try apply Hrec1; try apply Hrec2;
    try apply Hmir1; try apply Hmir2.
  rewrite Hints2, Hints1, <- app_assoc. reflexivity.
Qed.

Lemma interview_creation_syncs_appointment_witness :
  let X := cpython (fails Timeout) in
  let body := JObj [("application", JInt 5); ("title", JStr "Intro call")] in
  exists d1 d2 a2,
    @interview_perform_create X (Some a_provider) body intro_call 40 hiring
    = (Ok tt, d1)
    /\ @interview_perform_create X (Some a_provider) body tech_round 41 d1
       = (Ok tt, d2)
    /\ appointments_for d2 an_application = [a2]
    /\ Appointment.title a2 = "Tech round"
    /\ Appointment.content a2 = "Interview: Tech round"
    /\ List.length (appointments d2) = List.length (appointments d1).
Proof.
  intros X body.
  destruct (interview_creation_syncs_appointment X a_provider body (JInt 5) (Some 5)
              an_application backend_eng an_employer an_employer
              intro_call tech_round 40 41 hiring)
    as (d1 & d2 & i1 & i2 & a1 & a2 & Hrun1 & _ & _ & _ & _ & Hrun2 & _ & Hrec
        & Hfor & Hmir & _ & Hlen);
    try reflexivity.
  - split; [constructor | cbn; lia].
  - exists d1, d2, a2.
    destruct Hrec as (_ & Htitle & _).
    destruct Hmir as (_ & Hat & _ & _ & Hcontent).
    repeat split; try assumption.
    + rewrite Hat. exact Htitle.
    + rewrite Hcontent, Htitle. reflexivity.
Defined.

(** ** The soft delete of the administration *)

Lemma deactivate_same (u : User.t) : same_but_is_active u (deactivate u).
Proof. repeat split. Qed.

Lemma deactivate_twice (u : User.t) : deactivate (deactivate u) = deactivate u.
Proof. reflexivity. Qed.

Lemma soft_delete_id (pk : Z) (u : User.t) : User.id (soft_delete pk u) = User.id u.
Proof. unfold soft_delete. now destruct (User.id u =? pk). Qed.

Lemma soft_delete_twice (pk : Z) (u : User.t) :
  soft_delete pk (soft_delete pk u) = soft_delete pk u.
Proof.
  unfold soft_delete. destruct (User.id u =? pk) eqn:E; cbn; now rewrite E.
Qed.

Lemma get_user_after_soft_delete (pk : Z) (rows : list User.t) (target : User.t) :
  generic_get_object User.id rows pk = Ok target ->
  generic_get_object User.id (map (soft_delete pk) rows) pk
  = Ok (soft_delete pk target).
Proof.
  unfold generic_get_object. induction rows as [|r rows IH]; cbn; [discriminate|].
  rewrite soft_delete_id. destruct (User.id r =? pk); [now intros [= ->] | exact IH].
Qed.

Lemma get_object_key {A : Type} (pk_of : A -> Z) (rows : list A) (pk : Z) (r : A) :
  generic_get_object pk_of rows pk = Ok r -> In r rows /\ pk_of r = pk.
Proof.
  unfold generic_get_object.
  destruct (find (fun x => pk_of x =? pk) rows) as [x|] eqn:E; [|discriminate].
  intros [= <-]. apply find_some in E as [Hin Heq]. apply Z.eqb_eq in Heq. auto.
Qed.

Lemma admin_user_destroy_run (pk : Z) (d : db) (target : User.t) :
  generic_get_object User.id (users d) pk = Ok target ->
  admin_user_destroy pk d
  = (Ok no_content, set_users (map (soft_delete pk) (users d)) d).
Proof.
  intros Hget. unfold admin_user_destroy, and_then, write, ret. rewrite Hget.
  destruct (get_object_key _ _ _ _ Hget) as [_ ->]. reflexivity.
Qed.

(** C9. The delete of a user by an administrator answers 204 and keeps
    every row of the user table: the rows of that key have [is_active]
    false and their other columns as before, the other rows and the other
    tables are as before; a second delete of the user answers 204 again and
    changes nothing. *)
Theorem admin_user_delete_is_soft
    (u : request_user) (pk : Z) (d : db) (target : User.t) :
  is_admin_user u = true ->
  generic_get_object User.id (users d) pk = Ok target ->
  exists d',
    admin_user_delete u pk d = (Ok no_content, d')
    /\ Forall2 (fun old new =>
                  same_but_is_active old new
                  /\ (User.id old = pk -> User.is_active new = false)
                  /\ (User.id old <> pk -> new = old))
               (users d) (users d')
    /\ same_relations d d'
    /\ admin_user_delete u pk d' = (Ok no_content, d').
Proof.
  intros Hadmin Hget. unfold admin_user_delete. rewrite Hadmin.
  exists (set_users (map (soft_delete pk) (users d)) d).
  split; [exact (admin_user_destroy_run pk d target Hget)|].
  split.
  { cbn [users set_users]. clear Hget.
    induction (users d) as [|r rows IH]; cbn; constructor; [|exact IH].
    unfold soft_delete. destruct (User.id r =? pk) eqn:E.
    - split; [apply deactivate_same|]. split; [reflexivity|].
      apply Z.eqb_eq in E. contradiction.
    - split; [repeat split|]. split; [|reflexivity].
      apply Z.eqb_neq in E. contradiction. }
  split; [repeat split|].
  rewrite (admin_user_destroy_run pk _ (soft_delete pk target)).
  - cbn [users set_users]. f_equal. unfold set_users. cbn. f_equal.
    rewrite map_map. apply map_ext. apply soft_delete_twice.
  - cbn [users set_users]. now apply get_user_after_soft_delete.
Qed.

Lemma admin_user_delete_is_soft_witness :
  exists d',
    admin_user_delete (Some an_admin) 7 hiring = (Ok no_content, d')
    /\ map User.is_active (users d') = [false; true; true]
    /\ map User.email (users d') = map User.email (users hiring)
    /\ applications d' = applications hiring
    /\ admin_user_delete (Some an_admin) 7 d' = (Ok no_content, d').
Proof.
  destruct (admin_user_delete_is_soft (Some an_admin) 7 hiring a_seeker)
    as (d' & Hrun & _ & Hrel & Hagain); try reflexivity.
  exists d'. split; [exact Hrun|].
  assert (Hd : d' = set_users (map (soft_delete 7) (users hiring)) hiring)
    by (vm_compute in Hrun; injection Hrun as <-; reflexivity).
  split; [rewrite Hd; reflexivity|].
  split; [rewrite Hd; reflexivity|].
  split; [apply Hrel | exact Hagain].
Defined.

(** ** The job detail view *)

Lemma job_get_object_found (m : http_method) (d : db) (j : Job.t) :
  In j (jobs d) ->
  exists obj, generic_get_object Job.id (jobs d) (Job.id j) = Ok obj
              /\ In obj (jobs d) /\ Job.id obj = Job.id j.
Proof.
  intros Hin. unfold generic_get_object.
  destruct (find (fun r => Job.id r =? Job.id j) (jobs d)) as [obj|] eqn:E.
  - exists obj. apply find_some in E as [Ho Heq]. apply Z.eqb_eq in Heq. auto.
  - exfalso. pose proof (find_none _ _ E j Hin) as Hno. cbn in Hno.
    rewrite Z.eqb_refl in Hno. discriminate.
Qed.

(** [get_object] hands a job to [GET] alone, and to it an active job. *)
Lemma job_get_object_some (m : http_method) (pk : Z) (d : db) (obj : Job.t) :
  job_get_object m pk d = Ok (Some obj) ->
  m = GET /\ Job.is_active obj = true /\ In obj (jobs d) /\ Job.id obj = pk.
Proof.
  unfold job_get_object.
  destruct (generic_get_object Job.id (jobs d) pk) as [o|e] eqn:E; cbn;
    [|discriminate].
  destruct m; cbn; try discriminate.
  destruct (Job.is_active o) eqn:Hact; [|discriminate].
  intros [= <-]. destruct (get_object_key _ _ _ _ E). auto.
Qed.

(** C10: the methods that change a job get no job.  For every job of the
    store [get_object] returns [None] to [PUT], [PATCH] and [DELETE], with
    no check of who owns the job, and the [DELETE] of any authenticated
    caller ends in the [AttributeError] of [None.delete()], the store as it
    was. *)
Theorem job_mutation_gets_no_object (account : User.t) (d : db) (j : Job.t) :
  In j (jobs d) ->
  job_get_object PUT (Job.id j) d = Ok None
  /\ job_get_object PATCH (Job.id j) d = Ok None
  /\ job_get_object DELETE (Job.id j) d = Ok None
  /\ job_delete (Some account) (Job.id j) d = (Raise AttributeError, d).
Proof.
  intros Hin.
  destruct (job_get_object_found DELETE d j Hin) as (obj & Hget & _ & _).
  repeat split; unfold job_delete, job_get_object, and_then; cbn;
    rewrite Hget; reflexivity.
Qed.

Lemma job_mutation_gets_no_object_witness :
  job_delete (Some a_provider) 1 two_jobs = (Raise AttributeError, two_jobs)
  /\ job_get_object PUT 1 two_jobs = Ok None.
Proof.
  destruct (job_mutation_gets_no_object a_provider two_jobs backend_eng)
    as (Hput & _ & _ & Hdelete).
  - right. left. reflexivity.
  - split; [exact Hdelete | exact Hput].
Defined.

(** * Further properties of the modelled code *)

(** ** The region of the second parse *)

Lemma str_find_split (c : ascii) (s : string) :
  str_find c s <> -1 ->
  exists pre rest,
    s = pre ++ String c rest /\ contains c pre = false /\ str_find c s = len pre.
Proof.
  induction s as [|a s IH]; simpl; [congruence|].
  destruct (Ascii.eqb a c) eqn:E.
  - intros _. apply Ascii.eqb_eq in E. subst.
    exists EmptyString, s. repeat split.
  - destruct (str_find c s =? -1) eqn:F; [congruence|].
    intros _. apply Z.eqb_neq in F.
    destruct (IH F) as (pre & rest & -> & Hpre & Hlen).
    exists (String a pre), rest. simpl. rewrite E, Hpre. repeat split.
    rewrite Hlen. unfold len. simpl. lia.
Qed.

Lemma str_rfind_lower (c : ascii) (s : string) : -1 <= str_rfind c s.
Proof.
  induction s as [|a rest IH]; simpl; [lia|].
  destruct (str_rfind c rest =? -1) eqn:E; [|lia].
  destruct (Ascii.eqb a c); lia.
Qed.

Lemma str_rfind_none (c : ascii) (s : string) :
  str_rfind c s = -1 -> contains c s = false.
Proof.
  induction s as [|a s IH]; simpl; [reflexivity|].
  pose proof (str_rfind_lower c s) as Hlow.
  destruct (str_rfind c s =? -1) eqn:F.
  - apply Z.eqb_eq in F. destruct (Ascii.eqb a c); [discriminate|].
    intros _. simpl. now apply IH.
  - apply Z.eqb_neq in F. lia.
Qed.

Lemma str_rfind_split (c : ascii) (s : string) :
  str_rfind c s <> -1 ->
  exists pre post,
    s = pre ++ String c post /\ contains c post = false /\ str_rfind c s = len pre.
Proof.
  induction s as [|a s IH]; simpl; [congruence|].
  destruct (str_rfind c s =? -1) eqn:F.
  - apply Z.eqb_eq in F. destruct (Ascii.eqb a c) eqn:E; [|congruence].
    intros _. apply Ascii.eqb_eq in E. subst.
    exists EmptyString, s. repeat split. now apply str_rfind_none.
  - intros _. apply Z.eqb_neq in F.
    destruct (IH F) as (pre & post & -> & Hpost & Hlen).
    exists (String a pre), post. simpl. repeat split; [exact Hpost|].
    rewrite Hlen. unfold len. simpl. lia.
Qed.

Lemma append_split (a b x y : string) :
  a ++ x = b ++ y ->
  (String.length a < String.length b)%nat ->
  exists m, b = a ++ m /\ x = m ++ y /\ m <> EmptyString.
Proof.
  revert b. induction a as [|c a IH]; intros b Heq Hlen.
  - exists b. simpl in *. split; [reflexivity|]. split; [exact Heq|].
    destruct b; [simpl in Hlen; lia | discriminate].
  - destruct b as [|c' b]; [simpl in Hlen; lia|].
    simpl in Heq. injection Heq as -> Heq.
    destruct (IH b Heq) as (m & -> & Hx & Hm); [simpl in Hlen; lia|].
    exists m. repeat split; assumption.
Qed.

(** X1. The second attempt has a text to parse exactly when the reply has
    an opening brace with a closing brace somewhere after it, and that text
    is always the reply from its first opening brace to its last closing
    brace, both included. *)
Theorem json_region_spec (raw s : string) :
  json_region raw = Some s
  <-> exists pre mid post,
        raw = pre ++ "{" ++ mid ++ "}" ++ post
        /\ contains "{" pre = false
        /\ contains "}" post = false
        /\ s = "{" ++ mid ++ "}".
Proof.
  split.
  - intros H. pose proof H as Hregion. unfold json_region in H.
    destruct (str_find "{" raw =? -1) eqn:Hs; [discriminate|].
    destruct (str_rfind "}" raw =? -1) eqn:He; [discriminate|].
    destruct (str_rfind "}" raw >? str_find "{" raw) eqn:Hgt; [|discriminate].
    clear H. apply Z.eqb_neq in Hs, He. apply Z.gtb_lt in Hgt.
    destruct (str_find_split _ _ Hs) as (pre & rest & Hraw1 & Hpre & Hfind).
    destruct (str_rfind_split _ _ He) as (pre2 & post & Hraw2 & Hpost & Hrfind).
    assert (Hlen : (String.length pre < String.length pre2)%nat)
      by (unfold len in *; lia).
    assert (Heq : pre ++ String "{" rest = pre2 ++ String "}" post)
      by congruence.
    destruct (append_split _ _ _ _ Heq Hlen) as (m & -> & Hm & Hne).
    destruct m as [|c mid]; [congruence|].
    simpl in Hm. injection Hm as <- ->.
    exists pre, mid, post.
    assert (Hshape : raw = pre ++ "{" ++ mid ++ "}" ++ post).
    { rewrite Hraw2, !append_assoc. reflexivity. }
    repeat split; try assumption.
    rewrite Hshape in Hregion.
    rewrite (json_region_braces pre mid post Hpre Hpost) in Hregion.
    congruence.
  - intros (pre & mid & post & -> & Hpre & Hpost & ->).
    now apply json_region_braces.
Qed.

Lemma json_region_spec_witness :
  json_region "ab{c}d}e" = Some "{c}d}" /\ json_region "} {" = None.
Proof.
  split.
  - apply json_region_spec. exists "ab", "c}d", "e". repeat split.
  - destruct (json_region "} {") as [s|] eqn:E; [|reflexivity]. exfalso.
    apply json_region_spec in E as (pre & mid & post & Hraw & Hpre & Hpost & _).
    destruct pre as [|c pre]; [discriminate Hraw|].
    injection Hraw as <- Hraw.
    destruct pre as [|c pre]; [discriminate Hraw|].
    injection Hraw as <- Hraw.
    destruct pre as [|c pre]; [|injection Hraw as <- Hraw; discriminate Hpre].
    injection Hraw as Hraw. destruct mid; discriminate Hraw.
Defined.

(** ** What [call_openrouter] returns *)

Section Calls.
Context {P : Platform}.

(** The reading of a response whose status is no error. *)
Lemma call_openrouter_of_body (messages : json) (timeout : Z)
    (resp : http_response) :
  requests_post OPENROUTER_API_URL headers (json_dumps (payload_of messages)) timeout
  = Ok resp ->
  raise_for_status resp = Ok tt ->
  call_openrouter messages timeout
  = (data <- response_json resp ;;
     choices <- py_get data "choices" (JArr [JObj []]) ;;
     choice <- py_item0 choices ;;
     message <- py_get choice "message" (JObj []) ;;
     content <- py_get message "content" (JStr "") ;;
     Ok (py_or content (JStr ""))).
Proof.
  intros Hpost Hstatus. unfold call_openrouter.
  rewrite Hpost. cbn [bind]. rewrite Hstatus. reflexivity.
Qed.

Lemma py_or_string (v : json) :
  py_or v (JStr "") = JStr "" \/ py_truthy (py_or v (JStr "")) = true.
Proof. unfold py_or. destruct (py_truthy v) eqn:E; auto. Qed.

End Calls.

(** X2. When [call_openrouter] returns, it returns the empty string or a
    value Python takes for true, never [None]; a body that is a JSON object
    without [choices], or whose first choice has no [message], or a message
    without [content] or with a null one, gives the empty string; an empty
    list of choices ends in [IndexError]. *)
Theorem call_openrouter_edges (P : Platform) (messages : json) (timeout : Z) :
  (forall v, call_openrouter messages timeout = Ok v ->
             v = JStr "" \/ py_truthy v = true)
  /\ (forall resp pairs,
        requests_post OPENROUTER_API_URL headers
                      (json_dumps (payload_of messages)) timeout = Ok resp ->
        raise_for_status resp = Ok tt ->
        json_loads (text resp) = Some (JObj pairs) ->
        (dict_lookup "choices" pairs = None ->
         call_openrouter messages timeout = Ok (JStr ""))
        /\ (dict_lookup "choices" pairs = Some (JArr []) ->
            call_openrouter messages timeout = Raise IndexError)
        /\ (forall choice rest,
               dict_lookup "choices" pairs = Some (JArr (JObj choice :: rest)) ->
               dict_lookup "message" choice = None ->
               call_openrouter messages timeout = Ok (JStr ""))
        /\ (forall choice rest message,
               dict_lookup "choices" pairs = Some (JArr (JObj choice :: rest)) ->
               dict_lookup "message" choice = Some (JObj message) ->
               dict_lookup "content" message = None
               \/ dict_lookup "content" message = Some JNull ->
               call_openrouter messages timeout = Ok (JStr ""))).
Proof.
  split.
  - intros v. unfold call_openrouter.
    destruct (requests_post _ _ _ _) as [resp|]; [|discriminate]. simpl bind.
    destruct (raise_for_status resp); [|discriminate]. simpl bind.
    destruct (response_json resp) as [data|]; [|discriminate]. simpl bind.
    destruct (py_get data "choices" _) as [choices|]; [|discriminate]. simpl bind.
    destruct (py_item0 choices) as [choice|]; [|discriminate]. simpl bind.
    destruct (py_get choice "message" _) as [message|]; [|discriminate]. simpl bind.
    destruct (py_get message "content" _) as [content|]; [|discriminate]. simpl bind.
    intros [= <-]. apply py_or_string.
  - intros resp pairs Hpost Hstatus Hbody.
    rewrite (call_openrouter_of_body _ _ _ Hpost Hstatus).
    unfold response_json. rewrite Hbody. simpl bind. cbn [py_get].
    repeat split.
    + intros ->. reflexivity.
    + intros ->. reflexivity.
    + intros choice rest -> Hmessage. cbn. now rewrite Hmessage.
    + intros choice rest message -> Hmessage Hcontent. cbn. rewrite Hmessage. cbn.
      destruct Hcontent as [-> | ->]; reflexivity.
Qed.

Lemma call_openrouter_edges_witness :
  let X := cpython (fun _ _ _ _ => Ok {| status_code := 200; text := "{}" |}) in
  let Y := cpython (fun _ _ _ _ =>
                      Ok {| status_code := 200;
                            text := "{" ++ quoted "choices" ++ ": []}" |}) in
  @call_openrouter X (JArr []) 30 = Ok (JStr "")
  /\ @call_openrouter Y (JArr []) 30 = Raise IndexError.
Proof.
  intros X Y. split.
  - destruct (call_openrouter_edges X (JArr []) 30) as [_ H].
    destruct (H {| status_code := 200; text := "{}" |} []
                eq_refl eq_refl eq_refl) as (Hnone & _).
    apply Hnone. reflexivity.
  - destruct (call_openrouter_edges Y (JArr []) 30) as [_ H].
    destruct (H {| status_code := 200; text := "{" ++ quoted "choices" ++ ": []}" |}
                [("choices", JArr [])] eq_refl eq_refl eq_refl)
      as (_ & Hempty & _).
    apply Hempty. reflexivity.
Defined.

(** ** When [recommend_best_job] returns *)

(** X3. Given the reply of the model, [recommend_best_job] returns a result
    exactly when the reply parses to nothing, to a value Python takes for
    false, or to an object; then [raw] is the reply unchanged.  A reply that
    parses to any other value, and a reply that is no string, end in
    [AttributeError]. *)
Theorem recommend_best_job_outcome
    (P : Platform) (resume_text : string) (jobs : list json) :
  (forall reply : string,
      call_openrouter (_build_messages resume_text jobs) 30 = Ok (JStr reply) ->
      exists v,
        parse_best_job_json (JStr reply) = Ok v
        /\ ((exists res, recommend_best_job resume_text jobs = Ok res
                         /\ raw res = JStr reply)
            <-> (py_truthy v = false \/ is_object v = true))
        /\ (py_truthy v = true -> is_object v = false ->
            recommend_best_job resume_text jobs = Raise AttributeError))
  /\ (forall reply : json,
        call_openrouter (_build_messages resume_text jobs) 30 = Ok reply ->
        (forall s, reply <> JStr s) ->
        recommend_best_job resume_text jobs = Raise AttributeError).
Proof.
  split.
  - intros reply Hcall. destruct (parse_total reply) as [v Hparse].
    exists v. split; [exact Hparse|]. split; [split|].
    + intros (res & Hres & _).
      destruct (py_truthy v) eqn:Htruthy; [|now left].
      destruct (is_object v) eqn:Hobj; [now right|].
      rewrite (recommend_not_object _ _ _ _ Hcall Hparse Htruthy Hobj) in Hres.
      discriminate.
    + intros [Hfalsy | Hobj].
      * eexists. split;
          [exact (recommend_empty _ _ _ _ Hcall Hparse Hfalsy) | reflexivity].
      * destruct v; try discriminate.
        eexists. split;
          [exact (recommend_object _ _ _ _ Hcall Hparse) | reflexivity].
    + intros Htruthy Hobj.
      exact (recommend_not_object _ _ _ _ Hcall Hparse Htruthy Hobj).
  - intros reply Hcall Hnot. rewrite (recommend_of_reply _ _ _ Hcall).
    destruct reply; try reflexivity. now destruct (Hnot s).
Qed.

Lemma recommend_best_job_outcome_witness :
  let X := cpython (answers (JStr "0")) in
  let Y := cpython (answers (JArr [JInt 1])) in
  (exists res, @recommend_best_job X "" [] = Ok res /\ raw res = JStr "0")
  /\ @recommend_best_job Y "" [] = Raise AttributeError.
Proof.
  intros X Y. split.
  - destruct (recommend_best_job_outcome X "" []) as [H _].
    destruct (H "0" eq_refl) as (v & Hparse & Hiff & _).
    apply Hiff. left.
    assert (Hv : v = JInt 0) by (vm_compute in Hparse; congruence).
    rewrite Hv. reflexivity.
  - destruct (recommend_best_job_outcome Y "" []) as [_ H].
    apply (H (JArr [JInt 1])); [reflexivity | discriminate].
Defined.

(** ** What the recommendation endpoint answers *)

(** X4. Whatever the platform does, an answer of the recommendation
    endpoint is the 404 of a store without active job, or a 200 that
    carries a job of the store with [is_active] true. *)
Theorem post_answers (P : Platform) (req : request) (d : db) (r : Response) :
  post req d = Ok r ->
  (r = no_active_jobs /\ filter Job.is_active (jobs d) = [])
  \/ (exists score reason job,
         r = recommended score reason job
         /\ In job (jobs d) /\ Job.is_active job = true).
Proof.
  intros Hpost.
  destruct (request_inputs req d) as [[resume_text limit]|e] eqn:Hin;
    [|unfold post in Hpost; rewrite Hin in Hpost; discriminate].
  destruct (active_jobs d limit) as [|first rest] eqn:Hpool.
  - left. rewrite (post_empty_pool _ _ _ _ Hin Hpool) in Hpost.
    injection Hpost as <-. split; [reflexivity|].
    now apply (active_jobs_nil d limit).
  - right. rewrite (post_pool _ _ _ _ _ _ Hin Hpool) in Hpost.
    destruct (recommend_best_job resume_text (map job_payload (first :: rest)))
      as [res|]; [|discriminate].
    simpl bind in Hpost. unfold resolve in Hpost.
    assert (Hfirst : In first (jobs d) /\ Job.is_active first = true)
      by (apply (active_jobs_In d limit); rewrite Hpool; now left).
    destruct (py_truthy (best_job_id res)).
    + destruct (pk_prep (best_job_id res)) as [pk|]; [|discriminate].
      simpl bind in Hpost.
      destruct (active_job_by_pk d pk) as [j|] eqn:Hfind;
        injection Hpost as <-; eexists _, _, _; (split; [reflexivity|]).
      * destruct (active_job_by_pk_sound _ _ _ Hfind) as (? & ? & _). auto.
      * exact Hfirst.
    + simpl bind in Hpost. injection Hpost as <-.
      eexists _, _, _. split; [reflexivity | exact Hfirst].
Qed.

Lemma post_answers_witness :
  let X := cpython (answers (JStr (reply_naming 1))) in
  exists score reason job,
    @post X (anonymous [("limit", JInt 5)]) six_jobs
    = Ok (recommended score reason job)
    /\ In job (jobs six_jobs) /\ Job.is_active job = true.
Proof.
  intros X.
  destruct (post_answers X (anonymous [("limit", JInt 5)]) six_jobs
              (recommended (JInt 80) (JStr "fit") (a_job 1 "Engineer" 1 true)))
    as [[Hno _] | (score & reason & job & Heq & Hin & Hact)].
  - vm_compute. reflexivity.
  - discriminate Hno.
  - exists score, reason, job. rewrite <- Heq.
    split; [vm_compute; reflexivity | split; assumption].
Defined.

(** ** The pool the model chooses from *)

Lemma insert_by_created_at_sorted (j : Job.t) (sorted : list Job.t) :
  StronglySorted not_older sorted ->
  StronglySorted not_older (insert_by_created_at j sorted).
Proof.
  induction 1 as [|h rest Hrest IH Hh]; simpl.
  - repeat constructor.
  - destruct (Job.created_at h <=? Job.created_at j) eqn:E.
    + apply Z.leb_le in E. constructor; [now constructor|].
      constructor; [exact E|].
      rewrite Forall_forall in *. intros x Hx. specialize (Hh x Hx).
      unfold not_older in *. lia.
    + apply Z.leb_gt in E. constructor; [exact IH|].
      rewrite Forall_forall in *. intros x Hx.
      apply insert_by_created_at_In in Hx as [-> | Hx];
        [unfold not_older; lia | now apply Hh].
Qed.

Lemma order_by_created_at_desc_sorted (rows : list Job.t) :
  StronglySorted not_older (order_by_created_at_desc rows).
Proof.
  unfold order_by_created_at_desc.
  induction rows as [|r rows IH]; simpl; [constructor|].
  now apply insert_by_created_at_sorted.
Qed.

Lemma insert_by_created_at_length (j : Job.t) (sorted : list Job.t) :
  List.length (insert_by_created_at j sorted) = S (List.length sorted).
Proof.
  induction sorted as [|h rest IH]; simpl; [reflexivity|].
  destruct (Job.created_at h <=? Job.created_at j); simpl; [reflexivity|].
  now rewrite IH.
Qed.

Lemma order_by_created_at_desc_length (rows : list Job.t) :
  List.length (order_by_created_at_desc rows) = List.length rows.
Proof.
  unfold order_by_created_at_desc.
  induction rows as [|r rows IH]; simpl; [reflexivity|].
  now rewrite insert_by_created_at_length, IH.
Qed.

Lemma sorted_app_order {A : Type} (R : A -> A -> Prop) (l1 l2 : list A) :
  StronglySorted R (l1 ++ l2) ->
  StronglySorted R l1
  /\ forall a b, In a l1 -> In b l2 -> R a b.
Proof.
  induction l1 as [|x l1 IH]; simpl; intros H.
  - split; [constructor | intros a b []].
  - apply StronglySorted_inv in H as [Hrest Hx].
    destruct (IH Hrest) as [Hsorted Hcross].
    rewrite Forall_forall in Hx. split.
    + constructor; [exact Hsorted|]. rewrite Forall_forall.
      intros y Hy. apply Hx, in_or_app. now left.
    + intros a b [<- | Ha] Hb; [apply Hx, in_or_app; now right | now apply Hcross].
Qed.

(** X5. The pool holds at most [max(5, limit)] jobs, each an active job
    of the store, the latest first; an active job that is left out is not
    newer than any job that is kept; and a store with five active jobs or
    fewer has them all in the pool, whatever the limit. *)
Theorem active_jobs_pool (d : db) (limit : Z) :
  (List.length (active_jobs d limit) <= Z.to_nat (Z.max 5 limit))%nat
  /\ (forall j, In j (active_jobs d limit) ->
                In j (jobs d) /\ Job.is_active j = true)
  /\ StronglySorted not_older (active_jobs d limit)
  /\ (forall kept j,
         In kept (active_jobs d limit) ->
         In j (jobs d) -> Job.is_active j = true ->
         ~ In j (active_jobs d limit) ->
         Job.created_at j <= Job.created_at kept)
  /\ ((List.length (filter Job.is_active (jobs d)) <= 5)%nat ->
      forall j, In j (jobs d) -> Job.is_active j = true ->
                In j (active_jobs d limit)).
Proof.
  unfold active_jobs.
  set (n := Z.to_nat (Z.max 5 limit)).
  set (all := order_by_created_at_desc (filter Job.is_active (jobs d))).
  assert (Hsorted : StronglySorted not_older (firstn n all ++ skipn n all))
    by (rewrite firstn_skipn; apply order_by_created_at_desc_sorted).
  destruct (sorted_app_order _ _ _ Hsorted) as [Hkept Hcross].
  assert (Hall : forall j, In j (jobs d) -> Job.is_active j = true -> In j all)
    by (intros j Hin Hact; apply order_by_created_at_desc_In, filter_In; auto).
  split; [apply firstn_le_length|].
  split; [apply (active_jobs_In d limit)|].
  split; [exact Hkept|].
  split.
  - intros kept j Hk Hin Hact Hout.
    specialize (Hall j Hin Hact). rewrite <- (firstn_skipn n all) in Hall.
    apply in_app_or in Hall as [Hj | Hj]; [contradiction|].
    exact (Hcross kept j Hk Hj).
  - intros Hfew j Hin Hact.
    rewrite firstn_all2; [now apply Hall|].
    unfold all. rewrite order_by_created_at_desc_length. unfold n. lia.
Qed.

Lemma active_jobs_pool_witness :
  In data_analyst (active_jobs two_jobs (-3))
  /\ Job.created_at data_analyst <= Job.created_at backend_eng.
Proof.
  destruct (active_jobs_pool two_jobs (-3)) as (_ & _ & _ & _ & Hfew).
  split; [|cbn; lia].
  apply Hfew; [cbn; lia | now left | reflexivity].
Defined.

(** ** The resume text of a recommendation *)



(** ** What an application writes *)

Lemma find_none_filter {A : Type} (f : A -> bool) (l : list A) :
  find f l = None -> filter f l = [].
Proof.
  induction l as [|a l IH]; simpl; [reflexivity|].
  destruct (f a); [discriminate | exact IH].
Qed.

(** X7. Whatever its outcome, [perform_create] of an application leaves
    the users, employers, jobs, interviews, appointments and payments as
    they were; it adds one seeker profile at most, for a caller that had
    none; a caller that is anonymous or no seeker is refused before
    anything is written; and a store in which no user has two seeker
    profiles stays so. *)
Theorem application_perform_create_frame
    (u : request_user) (vd : application_data) (now : datetime)
    (d d' : db) (outcome : result unit) :
  application_perform_create u vd now d = (outcome, d') ->
  same_besides_applying d d'
  /\ (seekers d' = seekers d
      \/ exists account row,
           u = Some account
           /\ seeker_profile d u = None
           /\ seekers d' = (seekers d ++ [row])%list
           /\ JobSeeker.user row = User.id account
           /\ JobSeeker.id row = next_id JobSeeker.id (seekers d))
  /\ (is_authenticated u = false \/ is_role u "seeker" = false ->
      outcome = Raise seekers_only /\ d' = d)
  /\ ((forall uid, (List.length (profiles_of d uid) <= 1)%nat) ->
      forall uid, (List.length (profiles_of d' uid) <= 1)%nat).
Proof.
  intros Hrun.
  assert (Hshape :
    same_besides_applying d d'
    /\ (seekers d' = seekers d
        \/ exists account row,
             u = Some account
             /\ seeker_profile d u = None
             /\ seekers d' = (seekers d ++ [row])%list
             /\ JobSeeker.user row = User.id account
             /\ JobSeeker.id row = next_id JobSeeker.id (seekers d))
    /\ (is_authenticated u = false \/ is_role u "seeker" = false ->
        outcome = Raise seekers_only /\ d' = d)).
  { revert Hrun. unfold application_perform_create.
    destruct (negb (is_authenticated u) || negb (is_role u "seeker")) eqn:Hguard.
    { intros [= <- <-]. repeat split. now left. }
    apply orb_false_iff in Hguard as [Hauth Hrole].
    apply negb_false_iff in Hauth, Hrole.
    assert (Hok : forall (o : result unit) (x : db),
               is_authenticated u = false \/ is_role u "seeker" = false ->
               o = Raise seekers_only /\ x = d)
      by (intros o x [H | H]; congruence).
    destruct u as [account|]; [|discriminate].
    unfold and_then, query.
    destruct (seeker_profile d (Some account)) as [s|] eqn:Hprofile.
    - unfold ret.
      assert (Hdone : forall o,
                 same_besides_applying d d
                 /\ (seekers d = seekers d
                     \/ exists account0 row,
                          Some account = Some account0
                          /\ Some s = None
                          /\ seekers d = (seekers d ++ [row])%list
                          /\ JobSeeker.user row = User.id account0
                          /\ JobSeeker.id row = next_id JobSeeker.id (seekers d))
                 /\ (is_authenticated (Some account) = false
                     \/ is_role (Some account) "seeker" = false ->
                     o = Raise seekers_only /\ d = d))
        by (intros o; split; [repeat split | split; [now left | apply Hok]]).
      destruct (vd_job vd) as [job|]; [|intros [= <- <-]; apply Hdone].
      destruct (negb (Job.is_active job)); [intros [= <- <-]; apply Hdone|].
      cbv beta iota.
      destruct (application_exists job s d); intros [= <- <-];
        [apply Hdone|].
      split; [repeat split | split; [now left | apply Hok]].
    - cbn [create_seeker].
      set (row := {| JobSeeker.id := next_id JobSeeker.id (seekers d);
                     JobSeeker.user := User.id account;
                     JobSeeker.resume_url := "";
                     JobSeeker.resume_text := "";
                     JobSeeker.created_at := now |}).
      assert (Hadded : exists account0 row0,
                 Some account = Some account0
                 /\ None = (None : option JobSeeker.t)
                 /\ (seekers d ++ [row])%list = (seekers d ++ [row0])%list
                 /\ JobSeeker.user row0 = User.id account0
                 /\ JobSeeker.id row0 = next_id JobSeeker.id (seekers d))
        by (exists account, row; repeat split).
      destruct (vd_job vd) as [job|];
        [|intros [= <- <-]; split; [repeat split | split; [now right | apply Hok]]].
      destruct (negb (Job.is_active job));
        [intros [= <- <-]; split; [repeat split | split; [now right | apply Hok]]|].
      cbv beta iota.
      match goal with
      | |- context [application_exists job row ?d1] =>
          destruct (application_exists job row d1)
      end; intros [= <- <-];
        (split; [repeat split | split; [now right | apply Hok]]). }
  destruct Hshape as (Hsame & Hseekers & Hrefused).
  split; [exact Hsame|]. split; [exact Hseekers|]. split; [exact Hrefused|].
  intros Hone uid. unfold profiles_of in *.
  destruct Hseekers as [-> | (account & row & -> & Hnone & -> & Huser & _)];
    [apply Hone|].
  rewrite filter_app, length_app. cbn [filter].
  destruct (JobSeeker.user row =? uid) eqn:E; cbn.
  - apply Z.eqb_eq in E. subst uid. rewrite Huser.
    unfold seeker_profile in Hnone. rewrite (find_none_filter _ _ Hnone). cbn. lia.
  - specialize (Hone uid). lia.
Qed.

Lemma application_perform_create_frame_witness :
  let vd := {| vd_job := Some backend_eng; vd_status := None |} in
  application_perform_create (Some a_provider) vd 30 hiring
  = (Raise seekers_only, hiring).
Proof.
  intros vd.
  destruct (application_perform_create_frame (Some a_provider) vd 30 hiring
              (snd (application_perform_create (Some a_provider) vd 30 hiring))
              (fst (application_perform_create (Some a_provider) vd 30 hiring)))
    as (_ & _ & Hrefused & _).
  - now destruct (application_perform_create (Some a_provider) vd 30 hiring).
  - destruct (Hrefused (or_intror eq_refl)) as [Hout Hd].
    rewrite (surjective_pairing
               (application_perform_create (Some a_provider) vd 30 hiring)).
    now rewrite Hout, Hd.
Defined.

(** ** Who creates an interview *)

Lemma is_role_account (u : request_user) (r : string) :
  is_role u r = true -> exists account, u = Some account /\ User.role account = r.
Proof.
  unfold is_role, role_of. destruct u as [account|]; [|discriminate].
  intros H. apply String.eqb_eq in H. eauto.
Qed.

(** X8. An interview is created only for a provider whose employer
    profile owns the job of the application the request names, and then
    one interview with the fields of the request is added; a creation that
    ends in an exception other than [MultipleObjectsReturned] has written
    nothing; and no outcome touches the users, employers, seekers, jobs,
    applications or payments. *)
Theorem interview_perform_create_guard
    (P : Platform) (u : request_user) (request_data : json) (vd : interview_data)
    (now : datetime) (d d' : db) (outcome : result unit) :
  interview_perform_create u request_data vd now d = (outcome, d') ->
  (outcome = Ok tt ->
   exists account profile v pk app job emp interview,
     u = Some account
     /\ User.role account = "provider"
     /\ employer_profile d u = Some profile
     /\ py_get request_data "application" JNull = Ok v
     /\ pk_prep v = Ok pk
     /\ get_application d pk = Ok (app, job, emp)
     /\ Job.employer job = Employer.id profile
     /\ interviews d' = (interviews d ++ [interview])%list
     /\ records interview app vd)
  /\ (forall e, outcome = Raise e -> e <> MultipleObjectsReturned -> d' = d)
  /\ same_besides_interviewing d d'.
Proof.
  unfold interview_perform_create, and_then, query, lift.
  assert (Hquiet : forall e : exn,
             (Raise e = Ok tt -> exists account profile v pk app job emp interview,
                 u = Some account
                 /\ User.role account = "provider"
                 /\ employer_profile d u = Some profile
                 /\ py_get request_data "application" JNull = Ok v
                 /\ pk_prep v = Ok pk
                 /\ get_application d pk = Ok (app, job, emp)
                 /\ Job.employer job = Employer.id profile
                 /\ interviews d = (interviews d ++ [interview])%list
                 /\ records interview app vd)
             /\ (forall e0, Raise e = Raise e0 :> result unit ->
                            e0 <> MultipleObjectsReturned -> d = d)
             /\ same_besides_interviewing d d)
    by (intros e; split; [discriminate | split; [reflexivity | repeat split]]).
  destruct (negb (is_authenticated u) || negb (is_role u "provider")
            || match employer_profile d u with Some _ => false | None => true end)
    eqn:Hguard.
  { intros [= <- <-]. apply Hquiet. }
  apply orb_false_iff in Hguard as [Hguard Howner].
  apply orb_false_iff in Hguard as [_ Hrole]. apply negb_false_iff in Hrole.
  destruct (is_role_account _ _ Hrole) as (account & -> & Haccount).
  destruct (employer_profile d (Some account)) as [profile|] eqn:Hprofile;
    [|discriminate].
  destruct (py_get request_data "application" JNull) as [v|e] eqn:Hget;
    [|intros [= <- <-]; apply Hquiet].
  destruct (pk_prep v) as [pk|e] eqn:Hprep; [|intros [= <- <-]; apply Hquiet].
  destruct (get_application d pk) as [[[app job] emp]|e] eqn:Happ;
    [|destruct e; intros [= <- <-]; apply Hquiet].
  destruct (negb (Job.employer job =? Employer.id profile)) eqn:Hown;
    [intros [= <- <-]; apply Hquiet|].
  apply negb_false_iff, Z.eqb_eq in Hown.
  cbn [save_interview]. unfold update_or_create_appointment.
  set (interview := {| Interview.id := next_id Interview.id (interviews d);
                       Interview.application := Application.id app;
                       Interview.title := vd_title vd;
                       Interview.date := vd_date vd;
                       Interview.time := vd_time vd;
                       Interview.created_at := now |}).
  set (d1 := set_interviews (interviews d ++ [interview]) d).
  destruct (filter (for_application app) (appointments d1)) as [|found [|second more]];
    intros [= <- <-].
  - split; [|split; [discriminate | repeat split]].
    intros _. exists account, profile, v, pk, app, job, emp, interview.
    repeat split; assumption.
  - split; [|split; [discriminate | repeat split]].
    intros _. exists account, profile, v, pk, app, job, emp, interview.
    repeat split; assumption.
  - split; [discriminate|]. split; [|repeat split].
    intros e [= <-] Hne. now destruct Hne.
Qed.

Lemma interview_perform_create_guard_witness :
  let X := cpython (fails Timeout) in
  let body := JObj [("application", JInt 5)] in
  snd (@interview_perform_create X (Some a_seeker) body intro_call 40 hiring)
  = hiring.
Proof.
  intros X body.
  set (run := @interview_perform_create X (Some a_seeker) body intro_call 40 hiring).
  destruct (interview_perform_create_guard X (Some a_seeker) body intro_call 40
              hiring (snd run) (fst run)) as (_ & Hsame & _).
  - apply surjective_pairing.
  - apply (Hsame (PermissionDenied "Only providers can schedule interviews."));
      [reflexivity | discriminate].
Defined.

(** ** What the delete of a user never does *)

Lemma users_kept (rows : list User.t) :
  Forall2 (fun old new =>
             same_but_is_active old new
             /\ (User.is_active new = true -> User.is_active old = true))
          rows rows.
Proof.
  induction rows as [|r rows IH]; constructor; [|exact IH].
  split; [repeat split | auto].
Qed.

(** X9. Whatever its outcome, the delete of a user keeps every row of the
    user table with all its columns but [is_active], never turns an
    inactive user active, and leaves the other tables as they were; a caller
    that is not staff is refused and a key that no user has gets a 404, the
    store unchanged in both cases. *)
Theorem admin_user_delete_never
    (u : request_user) (pk : Z) (d d' : db) (outcome : result Response) :
  admin_user_delete u pk d = (outcome, d') ->
  Forall2 (fun old new =>
             same_but_is_active old new
             /\ (User.is_active new = true -> User.is_active old = true))
          (users d) (users d')
  /\ same_relations d d'
  /\ (is_admin_user u = false ->
      d' = d
      /\ (outcome = Raise NotAuthenticated
          \/ exists detail, outcome = Raise (PermissionDenied detail)))
  /\ (is_admin_user u = true ->
      (forall r, In r (users d) -> User.id r <> pk) ->
      d' = d /\ outcome = Raise Http404).
Proof.
  unfold admin_user_delete.
  destruct (is_admin_user u) eqn:Hadmin.
  - destruct (generic_get_object User.id (users d) pk) as [target|e] eqn:Hget.
    + rewrite (admin_user_destroy_run pk d target Hget). intros [= <- <-].
      split; [|split; [repeat split | split; [discriminate|]]].
      * cbn [users set_users]. clear Hget.
        induction (users d) as [|r rows IH]; cbn; constructor; [|exact IH].
        unfold soft_delete. destruct (User.id r =? pk).
        -- split; [apply deactivate_same | discriminate].
        -- split; [repeat split | auto].
      * intros _ Hnone. exfalso.
        destruct (get_object_key _ _ _ _ Hget) as [Hin Hid].
        exact (Hnone target Hin Hid).
    + unfold admin_user_destroy, and_then. rewrite Hget. intros [= <- <-].
      split; [apply users_kept|]. split; [repeat split|].
      split; [discriminate|]. intros _ _. split; [reflexivity|].
      unfold generic_get_object in Hget.
      destruct (find _ _); [discriminate | congruence].
  - unfold permission_denied, raise.
    destruct u as [account|]; intros [= <- <-];
      (split; [apply users_kept|]; split; [repeat split|];
       split; [|discriminate]; intros _; split; [reflexivity|]);
      [right; eauto | now left].
Qed.

Lemma admin_user_delete_never_witness :
  admin_user_delete (Some a_provider) 7 hiring
  = (Raise (PermissionDenied "You do not have permission to perform this action."),
     hiring)
  /\ admin_user_delete (Some an_admin) 77 hiring = (Raise Http404, hiring).
Proof.
  split.
  - set (run := admin_user_delete (Some a_provider) 7 hiring).
    destruct (admin_user_delete_never (Some a_provider) 7 hiring (snd run) (fst run))
      as (_ & _ & Hrefused & _); [apply surjective_pairing|].
    destruct (Hrefused eq_refl) as [Hd _].
    rewrite (surjective_pairing run), Hd. reflexivity.
  - set (run := admin_user_delete (Some an_admin) 77 hiring).
    destruct (admin_user_delete_never (Some an_admin) 77 hiring (snd run) (fst run))
      as (_ & _ & _ & Hmissing); [apply surjective_pairing|].
    destruct (Hmissing eq_refl) as [Hd Hout].
    + intros r Hr Heq. cbn in Hr.
      repeat (destruct Hr as [<- | Hr]; [discriminate Heq|]). exact Hr.
    + rewrite (surjective_pairing run), Hd, Hout. reflexivity.
Defined.

(** ** What the job detail view hands out *)

(** X10. [get_object] of the job detail view returns a job exactly to a
    [GET] whose key is that of an active job; to a [GET] for an inactive
    job, and to every other method, it returns [None] when the key exists;
    a key that no job has is a 404 for every method. *)
Theorem job_get_object_spec (m : http_method) (pk : Z) (d : db) :
  (forall obj,
      job_get_object m pk d = Ok (Some obj)
      <-> m = GET
          /\ generic_get_object Job.id (jobs d) pk = Ok obj
          /\ Job.is_active obj = true)
  /\ (forall obj,
        generic_get_object Job.id (jobs d) pk = Ok obj ->
        m <> GET \/ Job.is_active obj = false ->
        job_get_object m pk d = Ok None)
  /\ ((forall j, In j (jobs d) -> Job.id j <> pk) ->
      job_get_object m pk d = Raise Http404).
Proof.
  unfold job_get_object. split; [|split].
  - intros obj. split.
    + destruct (generic_get_object Job.id (jobs d) pk) as [o|e]; cbn;
        [|discriminate].
      destruct m; cbn; try discriminate.
      destruct (Job.is_active o) eqn:Hact; [|discriminate].
      intros [= <-]. auto.
    + intros (-> & -> & Hact). cbn. now rewrite Hact.
  - intros obj -> [Hm | Hact]; cbn.
    + destruct m; try reflexivity. now destruct Hm.
    + rewrite Hact. now destruct m.
  - intros Hnone. unfold generic_get_object.
    destruct (find (fun r => Job.id r =? pk) (jobs d)) as [r|] eqn:E;
      [|reflexivity].
    apply find_some in E as [Hin Heq]. apply Z.eqb_eq in Heq.
    now destruct (Hnone r Hin).
Qed.

Lemma job_get_object_spec_witness :
  let closed := set_jobs [a_job 4 "Clerk" 5 false] empty_db in
  job_get_object GET 1 two_jobs = Ok (Some backend_eng)
  /\ job_get_object GET 4 closed = Ok None
  /\ job_get_object GET 9 two_jobs = Raise Http404.
Proof.
  intros closed. split; [|split].
  - destruct (job_get_object_spec GET 1 two_jobs) as (Hsome & _).
    apply Hsome. repeat split.
  - destruct (job_get_object_spec GET 4 closed) as (_ & Hnone & _).
    apply (Hnone (a_job 4 "Clerk" 5 false)); [reflexivity | now right].
  - destruct (job_get_object_spec GET 9 two_jobs) as (_ & _ & Hmissing).
    apply Hmissing. intros j Hj Heq. cbn in Hj.
    repeat (destruct Hj as [<- | Hj]; [discriminate Heq|]). exact Hj.
Defined.

(** ** The seeker profile of the caller *)

Lemma seeker_profile_owner (d : db) (account : User.t) (s : JobSeeker.t) :
  seeker_profile d (Some account) = Some s -> JobSeeker.user s = User.id account.
Proof.
  intros H. apply find_some in H as [_ H]. now apply Z.eqb_eq in H.
Qed.

(** X11. [SeekerProfileView.get_object] refuses an anonymous caller and,
    for an account, returns a seeker profile of that account: the one it
    has, the store unchanged, or a new one added to the seekers when it has
    none.  A second call returns the same profile and writes nothing, and a
    store in which no user has two seeker profiles stays so. *)
Theorem seeker_profile_get_object_spec (u : request_user) (now : datetime) (d : db) :
  (is_authenticated u = false ->
   seeker_profile_get_object u now d
   = (Raise (PermissionDenied "Authentication required."), d))
  /\ (forall account,
        u = Some account ->
        exists s d',
          seeker_profile_get_object u now d = (Ok s, d')
          /\ JobSeeker.user s = User.id account
          /\ seeker_profile d' u = Some s
          /\ ((seeker_profile d u = Some s /\ d' = d)
              \/ (seeker_profile d u = None
                  /\ d' = set_seekers (seekers d ++ [s]) d))
          /\ (forall now', seeker_profile_get_object u now' d' = (Ok s, d'))
          /\ ((forall uid, (List.length (profiles_of d uid) <= 1)%nat) ->
              forall uid, (List.length (profiles_of d' uid) <= 1)%nat)).
Proof.
  split.
  - intros Hanon. unfold seeker_profile_get_object. now rewrite Hanon.
  - intros account ->. unfold seeker_profile_get_object, and_then, query.
    cbn [is_authenticated negb].
    destruct (seeker_profile d (Some account)) as [s|] eqn:Hprofile.
    + exists s, d. unfold ret.
      split; [reflexivity|].
      split; [exact (seeker_profile_owner _ _ _ Hprofile)|].
      split; [exact Hprofile|]. split; [now left|].
      split; [|auto]. intros now'. now rewrite Hprofile.
    + cbn [create_seeker].
      set (row := {| JobSeeker.id := next_id JobSeeker.id (seekers d);
                     JobSeeker.user := User.id account;
                     JobSeeker.resume_url := "";
                     JobSeeker.resume_text := "";
                     JobSeeker.created_at := now |}).
      assert (Hafter : seeker_profile (set_seekers (seekers d ++ [row]) d)
                                      (Some account) = Some row).
      { unfold seeker_profile in *. cbn. rewrite find_snoc, Hprofile. cbn.
        now rewrite Z.eqb_refl. }
      exists row, (set_seekers (seekers d ++ [row]) d).
      split; [reflexivity|]. split; [reflexivity|]. split; [exact Hafter|].
      split; [now right|]. split.
      * intros now'. now rewrite Hafter.
      * intros Hone uid. unfold profiles_of in *. cbn.
        rewrite filter_app, length_app. cbn.
        destruct (User.id account =? uid) eqn:E; cbn.
        -- apply Z.eqb_eq in E. subst uid. unfold seeker_profile in Hprofile.
           rewrite (find_none_filter _ _ Hprofile). cbn. lia.
        -- specialize (Hone uid). lia.
Qed.

Lemma seeker_profile_get_object_spec_witness :
  exists s d',
    seeker_profile_get_object (Some a_provider) 50 hiring = (Ok s, d')
    /\ JobSeeker.user s = 8
    /\ seeker_profile_get_object (Some a_provider) 51 d' = (Ok s, d').
Proof.
  destruct (seeker_profile_get_object_spec (Some a_provider) 50 hiring) as [_ H].
  destruct (H a_provider eq_refl) as (s & d' & Hrun & Huser & _ & _ & Hagain & _).
  exists s, d'. repeat split; [exact Hrun | exact Huser | apply Hagain].
Defined.

(** ** Who reads an application or an interview *)

Lemma generic_get_object_cases {A : Type} (pk_of : A -> Z) (rows : list A) (pk : Z) :
  (exists r, generic_get_object pk_of rows pk = Ok r /\ In r rows /\ pk_of r = pk)
  \/ (generic_get_object pk_of rows pk = Raise Http404
      /\ forall r, In r rows -> pk_of r <> pk).
Proof.
  unfold generic_get_object.
  destruct (find (fun r => pk_of r =? pk) rows) as [r|] eqn:E.
  - left. exists r. apply find_some in E as [Hin Heq].
    apply Z.eqb_eq in Heq. auto.
  - right. split; [reflexivity|]. intros r Hin Heq.
    pose proof (find_none _ _ E r Hin) as Hno. cbn in Hno.
    apply Z.eqb_neq in Hno. contradiction.
Qed.

Lemma applications_joined_job (d : db) (a : Application.t) :
  In a (applications_joined d) ->
  In a (applications d) /\ exists j, job_of d a = Some j.
Proof.
  unfold applications_joined. intros H. apply filter_In in H as [Hin Hjoin].
  split; [exact Hin|]. destruct (job_of d a) as [j|]; [eauto | discriminate].
Qed.

(** X12. [ApplicationRetrieveUpdateView.get_object] returns an application
    exactly to a provider whose employer profile owns the job of the
    application; every other caller gets "Not allowed." for a key that
    exists, and every caller a 404 for a key that does not. *)
Theorem application_get_object_owner (u : request_user) (pk : Z) (d : db) :
  (forall obj,
      application_get_object u pk d = Ok obj
      <-> exists account profile job,
            u = Some account
            /\ User.role account = "provider"
            /\ employer_profile d u = Some profile
            /\ generic_get_object Application.id (applications_joined d) pk = Ok obj
            /\ job_of d obj = Some job
            /\ Job.employer job = Employer.id profile)
  /\ (forall e, application_get_object u pk d = Raise e ->
                e = Http404 \/ e = not_allowed)
  /\ ((forall a, In a (applications d) -> Application.id a <> pk) ->
      application_get_object u pk d = Raise Http404).
Proof.
  unfold application_get_object.
  destruct (generic_get_object_cases Application.id (applications_joined d) pk)
    as [(obj & Hget & Hin & Hid) | [Hget Hnone]]; rewrite Hget; cbn [bind].
  - destruct (applications_joined_job d obj Hin) as [Hrow [job Hjob]].
    rewrite Hjob.
    destruct (negb (is_authenticated u) || negb (is_role u "provider")
              || negb (is_some (employer_profile d u))) eqn:Hguard.
    + split; [|split].
      * intros obj'. split; [discriminate|].
        intros (account & profile & job' & -> & Hrole & Hprofile & _).
        exfalso. revert Hguard. unfold is_role.
        cbn [role_of is_authenticated negb orb].
        rewrite Hrole, String.eqb_refl, Hprofile. discriminate.
      * intros e [= <-]. now right.
      * intros Hmissing. now destruct (Hmissing obj Hrow).
    + apply orb_false_iff in Hguard as [Hguard Howner].
      apply orb_false_iff in Hguard as [_ Hrole]. apply negb_false_iff in Hrole.
      destruct (is_role_account _ _ Hrole) as (account & -> & Haccount).
      destruct (employer_profile d (Some account)) as [profile|] eqn:Hprofile;
        [|discriminate].
      destruct (Job.employer job =? Employer.id profile) eqn:Hown; cbn [negb].
      * apply Z.eqb_eq in Hown. split; [|split].
        -- intros obj'. split.
           ++ intros [= <-]. exists account, profile, job. repeat split; assumption.
           ++ intros (_ & _ & _ & _ & _ & _ & [= <-] & _). reflexivity.
        -- discriminate.
        -- intros Hmissing. now destruct (Hmissing obj Hrow).
      * apply Z.eqb_neq in Hown. split; [|split].
        -- intros obj'. split; [discriminate|].
           intros (a' & p' & j' & [= <-] & _ & [= <-] & [= <-] & Hj & Heq).
           rewrite Hjob in Hj. injection Hj as <-. contradiction.
        -- intros e [= <-]. now right.
        -- intros Hmissing. now destruct (Hmissing obj Hrow).
  - split; [|split].
    + intros obj. split; [discriminate|].
      intros (_ & _ & _ & _ & _ & _ & Hok & _). discriminate.
    + intros e [= <-]. now left.
    + reflexivity.
Qed.

Lemma application_get_object_owner_witness :
  application_get_object (Some a_provider) 5 market = Ok an_application
  /\ application_get_object (Some a_rival) 5 market = Raise not_allowed
  /\ application_get_object None 6 market = Raise Http404.
Proof.
  split; [|split].
  - destruct (application_get_object_owner (Some a_provider) 5 market) as [H _].
    apply H. exists a_provider, an_employer, backend_eng. repeat split.
  - destruct (application_get_object_owner (Some a_rival) 5 market) as (_ & H & _).
    destruct (H not_allowed eq_refl) as [Habs | _]; [discriminate Habs | reflexivity].
  - destruct (application_get_object_owner None 6 market) as (_ & _ & H).
    apply H. intros a [<- | []]. discriminate.
Defined.

Lemma interviews_joined_job (d : db) (i : Interview.t) :
  In i (interviews_joined d) ->
  In i (interviews d)
  /\ exists app job, application_of d i = Some app /\ job_of d app = Some job.
Proof.
  unfold interviews_joined. intros H. apply filter_In in H as [Hin Hjoin].
  split; [exact Hin|].
  destruct (application_of d i) as [app|]; [|discriminate].
  destruct (job_of d app) as [job|] eqn:Hjob; [|discriminate].
  exists app, job. split; [reflexivity | exact Hjob].
Qed.

(** X13. [InterviewRetrieveDestroyView.get_object] returns an interview
    exactly to a provider whose employer profile owns the job behind the
    interview's application; every other caller gets "Not allowed." for a
    key that exists, and every caller a 404 for a key that does not. *)
Theorem interview_get_object_owner (u : request_user) (pk : Z) (d : db) :
  (forall obj,
      interview_get_object u pk d = Ok obj
      <-> exists account profile app job,
            u = Some account
            /\ User.role account = "provider"
            /\ employer_profile d u = Some profile
            /\ generic_get_object Interview.id (interviews_joined d) pk = Ok obj
            /\ application_of d obj = Some app
            /\ job_of d app = Some job
            /\ Job.employer job = Employer.id profile)
  /\ (forall e, interview_get_object u pk d = Raise e ->
                e = Http404 \/ e = not_allowed)
  /\ ((forall i, In i (interviews d) -> Interview.id i <> pk) ->
      interview_get_object u pk d = Raise Http404).
Proof.
  unfold interview_get_object.
  destruct (generic_get_object_cases Interview.id (interviews_joined d) pk)
    as [(obj & Hget & Hin & Hid) | [Hget Hnone]]; rewrite Hget; cbn [bind].
  - destruct (interviews_joined_job d obj Hin) as [Hrow (app & job & Happ & Hjob)].
    rewrite Happ.
    destruct (negb (is_authenticated u) || negb (is_role u "provider")
              || negb (is_some (employer_profile d u))) eqn:Hguard.
    + split; [|split].
      * intros obj'. split; [discriminate|].
        intros (account & profile & app' & job' & -> & Hrole & Hprofile & _).
        exfalso. revert Hguard. unfold is_role.
        cbn [role_of is_authenticated negb orb].
        rewrite Hrole, String.eqb_refl, Hprofile. discriminate.
      * intros e [= <-]. now right.
      * intros Hmissing. now destruct (Hmissing obj Hrow).
    + apply orb_false_iff in Hguard as [Hguard Howner].
      apply orb_false_iff in Hguard as [_ Hrole]. apply negb_false_iff in Hrole.
      destruct (is_role_account _ _ Hrole) as (account & -> & Haccount).
      destruct (employer_profile d (Some account)) as [profile|] eqn:Hprofile;
        [|discriminate].
      rewrite Hjob.
      destruct (Job.employer job =? Employer.id profile) eqn:Hown; cbn [negb].
      * apply Z.eqb_eq in Hown. split; [|split].
        -- intros obj'. split.
           ++ intros [= <-]. exists account, profile, app, job.
              repeat split; assumption.
           ++ intros (_ & _ & _ & _ & _ & _ & _ & [= <-] & _). reflexivity.
        -- discriminate.
        -- intros Hmissing. now destruct (Hmissing obj Hrow).
      * apply Z.eqb_neq in Hown. split; [|split].
        -- intros obj'. split; [discriminate|].
           intros (a' & p' & app' & j' & [= <-] & _ & [= <-] & [= <-] & Ha & Hj & Heq).
           rewrite Happ in Ha. injection Ha as <-.
           rewrite Hjob in Hj. injection Hj as <-. contradiction.
        -- intros e [= <-]. now right.
        -- intros Hmissing. now destruct (Hmissing obj Hrow).
  - split; [|split].
    + intros obj. split; [discriminate|].
      intros (_ & _ & _ & _ & _ & _ & _ & Hok & _). discriminate.
    + intros e [= <-]. now left.
    + reflexivity.
Qed.

Lemma interview_get_object_owner_witness :
  interview_get_object (Some a_provider) 1 market = Ok an_interview
  /\ interview_get_object (Some a_rival) 1 market = Raise not_allowed
  /\ interview_get_object (Some a_rival) 2 market = Raise Http404.
Proof.
  split; [|split].
  - destruct (interview_get_object_owner (Some a_provider) 1 market) as [H _].
    apply H. exists a_provider, an_employer, an_application, backend_eng.
    repeat split.
  - destruct (interview_get_object_owner (Some a_rival) 1 market) as (_ & H & _).
    destruct (H not_allowed eq_refl) as [Habs | _]; [discriminate Habs | reflexivity].
  - destruct (interview_get_object_owner (Some a_rival) 2 market) as (_ & _ & H).
    apply H. intros i [<- | []]. discriminate.
Defined.

(** ** Who posts a job *)

(** X14. [JobListCreateView.perform_create] either refuses with "Only
    providers can post jobs." and writes nothing, when the caller is
    anonymous, no provider or without employer profile, or adds exactly one
    job under a key no job has, owned by the caller's employer profile and
    active unless the request says otherwise. *)
Theorem job_perform_create_spec
    (u : request_user) (vd : job_data) (now : datetime) (d d' : db)
    (outcome : result unit) :
  job_perform_create u vd now d = (outcome, d') ->
  (outcome = Raise providers_only
   /\ d' = d
   /\ (is_authenticated u = false \/ is_role u "provider" = false
       \/ employer_profile d u = None))
  \/ (exists account profile row,
        outcome = Ok tt
        /\ u = Some account
        /\ User.role account = "provider"
        /\ employer_profile d u = Some profile
        /\ d' = set_jobs (jobs d ++ [row]) d
        /\ Job.employer row = Employer.id profile
        /\ (forall j, In j (jobs d) -> Job.id j <> Job.id row)
        /\ Job.title row = jd_title vd
        /\ Job.description row = jd_description vd
        /\ Job.is_active row
           = match jd_is_active vd with Some b => b | None => true end).
Proof.
  unfold job_perform_create, and_then, query.
  destruct (negb (is_authenticated u) || negb (is_role u "provider")
            || negb (is_some (employer_profile d u))) eqn:Hguard.
  - intros [= <- <-]. left. repeat split.
    apply orb_true_iff in Hguard as [Hguard | Howner].
    + apply orb_true_iff in Hguard as [Hauth | Hrole].
      * left. now apply negb_true_iff.
      * right. left. now apply negb_true_iff.
    + right. right. now destruct (employer_profile d u).
  - apply orb_false_iff in Hguard as [Hguard Howner].
    apply orb_false_iff in Hguard as [_ Hrole]. apply negb_false_iff in Hrole.
    destruct (is_role_account _ _ Hrole) as (account & -> & Haccount).
    destruct (employer_profile d (Some account)) as [profile|] eqn:Hprofile;
      [|discriminate].
    cbn [save_job]. intros [= <- <-]. right.
    eexists account, profile, _. repeat split; try assumption.
    intros j Hin Heq. cbn in Heq.
    pose proof (next_id_above Job.id (jobs d) j Hin). lia.
Qed.

Lemma job_perform_create_spec_witness :
  let vd := {| jd_title := "Clerk"; jd_description := "Files";
               jd_requirement := None; jd_salary := None;
               jd_location := None; jd_is_active := None |} in
  job_perform_create (Some a_seeker) vd 60 hiring = (Raise providers_only, hiring)
  /\ exists row,
       job_perform_create (Some a_provider) vd 60 hiring
       = (Ok tt, set_jobs (jobs hiring ++ [row]) hiring)
       /\ Job.employer row = 1 /\ Job.is_active row = true.
Proof.
  intros vd. split.
  - set (run := job_perform_create (Some a_seeker) vd 60 hiring).
    destruct (job_perform_create_spec (Some a_seeker) vd 60 hiring (snd run) (fst run))
      as [(Hout & Hd & _) | (account & profile & row & _ & Hu & Hrole & _)];
      [apply surjective_pairing | | injection Hu as <-; discriminate Hrole].
    rewrite (surjective_pairing run), Hout, Hd. reflexivity.
  - set (run := job_perform_create (Some a_provider) vd 60 hiring).
    destruct (job_perform_create_spec (Some a_provider) vd 60 hiring (snd run) (fst run))
      as [(_ & _ & [Habs | [Habs | Habs]])
         | (account & profile & row & Hout & _ & _ & Hprofile & Hd & Hown & _ & _ & _
            & Hact)];
      [apply surjective_pairing | discriminate Habs.. |].
    exists row. rewrite (surjective_pairing run), Hout, Hd.
    injection Hprofile as <-. repeat split; assumption.
Defined.

(** ** Which jobs a list shows *)

Lemma sorted_filter {A : Type} (R : A -> A -> Prop) (f : A -> bool) (l : list A) :
  StronglySorted R l -> StronglySorted R (filter f l).
Proof.
  induction 1 as [|x l Hl IH Hx]; simpl; [constructor|].
  destruct (f x); [|exact IH].
  constructor; [exact IH|]. rewrite Forall_forall in *.
  intros y Hy. apply filter_In in Hy as [Hy _]. now apply Hx.
Qed.

Lemma given_some (s : string) : given (Some s) = true <-> s <> "".
Proof.
  unfold given. rewrite negb_true_iff. apply String.eqb_neq.
Qed.

Section JobList.
Context {T : Text}.

(** The text filter of the job list. *)
Lemma job_text_filter (qs : list Job.t) (q : option string) (j : Job.t) :
  In j match q with
       | Some needle =>
           if given q
           then filter (fun j => icontains (Job.title j) needle
                                 || icontains (Job.description j) needle
                                 || icontains (Job.requirement j) needle) qs
           else qs
       | None => qs
       end
  <-> In j qs
      /\ (forall needle, q = Some needle -> needle <> "" ->
            icontains (Job.title j) needle
            || icontains (Job.description j) needle
            || icontains (Job.requirement j) needle = true).
Proof.
  destruct q as [needle|]; [|split; [intros H; split; [exact H | discriminate] | tauto]].
  destruct (given (Some needle)) eqn:G.
  - rewrite filter_In. apply given_some in G. split.
    + intros [Hin Hf]. split; [exact Hin|]. now intros n [= <-] _.
    + intros [Hin Hf]. split; [exact Hin | now apply Hf].
  - split; [|tauto]. intros Hin. split; [exact Hin|].
    intros n [= <-] Hne. apply given_some in Hne. congruence.
Qed.

Lemma job_location_filter (qs : list Job.t) (location : option string) (j : Job.t) :
  In j match location with
       | Some needle =>
           if given location
           then filter (fun j => icontains (Job.location j) needle) qs
           else qs
       | None => qs
       end
  <-> In j qs
      /\ (forall needle, location = Some needle -> needle <> "" ->
            icontains (Job.location j) needle = true).
Proof.
  destruct location as [needle|];
    [|split; [intros H; split; [exact H | discriminate] | tauto]].
  destruct (given (Some needle)) eqn:G.
  - rewrite filter_In. apply given_some in G. split.
    + intros [Hin Hf]. split; [exact Hin|]. now intros n [= <-] _.
    + intros [Hin Hf]. split; [exact Hin | now apply Hf].
  - split; [|tauto]. intros Hin. split; [exact Hin|].
    intros n [= <-] Hne. apply given_some in Hne. congruence.
Qed.

End JobList.

(** X15. The job list shows exactly the active jobs of the store that
    contain [q], when given, in the title, the description or the
    requirement, contain [location], when given, in the location, and, when
    [mine] is given by a caller with an employer profile, belong to that
    profile; the latest comes first; and for a caller without employer
    profile [mine] changes nothing. *)
Theorem job_get_queryset_spec
    (T : Text) (u : request_user) (qp : query_params) (d : db) :
  (forall j,
      In j (job_get_queryset u qp d)
      <-> In j (jobs d)
          /\ Job.is_active j = true
          /\ (forall needle, query_get "q" qp = Some needle -> needle <> "" ->
                icontains (Job.title j) needle
                || icontains (Job.description j) needle
                || icontains (Job.requirement j) needle = true)
          /\ (forall needle, query_get "location" qp = Some needle -> needle <> "" ->
                icontains (Job.location j) needle = true)
          /\ (forall profile,
                given (query_get "mine" qp) = true ->
                employer_profile d u = Some profile ->
                Job.employer j = Employer.id profile))
  /\ StronglySorted not_older (job_get_queryset u qp d)
  /\ (employer_profile d u = None ->
      job_get_queryset u qp d = job_get_queryset None qp d).
Proof.
  unfold job_get_queryset.
  set (base := order_by_created_at_desc (filter Job.is_active (jobs d))).
  set (texted := match query_get "q" qp with
                 | Some needle =>
                     if given (query_get "q" qp)
                     then filter (fun j => icontains (Job.title j) needle
                                           || icontains (Job.description j) needle
                                           || icontains (Job.requirement j) needle)
                                 base
                     else base
                 | None => base
                 end).
  set (placed := match query_get "location" qp with
                 | Some needle =>
                     if given (query_get "location" qp)
                     then filter (fun j => icontains (Job.location j) needle) texted
                     else texted
                 | None => texted
                 end).
  assert (Hbase : forall j, In j base <-> In j (jobs d) /\ Job.is_active j = true)
    by (intros j; unfold base; rewrite order_by_created_at_desc_In; apply filter_In).
  assert (Hplaced : forall j,
             In j placed
             <-> In j (jobs d) /\ Job.is_active j = true
                 /\ (forall needle, query_get "q" qp = Some needle -> needle <> "" ->
                       icontains (Job.title j) needle
                       || icontains (Job.description j) needle
                       || icontains (Job.requirement j) needle = true)
                 /\ (forall needle, query_get "location" qp = Some needle ->
                       needle <> "" -> icontains (Job.location j) needle = true)).
  { intros j. unfold placed. rewrite job_location_filter.
    unfold texted. rewrite job_text_filter, Hbase. tauto. }
  assert (Hsorted : StronglySorted not_older placed).
  { unfold placed, texted.
    destruct (query_get "q" qp) as [n1|], (query_get "location" qp) as [n2|];
      repeat match goal with |- context [if ?b then _ else _] => destruct b end;
      repeat apply sorted_filter; apply order_by_created_at_desc_sorted. }
  split; [|split].
  - intros j.
    destruct (given (query_get "mine" qp) && is_authenticated u) eqn:Hmine.
    + apply andb_true_iff in Hmine as [Hgiven Hauth].
      destruct (employer_profile d u) as [profile|] eqn:Hprofile.
      * rewrite filter_In, Hplaced. split.
        -- intros [(H1 & H2 & H3 & H4) Hown]. repeat split; try assumption.
           intros p _ [= <-]. now apply Z.eqb_eq.
        -- intros (H1 & H2 & H3 & H4 & H5). repeat split; try assumption.
           apply Z.eqb_eq. now apply H5.
      * rewrite Hplaced. split.
        -- intros (H1 & H2 & H3 & H4). repeat split; try assumption. discriminate.
        -- tauto.
    + rewrite Hplaced. split.
      * intros (H1 & H2 & H3 & H4). repeat split; try assumption.
        intros profile Hgiven Hprofile. exfalso.
        rewrite Hgiven in Hmine. destruct u; [discriminate | discriminate].
      * tauto.
  - destruct (given (query_get "mine" qp) && is_authenticated u);
      [|exact Hsorted].
    destruct (employer_profile d u); [now apply sorted_filter | exact Hsorted].
  - intros Hnone. rewrite Hnone. cbn [is_authenticated].
    rewrite andb_false_r. now destruct (given (query_get "mine" qp) && _).
Qed.

Lemma job_get_queryset_spec_witness :
  let qp := [("q", "ANALYST"); ("mine", "1")] in
  In data_analyst (@job_get_queryset ascii_text (Some a_seeker) qp hiring)
  /\ @job_get_queryset ascii_text (Some a_seeker) qp hiring
     = @job_get_queryset ascii_text None qp hiring.
Proof.
  intros qp.
  destruct (job_get_queryset_spec ascii_text (Some a_seeker) qp hiring)
    as (Hin & _ & Hmine).
  split; [|apply Hmine; reflexivity].
  apply Hin. split; [now left|]. split; [reflexivity|].
  split; [intros needle [= <-] _; reflexivity|].
  split; [discriminate | discriminate].
Defined.

(** ** Which applications a list shows *)

Lemma insert_desc_In {A : Type} (key : A -> Z) (x y : A) (sorted : list A) :
  In x (insert_desc key y sorted) <-> x = y \/ In x sorted.
Proof.
  induction sorted as [|h rest IH]; simpl.
  - intuition.
  - destruct (key h <=? key y); simpl.
    + intuition.
    + rewrite IH. intuition.
Qed.

Lemma order_by_desc_In {A : Type} (key : A -> Z) (x : A) (rows : list A) :
  In x (order_by_desc key rows) <-> In x rows.
Proof.
  unfold order_by_desc.
  induction rows as [|r rows IH]; simpl; [reflexivity|].
  rewrite insert_desc_In, IH. intuition.
Qed.

Lemma application_status_filter (qs : list Application.t) (wanted : option string)
    (a : Application.t) :
  In a match wanted with
       | Some w =>
           if given wanted
           then filter (fun a => String.eqb (status_value (Application.status a)) w) qs
           else qs
       | None => qs
       end
  <-> In a qs
      /\ (forall w, wanted = Some w -> w <> "" ->
                    status_value (Application.status a) = w).
Proof.
  destruct wanted as [w|];
    [|split; [intros H; split; [exact H | discriminate] | tauto]].
  destruct (given (Some w)) eqn:G.
  - rewrite filter_In. apply given_some in G. split.
    + intros [Hin Hf]. split; [exact Hin|].
      intros n [= <-] _. now apply String.eqb_eq.
    + intros [Hin Hf]. split; [exact Hin|]. apply String.eqb_eq. now apply Hf.
  - split; [|tauto]. intros Hin. split; [exact Hin|].
    intros n [= <-] Hne. apply given_some in Hne. congruence.
Qed.

(** X16. The application list shows applications of the store with the
    [status] asked for, when one is given.  Without [mine] or [my], for an
    anonymous caller and for a caller with neither profile, it shows them
    all, whoever they belong to; with [mine], a caller with an employer
    profile sees the applications for that employer's jobs only, also when
    it has a seeker profile as well, and a caller with a seeker profile
    alone sees its own applications only. *)
Theorem application_get_queryset_spec
    (u : request_user) (qp : query_params) (d : db) :
  let mine := or_else (query_get "mine" qp) (query_get "my" qp) in
  let shown a :=
    In a (applications_joined d)
    /\ (forall w, query_get "status" qp = Some w -> w <> "" ->
                  status_value (Application.status a) = w) in
  (given mine = false \/ u = None
   \/ (employer_profile d u = None /\ seeker_profile d u = None) ->
   forall a, In a (application_get_queryset u qp d) <-> shown a)
  /\ (forall profile,
        given mine = true -> employer_profile d u = Some profile ->
        forall a, In a (application_get_queryset u qp d)
                  <-> shown a
                      /\ exists j, job_of d a = Some j
                                   /\ Job.employer j = Employer.id profile)
  /\ (forall profile,
        given mine = true -> employer_profile d u = None ->
        seeker_profile d u = Some profile ->
        forall a, In a (application_get_queryset u qp d)
                  <-> shown a /\ Application.seeker a = JobSeeker.id profile).
Proof.
  intros mine shown. unfold application_get_queryset. fold mine.
  set (base := order_by_desc Application.created_at (applications_joined d)).
  set (qs := match query_get "status" qp with
             | Some wanted =>
                 if given (query_get "status" qp)
                 then filter (fun a => String.eqb (status_value (Application.status a))
                                                  wanted) base
                 else base
             | None => base
             end).
  assert (Hqs : forall a, In a qs <-> shown a).
  { intros a. unfold qs, shown. rewrite application_status_filter.
    unfold base. now rewrite order_by_desc_In. }
  split; [|split].
  - intros [Hmine | [-> | [He Hs]]] a.
    + rewrite Hmine. cbn [andb]. apply Hqs.
    + cbn [is_authenticated]. rewrite andb_false_r. apply Hqs.
    + rewrite He, Hs. destruct (given mine && is_authenticated u); apply Hqs.
  - intros profile Hmine Hprofile a. rewrite Hmine, Hprofile.
    assert (Hauth : is_authenticated u = true)
      by (destruct u; [reflexivity | discriminate]).
    rewrite Hauth. cbn [andb]. rewrite filter_In, Hqs. unfold of_employer.
    split.
    + intros [Hshown Hown]. split; [exact Hshown|].
      destruct (job_of d a) as [j|]; [|discriminate].
      exists j. split; [reflexivity | now apply Z.eqb_eq].
    + intros [Hshown (j & -> & Hown)]. split; [exact Hshown | now apply Z.eqb_eq].
  - intros profile Hmine He Hs a. rewrite Hmine, He, Hs.
    assert (Hauth : is_authenticated u = true)
      by (destruct u; [reflexivity | discriminate]).
    rewrite Hauth. cbn [andb]. rewrite filter_In, Hqs.
    split; intros [Hshown Hown]; (split; [exact Hshown | now apply Z.eqb_eq]).
Qed.

Lemma application_get_queryset_spec_witness :
  In an_application (application_get_queryset None [] market)
  /\ ~ In an_application
       (application_get_queryset (Some a_rival) [("my", "1")] market).
Proof.
  destruct (application_get_queryset_spec None [] market)
    as (Hall & _ & _).
  destruct (application_get_queryset_spec (Some a_rival) [("my", "1")]
              market) as (_ & Hemployer & _).
  split.
  - apply Hall; [right; now left|]. split; [now left | discriminate].
  - intros Hin.
    apply (Hemployer {| Employer.id := 2; Employer.user := 10;
                        Employer.company_name := "Rival";
                        Employer.company_website := "";
                        Employer.created_at := 4 |} eq_refl eq_refl) in Hin
      as [_ (j & Hj & Hown)].
    injection Hj as <-. discriminate Hown.
Defined.

(** ** Which users the administration lists *)

Lemma flag_filter_In (v : option string) (column : User.t -> bool)
    (qs : list User.t) (u : User.t) :
  In u (flag_filter v column qs)
  <-> In u qs
      /\ (v = Some "true" -> column u = true)
      /\ (v = Some "false" -> column u = false).
Proof.
  unfold flag_filter, one_of. destruct v as [s|]; cbn [existsb].
  - destruct (String.eqb s "true") eqn:Et; cbn [orb].
    + apply String.eqb_eq in Et. subst s. rewrite filter_In. cbn.
      split.
      * intros [Hin Hb]. split; [exact Hin|]. split; [|discriminate].
        intros _. now destruct (column u).
      * intros (Hin & Ht & _). split; [exact Hin|]. now rewrite Ht.
    + destruct (String.eqb s "false") eqn:Ef; cbn [orb].
      * apply String.eqb_eq in Ef. subst s. rewrite filter_In. cbn.
        split.
        -- intros [Hin Hb]. split; [exact Hin|]. split; [discriminate|].
           intros _. now destruct (column u).
        -- intros (Hin & _ & Hf). split; [exact Hin|]. now rewrite Hf.
      * apply String.eqb_neq in Et, Ef.
        split; [|tauto]. intros Hin. split; [exact Hin|].
        split; intros [= ->]; congruence.
  - split; [|tauto]. intros Hin. split; [exact Hin|]. split; discriminate.
Qed.

(** X17. The user list of the administration shows exactly the users that
    contain [q], when given, in the email or a name, have the [role] asked
    for when it is one of the two roles, and, for each flag whose parameter
    is the string [true] or [false], have that value; a flag parameter with
    any other text, and any other role, filters nothing. *)
Theorem admin_user_get_queryset_spec (T : Text) (qp : query_params) (d : db) :
  forall u,
    In u (admin_user_get_queryset qp d)
    <-> In u (users d)
        /\ (forall needle, query_get "q" qp = Some needle -> needle <> "" ->
              icontains (User.email u) needle
              || icontains (User.first_name u) needle
              || icontains (User.last_name u) needle = true)
        /\ (forall wanted, query_get "role" qp = Some wanted ->
              wanted = "seeker" \/ wanted = "provider" -> User.role u = wanted)
        /\ (query_get "is_active" qp = Some "true" -> User.is_active u = true)
        /\ (query_get "is_active" qp = Some "false" -> User.is_active u = false)
        /\ (query_get "is_staff" qp = Some "true" -> User.is_staff u = true)
        /\ (query_get "is_staff" qp = Some "false" -> User.is_staff u = false)
        /\ (query_get "is_superuser" qp = Some "true" -> User.is_superuser u = true)
        /\ (query_get "is_superuser" qp = Some "false" -> User.is_superuser u = false).
Proof.
  intros u. unfold admin_user_get_queryset.
  rewrite !flag_filter_In.
  set (base := order_by_desc User.date_joined (users d)).
  assert (Hrole : forall qs,
    In u match query_get "role" qp with
         | Some wanted =>
             if one_of (query_get "role" qp) ["seeker"; "provider"]
             then filter (fun u => String.eqb (User.role u) wanted) qs
             else qs
         | None => qs
         end
    <-> In u qs
        /\ (forall wanted, query_get "role" qp = Some wanted ->
              wanted = "seeker" \/ wanted = "provider" -> User.role u = wanted)).
  { intros qs. destruct (query_get "role" qp) as [wanted|];
      [|split; [intros H; split; [exact H | discriminate] | tauto]].
    unfold one_of. cbn [existsb].
    destruct (String.eqb wanted "seeker" || (String.eqb wanted "provider" || false))
      eqn:E.
    - rewrite filter_In. split.
      + intros [Hin Hr]. split; [exact Hin|].
        intros w [= <-] _. now apply String.eqb_eq.
      + intros [Hin Hr]. split; [exact Hin|]. apply String.eqb_eq.
        apply Hr; [reflexivity|].
        apply orb_true_iff in E as [E | E]; [left; now apply String.eqb_eq|].
        rewrite orb_false_r in E. right. now apply String.eqb_eq.
    - split; [|tauto]. intros Hin. split; [exact Hin|].
      intros w [= <-] [-> | ->]; discriminate. }
  assert (Htext : forall qs,
    In u match query_get "q" qp with
         | Some needle =>
             if given (query_get "q" qp)
             then filter (fun u => icontains (User.email u) needle
                                   || icontains (User.first_name u) needle
                                   || icontains (User.last_name u) needle) qs
             else qs
         | None => qs
         end
    <-> In u qs
        /\ (forall needle, query_get "q" qp = Some needle -> needle <> "" ->
              icontains (User.email u) needle
              || icontains (User.first_name u) needle
              || icontains (User.last_name u) needle = true)).
  { intros qs. destruct (query_get "q" qp) as [needle|];
      [|split; [intros H; split; [exact H | discriminate] | tauto]].
    destruct (given (Some needle)) eqn:G.
    - rewrite filter_In. apply given_some in G. split.
      + intros [Hin Hf]. split; [exact Hin|]. now intros n [= <-] _.
      + intros [Hin Hf]. split; [exact Hin | now apply Hf].
    - split; [|tauto]. intros Hin. split; [exact Hin|].
      intros n [= <-] Hne. apply given_some in Hne. congruence. }
  rewrite Hrole, Htext. unfold base. rewrite order_by_desc_In. tauto.
Qed.

Lemma admin_user_get_queryset_spec_witness :
  In a_seeker (@admin_user_get_queryset ascii_text
                 [("q", "PORTAL"); ("role", "seeker"); ("is_active", "yes")] hiring)
  /\ ~ In a_provider (@admin_user_get_queryset ascii_text [("role", "seeker")] hiring).
Proof.
  split.
  - apply (admin_user_get_queryset_spec ascii_text).
    split; [now left|].
    split; [intros needle [= <-] _; reflexivity|].
    split; [intros wanted [= <-] _; reflexivity|].
    repeat split; discriminate.
  - intros Hin. apply (admin_user_get_queryset_spec ascii_text) in Hin
      as (_ & _ & Hrole & _).
    specialize (Hrole "seeker" eq_refl (or_introl eq_refl)). discriminate Hrole.
Defined.

Lemma admin_user_delete_done (caller : request_user) (pk : Z) (d d' : db) :
  admin_user_delete caller pk d = (Ok no_content, d') ->
  users d' = map (soft_delete pk) (users d)
  /\ exists target, In target (users d) /\ User.id target = pk.
Proof.
  unfold admin_user_delete.
  destruct (is_admin_user caller);
    [|unfold permission_denied, raise; destruct caller; discriminate].
  destruct (generic_get_object User.id (users d) pk) as [target|e] eqn:Hget.
  - rewrite (admin_user_destroy_run pk d target Hget). intros [= <-].
    split; [reflexivity|]. exists target. exact (get_object_key _ _ _ _ Hget).
  - unfold admin_user_destroy, and_then. rewrite Hget. discriminate.
Qed.

(** X18. After the delete of a user by the administration, the user list
    filtered on [is_active=true] shows no user of that key, and the list
    filtered on [is_active=false] shows one. *)
Theorem deleted_user_is_listed_inactive
    (T : Text) (caller : request_user) (pk : Z) (d d' : db) :
  admin_user_delete caller pk d = (Ok no_content, d') ->
  (forall u, In u (admin_user_get_queryset [("is_active", "true")] d') ->
             User.id u <> pk)
  /\ (exists u, In u (admin_user_get_queryset [("is_active", "false")] d')
                /\ User.id u = pk).
Proof.
  intros Hrun.
  destruct (admin_user_delete_done caller pk d d' Hrun) as [Husers (target & Hin & Hid)].
  unfold admin_user_get_queryset. cbn [query_get String.eqb Ascii.eqb Bool.eqb].
  split.
  - intros u Hu.
    apply flag_filter_In in Hu as [Hu _].
    apply flag_filter_In in Hu as [Hu _].
    apply flag_filter_In in Hu as (Hrow & Hactive & _).
    apply order_by_desc_In in Hrow. rewrite Husers in Hrow.
    apply in_map_iff in Hrow as (old & <- & _).
    specialize (Hactive eq_refl). intros Heq.
    rewrite soft_delete_id in Heq. unfold soft_delete in Hactive.
    apply Z.eqb_eq in Heq. rewrite Heq in Hactive. discriminate.
  - exists (soft_delete pk target). split; [|now rewrite soft_delete_id].
    apply flag_filter_In; split; [|split; discriminate].
    apply flag_filter_In; split; [|split; discriminate].
    apply flag_filter_In. split; [|split; [discriminate|]].
    + apply order_by_desc_In. rewrite Husers. now apply in_map.
    + intros _. unfold soft_delete. apply Z.eqb_eq in Hid. now rewrite Hid.
Qed.

Lemma deleted_user_is_listed_inactive_witness :
  exists d' u,
    admin_user_delete (Some an_admin) 7 hiring = (Ok no_content, d')
    /\ In u (@admin_user_get_queryset ascii_text [("is_active", "false")] d')
    /\ User.id u = 7.
Proof.
  set (run := admin_user_delete (Some an_admin) 7 hiring).
  assert (Hrun : run = (Ok no_content, snd run)) by reflexivity.
  destruct (deleted_user_is_listed_inactive ascii_text (Some an_admin) 7 hiring
              (snd run) Hrun) as [_ (u & Hu & Hid)].
  exists (snd run), u. repeat split; assumption.
Defined.

(** ** What the validators let through *)

Lemma one_of_In (s : string) (choices : list string) :
  one_of (Some s) choices = true <-> In s choices.
Proof.
  unfold one_of. rewrite existsb_exists. split.
  - intros (x & Hin & Heq). apply String.eqb_eq in Heq. now subst.
  - intros Hin. exists s. split; [exact Hin | apply String.eqb_refl].
Qed.

(** X19. A role that [UserSerializer.validate_role] lets through is
    [seeker] or [provider], and the empty string becomes [seeker]; a gender
    that [validate_gender] lets through is [None], [MALE], [FEMALE] or
    [OTHER]; [AdminUserUpdateSerializer.validate_role] lets [None] through
    untouched and otherwise one of the two roles, and rejects the empty
    string that the other validator takes for a seeker. *)
Theorem validators_range (T : Text) :
  (forall value r, validate_role value = Valid r -> r = "seeker" \/ r = "provider")
  /\ validate_role "" = Valid "seeker"
  /\ (forall value g,
        validate_gender value = Valid g ->
        g = None \/ g = Some "MALE" \/ g = Some "FEMALE" \/ g = Some "OTHER")
  /\ (forall value r,
        admin_validate_role value = Valid r ->
        (value = None /\ r = None) \/ r = Some "seeker" \/ r = Some "provider")
  /\ (str_lower "" = "" -> admin_validate_role (Some "") = Invalid invalid_role).
Proof.
  split; [|split; [reflexivity|split; [|split]]].
  - intros value r. unfold validate_role.
    destruct (negb (given (Some value))); [intros [= <-]; now left|].
    destruct (one_of (Some (str_lower value)) ["seeker"; "provider"]) eqn:E;
      cbn [negb]; [|discriminate].
    intros [= <-]. apply one_of_In in E. cbn in E. intuition.
  - intros value g. unfold validate_gender.
    destruct (negb (given (Some value))); [intros [= <-]; now left|].
    destruct (one_of (Some (str_upper value)) ["MALE"; "FEMALE"; "OTHER"]) eqn:E;
      cbn [negb]; [|discriminate].
    intros [= <-]. apply one_of_In in E. cbn in E.
    destruct E as [<- | [<- | [<- | []]]]; auto.
  - intros value r. unfold admin_validate_role.
    destruct value as [text|]; [|intros [= <-]; now left].
    destruct (one_of (Some (str_lower text)) ["seeker"; "provider"]) eqn:E;
      cbn [negb]; [|discriminate].
    intros [= <-]. apply one_of_In in E. cbn in E.
    destruct E as [<- | [<- | []]]; auto.
  - intros Hlower. unfold admin_validate_role. now rewrite Hlower.
Qed.

Lemma validators_range_witness :
  @admin_validate_role ascii_text (Some "") = Invalid invalid_role
  /\ @validate_role ascii_text "" = Valid "seeker".
Proof.
  destruct (validators_range ascii_text) as (_ & Hblank & _ & _ & Hempty).
  split; [apply Hempty; reflexivity | exact Hblank].
Defined.

(** X20. [AdminUserUpdateSerializer.validate] refuses every update that
    names [is_staff] or [is_superuser] unless the caller is a superuser,
    whatever the values; what it lets through is the update as given but
    for a gender in capitals, and a gender it lets through is empty,
    [MALE], [FEMALE] or [OTHER]. *)
Theorem admin_validate_spec (T : Text) (u : request_user) (attrs : admin_attrs) :
  (is_superuser u = false ->
   at_is_staff attrs <> None \/ at_is_superuser attrs <> None ->
   admin_validate u attrs
   = Invalid "Only superusers can modify staff/superuser flags.")
  /\ (forall attrs',
        admin_validate u attrs = Valid attrs' ->
        (is_superuser u = true
         \/ (at_is_staff attrs = None /\ at_is_superuser attrs = None))
        /\ at_first_name attrs' = at_first_name attrs
        /\ at_last_name attrs' = at_last_name attrs
        /\ at_role attrs' = at_role attrs
        /\ at_is_active attrs' = at_is_active attrs
        /\ at_is_staff attrs' = at_is_staff attrs
        /\ at_is_superuser attrs' = at_is_superuser attrs
        /\ at_phone attrs' = at_phone attrs
        /\ at_dob attrs' = at_dob attrs
        /\ (forall g, at_gender attrs = Some (Some g) ->
                      at_gender attrs' = Some (Some (if given (Some g)
                                                     then str_upper g else g)))
        /\ (forall g, at_gender attrs' = Some (Some g) ->
                      g = "" \/ g = "MALE" \/ g = "FEMALE" \/ g = "OTHER")
        /\ (at_gender attrs = None \/ at_gender attrs = Some None ->
            at_gender attrs' = at_gender attrs)).
Proof.
  unfold admin_validate. split.
  - intros Hsuper Hflags. rewrite Hsuper. cbn [negb].
    destruct (at_is_staff attrs), (at_is_superuser attrs); try reflexivity.
    destruct Hflags; congruence.
  - intros attrs'.
    destruct ((is_some (at_is_staff attrs) || is_some (at_is_superuser attrs))
              && negb (is_superuser u)) eqn:Hguard; [discriminate|].
    assert (Hallowed : is_superuser u = true
                       \/ (at_is_staff attrs = None /\ at_is_superuser attrs = None)).
    { apply andb_false_iff in Hguard as [Hnone | Hsuper].
      - right. apply orb_false_iff in Hnone as [H1 H2].
        destruct (at_is_staff attrs), (at_is_superuser attrs);
          try discriminate; auto.
      - left. now apply negb_false_iff. }
    destruct (at_gender attrs) as [[gender|]|] eqn:Hgender.
    + destruct (given (Some gender)) eqn:Hgiven.
      * destruct (one_of (Some (str_upper gender)) ["MALE"; "FEMALE"; "OTHER"])
          eqn:E; cbn [negb]; [|discriminate].
        intros [= <-]. cbn -[given]. repeat split; auto.
        -- intros g [= <-]. now rewrite Hgiven.
        -- intros g [= <-]. apply one_of_In in E. cbn in E.
           destruct E as [<- | [<- | [<- | []]]]; auto.
        -- intros [Habs | Habs]; discriminate.
      * intros [= <-]. rewrite Hgender. repeat split; auto.
        -- intros g [= <-]. now rewrite Hgiven.
        -- intros g [= <-]. left.
           unfold given in Hgiven. apply negb_false_iff in Hgiven.
           now apply String.eqb_eq.
    + intros [= <-]. rewrite Hgender. repeat split; auto; discriminate.
    + intros [= <-]. rewrite Hgender. repeat split; auto; discriminate.
Qed.

Lemma admin_validate_spec_witness :
  let attrs := {| at_first_name := None; at_last_name := None; at_role := None;
                  at_is_active := None; at_is_staff := Some false;
                  at_is_superuser := None; at_phone := None;
                  at_gender := None; at_dob := None |} in
  @admin_validate ascii_text (Some an_admin) attrs
  = Invalid "Only superusers can modify staff/superuser flags.".
Proof.
  intros attrs.
  destruct (admin_validate_spec ascii_text (Some an_admin) attrs) as [H _].
  apply H; [reflexivity | left; discriminate].
Defined.

(** ** Who logs in *)

Lemma first_by_pk_In {A : Type} (pk : A -> Z) (rows : list A) (r : A) :
  first_by_pk pk rows = Some r -> In r rows.
Proof.
  revert r. induction rows as [|x rows IH]; simpl; [discriminate|].
  intros r. destruct (first_by_pk pk rows) as [best|].
  - destruct (pk best <? pk x); intros [= <-]; [right; now apply IH | now left].
  - intros [= <-]. now left.
Qed.

(** X21. A login that [LoginSerializer.validate] accepts returns a user of
    the store who is active, whose email is the stripped email of the
    request but for the case of its letters, and whose password the hasher
    accepts; and the answer "User account is disabled." is only given for an
    inactive user whose password the request has right. *)
Theorem login_validate_spec
    (P : Platform) (T : Text) (H : Hasher) (data : credentials) (d : db) :
  (forall account,
      login_validate data d = Valid account ->
      In account (users d)
      /\ User.is_active account = true
      /\ iexact (User.email account) (str_strip (cr_email data)) = true
      /\ check_password (User.password account) (cr_password data) = true)
  /\ (login_validate data d = Invalid "User account is disabled." ->
      exists account,
        In account (users d)
        /\ User.is_active account = false
        /\ iexact (User.email account) (str_strip (cr_email data)) = true
        /\ check_password (User.password account) (cr_password data) = true).
Proof.
  unfold login_validate.
  destruct (given (Some (str_strip (cr_email data)))
            && given (Some (cr_password data)));
    [|split; [discriminate | discriminate]].
  destruct (first_by_pk User.id
              (filter (fun u => iexact (User.email u) (str_strip (cr_email data)))
                      (users d))) as [account|] eqn:Hfirst;
    [|split; [discriminate | discriminate]].
  apply first_by_pk_In, filter_In in Hfirst as [Hin Hmail].
  destruct (check_password (User.password account) (cr_password data)) eqn:Hpw;
    [|split; [discriminate | discriminate]].
  destruct (User.is_active account) eqn:Hact; cbn [negb].
  - split; [|discriminate]. intros a [= <-]. auto.
  - split; [discriminate|]. intros _. exists account. auto.
Qed.

Lemma login_validate_spec_witness :
  @login_validate (cpython (fails Timeout)) ascii_text bracket_hasher
    {| cr_email := " member@portal.CM "; cr_password := "secret" |} members
  = Valid a_member.
Proof.
  destruct (login_validate_spec (cpython (fails Timeout)) ascii_text bracket_hasher
              {| cr_email := " member@portal.CM "; cr_password := "secret" |} members)
    as [Hvalid _].
  destruct (@login_validate (cpython (fails Timeout)) ascii_text bracket_hasher
              {| cr_email := " member@portal.CM "; cr_password := "secret" |} members)
    as [account|detail] eqn:E; [|vm_compute in E; discriminate E].
  destruct (Hvalid account eq_refl) as ([<- | [<- | []]] & _ & Hmail & _);
    [discriminate Hmail | reflexivity].
Defined.

(** X22. After the delete of a user by the administration, no login
    returns that user, whatever the email and the password. *)
Theorem deleted_user_cannot_log_in
    (P : Platform) (T : Text) (H : Hasher)
    (caller : request_user) (pk : Z) (d d' : db) :
  admin_user_delete caller pk d = (Ok no_content, d') ->
  forall data account,
    login_validate data d' = Valid account -> User.id account <> pk.
Proof.
  intros Hrun data account.
  destruct (admin_user_delete_done caller pk d d' Hrun) as [Husers _].
  unfold login_validate.
  destruct (given (Some (str_strip (cr_email data)))
            && given (Some (cr_password data))); [|discriminate].
  destruct (first_by_pk User.id
              (filter (fun u => iexact (User.email u) (str_strip (cr_email data)))
                      (users d'))) as [found|] eqn:Hfirst; [|discriminate].
  apply first_by_pk_In, filter_In in Hfirst as [Hin _].
  destruct (check_password (User.password found) (cr_password data));
    [|discriminate].
  destruct (User.is_active found) eqn:Hact; cbn [negb]; [|discriminate].
  intros [= <-] Heq.
  rewrite Husers in Hin. apply in_map_iff in Hin as (old & <- & _).
  rewrite soft_delete_id in Heq. unfold soft_delete in Hact.
  apply Z.eqb_eq in Heq. rewrite Heq in Hact. discriminate.
Qed.

Lemma deleted_user_cannot_log_in_witness :
  @login_validate (cpython (fails Timeout)) ascii_text bracket_hasher
    {| cr_email := "member@portal.cm"; cr_password := "secret" |}
    (snd (admin_user_delete (Some an_admin) 11 members))
  <> Valid (soft_delete 11 a_member).
Proof.
  intros Hlogin.
  assert (Hrun : admin_user_delete (Some an_admin) 11 members
                 = (Ok no_content, snd (admin_user_delete (Some an_admin) 11 members)))
    by reflexivity.
  apply (deleted_user_cannot_log_in (cpython (fails Timeout)) ascii_text
           bracket_hasher (Some an_admin) 11 members _ Hrun _ _ Hlogin).
  reflexivity.
Defined.

(** ** Who sees a new interview *)

Lemma insert_before_In {A : Type} (precedes : A -> A -> bool) (x y : A)
    (sorted : list A) :
  In x (insert_before precedes y sorted) <-> x = y \/ In x sorted.
Proof.
  induction sorted as [|h rest IH]; simpl.
  - intuition.
  - destruct (precedes y h); simpl.
    + intuition.
    + rewrite IH. intuition.
Qed.

Lemma order_by_In {A : Type} (precedes : A -> A -> bool) (x : A) (rows : list A) :
  In x (order_by precedes rows) <-> In x rows.
Proof.
  unfold order_by.
  induction rows as [|r rows IH]; simpl; [reflexivity|].
  rewrite insert_before_In, IH. intuition.
Qed.

Lemma get_application_joined (d : db) (pk : option Z) (app : Application.t)
    (job : Job.t) (emp : Employer.t) :
  get_application d pk = Ok (app, job, emp) ->
  find (fun a => Application.id a =? Application.id app) (applications d) = Some app
  /\ job_of d app = Some job
  /\ employer_of d job = Some emp.
Proof.
  unfold get_application, job_of, employer_of.
  destruct pk as [n|]; [|discriminate].
  destruct (find (fun a => Application.id a =? n) (applications d)) as [a|] eqn:Ha;
    [|discriminate].
  destruct (find (fun j => Job.id j =? Application.job a) (jobs d)) as [j|] eqn:Hj;
    [|discriminate].
  destruct (find (fun e => Employer.id e =? Job.employer j) (employers d))
    as [e|] eqn:He; [|discriminate].
  intros [= <- <- <-]. repeat split; try assumption.
  pose proof (find_some _ _ Ha) as [_ Hid]. apply Z.eqb_eq in Hid.
  now rewrite Hid.
Qed.

Section Seen.
Context {P : Platform}.

Lemma interview_perform_create_same (u : request_user) (request_data : json)
    (vd : interview_data) (now : datetime) (d d' : db) (outcome : result unit) :
  interview_perform_create u request_data vd now d = (outcome, d') ->
  same_besides_interviewing d d'.
Proof.
  unfold interview_perform_create, and_then, query, lift.
  destruct (negb (is_authenticated u) || negb (is_role u "provider")
            || match employer_profile d u with Some _ => false | None => true end);
    [intros [= <- <-]; repeat split|].
  destruct (py_get request_data "application" JNull) as [v|];
    [|intros [= <- <-]; repeat split].
  destruct (pk_prep v) as [pk|]; [|intros [= <- <-]; repeat split].
  destruct (get_application d pk) as [[[app job] emp]|e];
    [|destruct e; intros [= <- <-]; repeat split].
  destruct (employer_profile d u) as [profile|];
    [|intros [= <- <-]; repeat split].
  destruct (negb (Job.employer job =? Employer.id profile));
    [intros [= <- <-]; repeat split|].
  cbn [save_interview]. unfold update_or_create_appointment.
  match goal with
  | |- context [filter (for_application app) ?l] =>
      destruct (filter (for_application app) l) as [|found [|second more]]
  end; intros [= <- <-]; repeat split.
Qed.

End Seen.

(** X23. After an employer has created an interview for an application,
    the interview is in the employer's own list of interviews, and the
    appointment that copies it is in the own list of appointments of the
    seeker who applied. *)
Theorem new_interview_is_listed
    (P : Platform) (account applicant_account : User.t) (request_data v : json)
    (pk : option Z) (app : Application.t) (job : Job.t) (emp profile : Employer.t)
    (s : JobSeeker.t) (vd : interview_data) (now : datetime) (d : db) :
  User.role account = "provider" ->
  employer_profile d (Some account) = Some profile ->
  py_get request_data "application" JNull = Ok v ->
  pk_prep v = Ok pk ->
  get_application d pk = Ok (app, job, emp) ->
  Job.employer job = Employer.id profile ->
  one_appointment d app ->
  seeker_of d app = Some s ->
  user_of d s = Some applicant_account ->
  seeker_profile d (Some applicant_account) = Some s ->
  exists d' interview appt,
    interview_perform_create (Some account) request_data vd now d = (Ok tt, d')
    /\ records interview app vd
    /\ mirrors appt interview
    /\ In interview (interview_get_queryset (Some account) [("mine", "1")] d')
    /\ In appt (appointment_get_queryset (Some applicant_account) [("my", "1")] d').
Proof.
  intros Hrole Hprofile Hget Hprep Happ Howner Hone Hseeker Huser Hsp.
  destruct (interview_perform_create_step account request_data v pk app job emp
              profile vd now d Hrole Hprofile Hget Hprep Happ Howner Hone)
    as (d' & interview & appt & Hrun & Hints & Hrec & Hfor & Hmir & _ & _ & _
        & Hemp & Hjobs & Happs).
  destruct (interview_perform_create_same _ _ _ _ _ _ _ Hrun)
    as (Husers & _ & Hseekers & _).
  destruct (get_application_joined _ _ _ _ _ Happ) as (Hfind & Hjob & Hemployer).
  assert (Hjob' : job_of d' app = Some job) by (unfold job_of in *; now rewrite Hjobs).
  assert (Hemployer' : employer_of d' job = Some emp)
    by (unfold employer_of in *; now rewrite Hemp).
  assert (Hown : of_employer d' profile app = true)
    by (unfold of_employer; rewrite Hjob'; now apply Z.eqb_eq).
  exists d', interview, appt.
  split; [exact Hrun|]. split; [exact Hrec|]. split; [exact Hmir|]. split.
  - (* the employer's list *)
    assert (Happ' : application_of d' interview = Some app).
    { unfold application_of. rewrite Happs.
      destruct Hrec as (-> & _). exact Hfind. }
    unfold interview_get_queryset. cbn [query_get or_else given String.eqb
      Ascii.eqb Bool.eqb negb andb is_authenticated].
    assert (Hprofile' : employer_profile d' (Some account) = Some profile)
      by (unfold employer_profile in *; now rewrite Hemp).
    rewrite Hprofile'. apply filter_In. split; [|now rewrite Happ'].
    apply order_by_desc_In. unfold interviews_joined. apply filter_In.
    split; [rewrite Hints; apply in_or_app; right; now left|].
    now rewrite Happ', Hjob', Hemployer'.
  - (* the seeker's list *)
    assert (Hrow : In appt (appointments d') /\ for_application app appt = true)
      by (apply filter_In; unfold appointments_for in Hfor; rewrite Hfor; now left).
    destruct Hrow as [Hin Hmatch]. apply Z.eqb_eq in Hmatch.
    assert (Happ' : appointment_application d' appt = Some app)
      by (unfold appointment_application; rewrite Happs, Hmatch; exact Hfind).
    assert (Hseeker' : seeker_of d' app = Some s)
      by (unfold seeker_of in *; now rewrite Hseekers).
    assert (Huser' : user_of d' s = Some applicant_account)
      by (unfold user_of in *; now rewrite Husers).
    assert (Hsp' : seeker_profile d' (Some applicant_account) = Some s)
      by (unfold seeker_profile in *; now rewrite Hseekers).
    unfold appointment_get_queryset. cbn [query_get or_else given String.eqb
      Ascii.eqb Bool.eqb negb andb is_authenticated].
    rewrite Hsp'. apply filter_In. split.
    + apply order_by_In. unfold appointments_joined. apply filter_In.
      split; [exact Hin|].
      now rewrite Happ', Hjob', Hseeker', Hemployer', Huser'.
    + rewrite Happ'. unfold seeker_of in Hseeker.
      apply find_some in Hseeker as [_ Hid]. apply Z.eqb_eq in Hid.
      apply Z.eqb_eq. now symmetry.
Qed.

Lemma new_interview_is_listed_witness :
  let X := cpython (fails Timeout) in
  let body := JObj [("application", JInt 5)] in
  exists d' appt,
    @interview_perform_create X (Some a_provider) body tech_round 41 market
    = (Ok tt, d')
    /\ Appointment.title appt = "Tech round"
    /\ In appt (appointment_get_queryset (Some a_seeker) [("my", "1")] d').
Proof.
  intros X body.
  destruct (new_interview_is_listed X a_provider a_seeker body (JInt 5) (Some 5)
              an_application backend_eng an_employer an_employer
              {| JobSeeker.id := 3; JobSeeker.user := 7;
                 JobSeeker.resume_url := ""; JobSeeker.resume_text := "SQL";
                 JobSeeker.created_at := 3 |}
              tech_round 41 market)
    as (d' & interview & appt & Hrun & Hrec & Hmir & _ & Hseen);
    try reflexivity.
  - split; [constructor | cbn; lia].
  - exists d', appt. split; [exact Hrun|]. split; [|exact Hseen].
    destruct Hrec as (_ & Htitle & _). destruct Hmir as (_ & Hat & _).
    now rewrite Hat, Htitle.
Defined.

(** ** Which appointments a list shows *)

(** X24. Without [mine] or [my], for an anonymous caller and for a caller
    with neither profile, the appointment list shows every appointment of
    the store; with one of them, a caller with a seeker profile sees the
    appointments of its own applications only, also when it has an employer
    profile as well, and a caller with an employer profile alone sees the
    appointments for that employer's jobs only. *)
Theorem appointment_get_queryset_spec
    (u : request_user) (qp : query_params) (d : db) :
  let mine := or_else (query_get "mine" qp) (query_get "my" qp) in
  (given mine = false \/ u = None
   \/ (seeker_profile d u = None /\ employer_profile d u = None) ->
   forall a, In a (appointment_get_queryset u qp d) <-> In a (appointments_joined d))
  /\ (forall profile,
        given mine = true -> seeker_profile d u = Some profile ->
        forall a, In a (appointment_get_queryset u qp d)
                  <-> In a (appointments_joined d)
                      /\ exists app, appointment_application d a = Some app
                                     /\ Application.seeker app = JobSeeker.id profile)
  /\ (forall profile,
        given mine = true -> seeker_profile d u = None ->
        employer_profile d u = Some profile ->
        forall a, In a (appointment_get_queryset u qp d)
                  <-> In a (appointments_joined d)
                      /\ exists app job,
                           appointment_application d a = Some app
                           /\ job_of d app = Some job
                           /\ Job.employer job = Employer.id profile).
Proof.
  intros mine. unfold appointment_get_queryset. fold mine.
  split; [|split].
  - intros [Hmine | [-> | [Hs He]]] a.
    + rewrite Hmine. cbn [andb]. apply order_by_In.
    + cbn [is_authenticated]. rewrite andb_false_r. apply order_by_In.
    + rewrite Hs, He. destruct (given mine && is_authenticated u); apply order_by_In.
  - intros profile Hmine Hprofile a. rewrite Hmine, Hprofile.
    assert (Hauth : is_authenticated u = true)
      by (destruct u; [reflexivity | discriminate]).
    rewrite Hauth. cbn [andb]. rewrite filter_In, order_by_In. split.
    + intros [Hin Hown]. split; [exact Hin|].
      destruct (appointment_application d a) as [app|]; [|discriminate].
      exists app. split; [reflexivity | now apply Z.eqb_eq].
    + intros [Hin (app & -> & Hown)]. split; [exact Hin | now apply Z.eqb_eq].
  - intros profile Hmine Hs He a. rewrite Hmine, Hs, He.
    assert (Hauth : is_authenticated u = true)
      by (destruct u; [reflexivity | discriminate]).
    rewrite Hauth. cbn [andb]. rewrite filter_In, order_by_In.
    unfold of_employer. split.
    + intros [Hin Hown]. split; [exact Hin|].
      destruct (appointment_application d a) as [app|]; [|discriminate].
      destruct (job_of d app) as [job|] eqn:Hjob; [|discriminate].
      exists app, job. repeat split; [exact Hjob | now apply Z.eqb_eq].
    + intros [Hin (app & job & -> & -> & Hown)].
      split; [exact Hin | now apply Z.eqb_eq].
Qed.

Lemma appointment_get_queryset_spec_witness :
  In an_appointment (appointment_get_queryset None [("mine", "1")] booked)
  /\ ~ In an_appointment
       (appointment_get_queryset (Some a_rival) [("mine", "1")] booked).
Proof.
  split.
  - destruct (appointment_get_queryset_spec None [("mine", "1")] booked) as [H _].
    apply H; [right; now left | now left].
  - destruct (appointment_get_queryset_spec (Some a_rival) [("mine", "1")] booked)
      as (_ & _ & H).
    intros Hin.
    apply (H {| Employer.id := 2; Employer.user := 10;
                Employer.company_name := "Rival";
                Employer.company_website := "";
                Employer.created_at := 4 |} eq_refl eq_refl eq_refl) in Hin
      as [_ (app & job & Happ & Hjob & Hown)].
    injection Happ as <-. injection Hjob as <-. discriminate Hown.
Defined.
